(** * Persistence and backup core of the Pak-Kharcha expense tracker

    A shallow embedding of [CSVDataManager] (src/lib/ai-service.ts, the part
    headed [src/lib/csv-data-manager.ts]) and of [BackupManager]
    (src/lib/backup-manager.tsx), followed by the properties of the
    serializer, the validators, the import and restore workflows and the
    retention of local snapshots.

    The file has four parts: the model of the two classes; a reference
    engine on which the model runs; the vocabulary of the properties and the
    data of the examples; the lemmas and theorems.

    Conventions of the embedding.
    - A JavaScript string is a [string]; each [ascii] stands for one UTF-16
      code unit below 256.
    - A JavaScript number is a binary64 [float]; comparisons are the IEEE ones
      of [PrimFloat], so that [NaN] fails every comparison as it does in
      JavaScript.
    - [localStorage] is a [gmap string string]; the order in which
      [localStorage.key(i)] enumerates the keys is that of [map_to_list].
      The store accepts every write: the quota at which [setItem] throws is
      not part of the model.  What is proved of a call that failed is
      therefore proved only of failures that occur before its first write,
      and what is proved of the store after a call is proved of a call
      whose writes were accepted.
    - A thrown [Error] is the left injection of a sum and carries the message.
    - The clock is an input: every reading of [Date.now()] or [new Date()]
      that the code performs is an argument, in milliseconds since the epoch;
      the readings that one loop repeats for every row are one argument.
    - A day is 86400000 ms: [setDate] is taken in a time zone that keeps its
      offset.
    - What belongs to the JavaScript engine rather than to the repository
      (number printing and parsing, date parsing, JSON, [crypto.randomUUID])
      is a field of the record [Runtime]. *)

From Stdlib Require Import ZArith Lia List String Ascii Bool.
From Stdlib Require Import PrimFloat FloatOps Uint63.
From Stdlib Require FloatAxioms DecimalPos.
From Stdlib Require Import DecimalString DecimalNat DecimalZ.
From Stdlib Require Import HexadecimalString HexadecimalZ.
From stdpp Require Import base option list gmap strings.

Local Open Scope Z_scope.

#[local] Arguments String.append !_ _ / : simpl nomatch.
#[local] Arguments Ascii.eqb : simpl never.

(** ** Thrown errors *)

Module Exn.

(** [js A]: a computation that returns an [A] or throws an [Error] whose
    [message] is the string on the left. *)
Definition js (A : Type) : Type := (string + A)%type.

Definition ret {A} (a : A) : js A := inr a.

Definition throw {A} (msg : string) : js A := inl msg.

Definition bind {A B} (k : A → js B) (m : js A) : js B :=
  match m with
  | inl msg => inl msg
  | inr a => k a
  end.

(** [try { m } catch (error) { h error.message }]. *)
Definition catch {A} (m : js A) (h : string → A) : A :=
  match m with
  | inl msg => h msg
  | inr a => a
  end.

#[export] Instance js_ret : MRet js := @ret.
#[export] Instance js_bind : MBind js := @bind.

End Exn.

Import Exn.

(** ** Strings *)

Module Str.

(** The double quote, code unit 34. *)
Definition dq : ascii :=
  Ascii false true false false false true false false.

(** The line feed, code unit 10. *)
Definition nl : ascii :=
  Ascii false true false true false false false false.

Definition comma : ascii := ","%char.

Definition hash : ascii := "#"%char.

Definition str1 (c : ascii) : string := String c EmptyString.

(** [s.includes(c)] for a single character. *)
Fixpoint has_char (c : ascii) (s : string) : bool :=
  match s with
  | EmptyString => false
  | String d r => Ascii.eqb d c || has_char c r
  end.

(** [s.startsWith(p)]. *)
Fixpoint startsWith (p s : string) : bool :=
  match p, s with
  | EmptyString, _ => true
  | String _ _, EmptyString => false
  | String a p', String b s' => Ascii.eqb b a && startsWith p' s'
  end.

(** [s.includes(sub)]. *)
Fixpoint includes (sub s : string) : bool :=
  startsWith sub s ||
  match s with
  | EmptyString => false
  | String _ r => includes sub r
  end.

(** [s.endsWith(suf)]: some suffix of [s] is [suf]. *)
Fixpoint endsWith (suf s : string) : bool :=
  String.eqb s suf ||
  match s with
  | EmptyString => false
  | String _ r => endsWith suf r
  end.

(** White space of [String.prototype.trim] among the code units below 256:
    TAB, LF, VT, FF, CR, SPACE and NBSP. *)
Definition is_space (c : ascii) : bool :=
  let n := nat_of_ascii c in
  ((9 <=? n)%nat && (n <=? 13)%nat) || (n =? 32)%nat || (n =? 160)%nat.

Fixpoint trimStart (s : string) : string :=
  match s with
  | EmptyString => EmptyString
  | String c r => if is_space c then trimStart r else s
  end.

Fixpoint trimEnd (s : string) : string :=
  match s with
  | EmptyString => EmptyString
  | String c r =>
      let r' := trimEnd r in
      if is_space c && String.eqb r' EmptyString then EmptyString
      else String c r'
  end.

(** [s.trim()]. *)
Definition trim (s : string) : string := trimEnd (trimStart s).

(** [s.split('\n')]: never empty, one more piece than there are line feeds. *)
Fixpoint split_lines (s : string) : list string :=
  match s with
  | EmptyString => [EmptyString]
  | String c r =>
      if Ascii.eqb c nl then EmptyString :: split_lines r
      else match split_lines r with
           | l :: ls => String c l :: ls
           | [] => [str1 c]
           end
  end.

(** [parts.join(sep)]. *)
Definition join (sep : string) (parts : list string) : string :=
  String.concat sep parts.

(** One character of [toLowerCase]: A-Z and the Latin-1 capitals. *)
Definition lower_char (c : ascii) : ascii :=
  let n := nat_of_ascii c in
  if ((65 <=? n)%nat && (n <=? 90)%nat)
     || ((192 <=? n)%nat && (n <=? 222)%nat && negb (n =? 215)%nat)
  then ascii_of_nat (n + 32) else c.

Fixpoint toLowerCase (s : string) : string :=
  match s with
  | EmptyString => EmptyString
  | String c r => String (lower_char c) (toLowerCase r)
  end.

(** [s.replace] of every double quote by two of them. *)
Fixpoint double_quotes (s : string) : string :=
  match s with
  | EmptyString => EmptyString
  | String c r =>
      if Ascii.eqb c dq then String dq (String dq (double_quotes r))
      else String c (double_quotes r)
  end.

(** [s.replace] of every colon and full stop by a dash. *)
Fixpoint dash_colons (s : string) : string :=
  match s with
  | EmptyString => EmptyString
  | String c r =>
      String (if Ascii.eqb c ":" || Ascii.eqb c "." then "-"%char else c)
             (dash_colons r)
  end.

(** Decimal digits of a natural number, as [n.toString()] prints an index or
    a length. *)
Definition of_nat (n : nat) : string :=
  DecimalString.NilEmpty.string_of_uint (Nat.to_uint n).

(** Decimal digits of an integer, with a leading minus sign when negative. *)
Definition of_Z (z : Z) : string :=
  DecimalString.NilZero.string_of_int (Z.to_int z).

End Str.

Import Str.

(** ** JavaScript values and the engine *)

(** A value as [JSON.parse] produces it.  The properties of an object are in
    insertion order, each key once; [undefined] is the [None] of an
    [option json]. *)
#[warnings="-register-all"]
Inductive json : Type :=
| JNull
| JBool (b : bool)
| JNum (n : float)
| JStr (s : string)
| JArr (items : list json)
| JObj (props : list (string * json)).

(** What the engine provides.  Nothing is assumed of these functions except
    where a theorem says so. *)
Record Runtime : Type := {
  (** [n.toString()] of a number. *)
  num_toString : float → string;
  (** [parseFloat(s)]. *)
  parseFloat : string → float;
  (** [new Date(v).getTime()]; [None] stands for [NaN] (an invalid date). *)
  Date_value : json → option Z;
  (** [new Date(t).toISOString()]. *)
  toISOString : Z → string;
  (** The instant one calendar month after [t], as
      [next.setMonth(now.getMonth() + 1)] computes it. *)
  add_month : Z → Z;
  (** [JSON.stringify(v)]. *)
  JSON_stringify : json → string;
  (** [JSON.parse(s)]; the left injection is the message of the SyntaxError. *)
  JSON_parse : string → js json;
  (** The value [crypto.randomUUID()] returns while row [i] is converted. *)
  randomUUID : nat → string;
  (** The message of the TypeError thrown when a property of [null] or
      [undefined] is read, or when a value that is not a function is called. *)
  type_error : string
}.

Module Js.

(** [!!v]: [null], [false], [0], [-0], [NaN] and the empty string are falsy. *)
Definition truthy (v : json) : bool :=
  match v with
  | JNull => false
  | JBool b => b
  | JNum n => negb (PrimFloat.eqb n 0%float || PrimFloat.is_nan n)
  | JStr s => negb (String.eqb s EmptyString)
  | JArr _ | JObj _ => true
  end.

(** [!!v] where [v] may be [undefined]. *)
Definition truthy_opt (v : option json) : bool :=
  match v with
  | None => false
  | Some v => truthy v
  end.

Fixpoint assoc (k : string) (props : list (string * json)) : option json :=
  match props with
  | [] => None
  | (k', v) :: r => if String.eqb k' k then Some v else assoc k r
  end.

(** [v.k] for a value that is not [null]: [undefined] unless [v] is an object
    that has the property.  (The names read by this program are no built-in
    property of a string, number, boolean or array.) *)
Definition get (v : json) (k : string) : option json :=
  match v with
  | JObj props => assoc k props
  | _ => None
  end.

(** [typeof v === 'string']. *)
Definition is_string (v : option json) : bool :=
  match v with
  | Some (JStr _) => true
  | _ => false
  end.

(** [v === s] for a string [s]. *)
Definition is_str (s : string) (v : option json) : bool :=
  match v with
  | Some (JStr s') => String.eqb s' s
  | _ => false
  end.

(** 32-bit two's complement wrap-around ([ToInt32]). *)
Definition to_int32 (z : Z) : Z := (z + 2 ^ 31) mod 2 ^ 32 - 2 ^ 31.

(** [n.toString(16)] of an integer: lower-case digits, a minus sign when
    negative. *)
Definition hex (z : Z) : string :=
  HexadecimalString.NilZero.string_of_int (Z.to_hex_int z).

(** [content.charCodeAt(i)]. *)
Definition charCode (c : ascii) : Z := Z.of_N (N_of_ascii c).

(** The loop of [calculateChecksum]: [hash = ((hash << 5) - hash) + char]
    then [hash = hash & hash]. *)
Fixpoint checksum_loop (content : string) (hash : Z) : Z :=
  match content with
  | EmptyString => hash
  | String c r =>
      let hash := to_int32 (Z.shiftl hash 5) - hash + charCode c in
      checksum_loop r (to_int32 hash)
  end.

(** [calculateChecksum], the same function in both classes. *)
Definition calculateChecksum (content : string) : string :=
  hex (checksum_loop content 0).

(** The number [n] of a length or a count. *)
Definition num_of_nat (n : nat) : float :=
  PrimFloat.of_uint63 (Uint63.of_Z (Z.of_nat n)).

Section WithRuntime.
Context (rt : Runtime).

(** [v.k]: throws on [null] and [undefined]. *)
Definition prop (v : option json) (k : string) : js (option json) :=
  match v with
  | None | Some JNull => throw (type_error rt)
  | Some v => mret (get v k)
  end.

(** [String(v)]. An array prints its elements separated by commas, [null]
    elements as nothing; an object prints as [[object Object]]. *)
Fixpoint to_String (v : json) : string :=
  match v with
  | JNull => "null"
  | JBool b => if b then "true" else "false"
  | JNum n => num_toString rt n
  | JStr s => s
  | JArr items =>
      join "," (map (λ x, match x with JNull => EmptyString | _ => to_String x end)
                    items)
  | JObj _ => "[object Object]"
  end.

(** [String(v)] where [v] may be [undefined]. *)
Definition String_of (v : option json) : string :=
  match v with
  | None => "undefined"
  | Some v => to_String v
  end.

(** [v.toString()]: throws on [null] and [undefined]. *)
Definition toString (v : option json) : js string :=
  match v with
  | None | Some JNull => throw (type_error rt)
  | Some v => mret (to_String v)
  end.

(** [new Date(v).getTime()] where [v] may be [undefined]. *)
Definition Date_time (v : option json) : option Z :=
  match v with
  | None => None
  | Some v => Date_value rt v
  end.

End WithRuntime.

End Js.

Import Js.

(** ** Data model *)

(** [Expense] of src/context/ExpenseContext.tsx. *)
Record Expense : Type := {
  id : string;
  amount : float;
  category : string;
  description : string;
  date : string
}.

(** The object an [Expense] is at run time, properties in the order in which
    [csvRowToExpense] creates them. *)
Definition json_of_expense (e : Expense) : json :=
  JObj [("id", JStr (id e)); ("amount", JNum (amount e));
        ("category", JStr (category e)); ("description", JStr (description e));
        ("date", JStr (date e))].

Definition expenses_json (es : list Expense) : json :=
  JArr (map json_of_expense es).

(** A [File] handed over by the browser: its name, its size in bytes and the
    text that [file.text()] resolves to. *)
Record File : Type := {
  File_name : string;
  File_size : Z;
  File_text : string
}.

(** One [console.warn(message, detail)]. *)
Definition warning : Type := (string * list string)%type.

(** ** CSVDataManager *)

Module CSVDataManager.

Record CSVImportResult : Type := {
  success : bool;
  importedCount : nat;
  skippedCount : nat;
  errors : list string
}.

Definition CSV_VERSION : string := "2.0".

Definition getFileName (username : string) : string :=
  "pak-kharcha-" +:+ toLowerCase username +:+ "-expenses.csv".

Definition storageKey (username : string) : string :=
  "csv-" +:+ getFileName username.

Definition backupKey (username : string) : string :=
  "csv-backup-" +:+ getFileName username.

Definition metadataKey (username : string) : string :=
  "csv-metadata-" +:+ getFileName username.

Definition validCategories : list string :=
  ["Food & Groceries"; "Transportation"; "Utilities"; "Housing"; "Healthcare";
   "Education"; "Entertainment"; "Shopping"; "Charity/Zakat"; "Mobile/Internet";
   "Family Support"; "Debt Payment"; "Miscellaneous"].

(** The column-header line. *)
Definition columns : string := "id,amount,category,description,date".

Section WithRuntime.
Context (rt : Runtime).

(** [validateExpense]; it is only called on the object [csvRowToExpense]
    builds, whose five properties are present with the types of [Expense],
    so every [typeof] test of the source holds.  [now] is [new Date()]. *)
Definition validateExpense (now : Z) (expense : Expense) : bool * list string :=
  let e_id :=
    if String.eqb (id expense) "" then ["Invalid or missing ID"] else [] in
  let e_amount :=
    if PrimFloat.leb (amount expense) 0%float
       || PrimFloat.ltb 10000000%float (amount expense)
    then ["Amount must be a positive number between 1 and 10,000,000"]
    else [] in
  let e_category :=
    if String.eqb (category expense) ""
       || negb (existsb (String.eqb (category expense)) validCategories)
    then ["Invalid category. Must be one of: " +:+ join ", " validCategories]
    else [] in
  let e_short :=
    if String.eqb (description expense) ""
       || (String.length (description expense) <? 2)%nat
    then ["Description must be at least 2 characters long"] else [] in
  let e_long :=
    if negb (String.eqb (description expense) "")
       && (200 <? String.length (description expense))%nat
    then ["Description cannot exceed 200 characters"] else [] in
  let e_date :=
    if String.eqb (date expense) "" then ["Invalid or missing date"]
    else match Date_value rt (JStr (date expense)) with
         | None => ["Invalid date format"]
         | Some t => if now <? t then ["Date cannot be in the future"] else []
         end in
  let errors := e_id ++ e_amount ++ e_category ++ e_short ++ e_long ++ e_date in
  ((length errors =? 0)%nat, errors).

(** [escapeCSVField], the helper local to [expenseToCSVRow]. *)
Definition escapeCSVField (field : option json) : string :=
  let stringField := String_of rt field in
  if has_char comma stringField || has_char dq stringField
     || has_char nl stringField
  then str1 dq +:+ double_quotes stringField +:+ str1 dq
  else stringField.

(** [expenseToCSVRow]; at run time the argument is whatever the caller put in
    the array. *)
Definition expenseToCSVRow (expense : json) : js string :=
  f_id ← prop rt (Some expense) "id";
  f_amount ← prop rt (Some expense) "amount";
  s_amount ← toString rt f_amount;
  f_category ← prop rt (Some expense) "category";
  f_description ← prop rt (Some expense) "description";
  f_date ← prop rt (Some expense) "date";
  mret (join "," [escapeCSVField f_id; s_amount; escapeCSVField f_category;
                  escapeCSVField f_description; escapeCSVField f_date]).

(** The tokenizer loop of [csvRowToExpense] on the characters from index [i]
    on: [row] is the rest of the row, [current], [inQuotes] and [fields] are
    the variables of the loop; the result is [fields] after the last field
    was pushed. *)
Fixpoint parseFields (row current : string) (inQuotes : bool)
    (fields : list string) : list string :=
  match row with
  | EmptyString => fields ++ [trim current]
  | String char rest =>
      if Ascii.eqb char dq then
        match inQuotes, rest with
        | true, String next rest' =>
            if Ascii.eqb next dq
            then parseFields rest' (current +:+ str1 dq) inQuotes fields
            else parseFields rest current (negb inQuotes) fields
        | _, _ => parseFields rest current (negb inQuotes) fields
        end
      else if Ascii.eqb char comma && negb inQuotes
      then parseFields rest EmptyString inQuotes (fields ++ [trim current])
      else parseFields rest (current +:+ str1 char) inQuotes fields
  end.

(** [csvRowToExpense].  Nothing in its [try] block throws, so the [catch]
    is not reached. *)
Definition csvRowToExpense (now : Z) (row : string) (rowIndex : nat)
    : option Expense * list string :=
  let fields := parseFields row EmptyString false [] in
  match fields with
  | [f_id; amountStr; f_category; f_description; f_date] =>
      let amount := parseFloat rt amountStr in
      let errors :=
        if PrimFloat.is_nan amount
        then ["Row " +:+ Str.of_nat rowIndex +:+ ": Invalid amount "
              +:+ str1 dq +:+ amountStr +:+ str1 dq]
        else [] in
      let expense :=
        {| id := if String.eqb f_id "" then randomUUID rt rowIndex else f_id;
           amount := amount;
           category := f_category;
           description := f_description;
           date := f_date |} in
      let validation := validateExpense now expense in
      if negb (fst validation)
      then (None, errors ++ ["Row " +:+ Str.of_nat rowIndex +:+ ": "
                             +:+ join ", " (snd validation)])
      else (Some expense, [])
  | _ =>
      (None, ["Row " +:+ Str.of_nat rowIndex +:+ ": Expected 5 fields, got "
              +:+ Str.of_nat (length fields)])
  end.

(** The header that [saveExpenses] writes before the rows. *)
Definition csvHeader (username timestamp : string) (count : nat) : string :=
  join (str1 nl)
    ["# Pak-Kharcha Expense Data Export";
     "# Version: " +:+ CSV_VERSION;
     "# User: " +:+ username;
     "# Export Date: " +:+ timestamp;
     "# Total Expenses: " +:+ Str.of_nat count;
     "#";
     columns] +:+ str1 nl.

(** [saveExpenses]; [now] is the instant of [new Date()].  It resolves to
    [true] or throws, so the result is the store after the call or the
    message of the error.  The first test is
    [!username || !Array.isArray(expenses)]; every row is built before
    anything is written.  The three [setItem] calls are inserts, which the
    store accepts: a [setItem] that throws for want of room, after an
    earlier write of the same call went through, has no counterpart here,
    and nothing below is stated of the store such a call leaves. *)
Definition saveExpenses (now : Z) (st : gmap string string)
    (username : string) (expenses : json) : js (gmap string string) :=
  let body : js (gmap string string) :=
    match expenses with
    | JArr items =>
        if String.eqb username "" then throw "Invalid username or expenses data"
        else
          let timestamp := toISOString rt now in
          rows ← mapM expenseToCSVRow items;
          let csvContent :=
            csvHeader username timestamp (length items)
            +:+ join (str1 nl) rows in
          let st :=
            match st !! storageKey username with
            | Some existingData =>
                if String.eqb existingData "" then st
                else <[backupKey username := existingData]> st
            | None => st
            end in
          let st := <[storageKey username := csvContent]> st in
          let st :=
            <[metadataKey username :=
                JSON_stringify rt
                  (JObj [("version", JStr CSV_VERSION);
                         ("username", JStr username);
                         ("lastSaved", JStr timestamp);
                         ("expenseCount", JNum (num_of_nat (length items)));
                         ("checksum", JStr (calculateChecksum csvContent))])]>
              st in
          mret st
    | _ => throw "Invalid username or expenses data"
    end in
  match body with
  | inl msg => throw ("Failed to save data: " +:+ msg)
  | inr st => mret st
  end.

(** The search for the line after the column header, in [loadExpenses]. *)
Fixpoint findDataStart (lines : list string) (i : nat) : nat :=
  match lines with
  | [] => 0%nat
  | l :: r =>
      if includes "id,amount,category" l then S i else findDataStart r (S i)
  end.

(** The row loop of [loadExpenses] from line [i] on. *)
Fixpoint loadRows (now : Z) (lines : list string) (i : nat)
    (expenses : list Expense) (errors : list string)
    : list Expense * list string :=
  match lines with
  | [] => (expenses, errors)
  | l :: r =>
      let line := trim l in
      if negb (String.eqb line "") && negb (startsWith "#" line) then
        let result := csvRowToExpense now line (S i) in
        let expenses :=
          match fst result with
          | Some e => expenses ++ [e]
          | None => expenses
          end in
        loadRows now r (S i) expenses (errors ++ snd result)
      else loadRows now r (S i) expenses errors
  end.

(** The integrity check of [loadExpenses]: the warnings it logs. *)
Definition verifyIntegrity (st : gmap string string) (username csvContent : string)
    : list warning :=
  match st !! metadataKey username with
  | Some metadata =>
      if String.eqb metadata "" then []
      else
        match (meta ← JSON_parse rt metadata;
               prop rt (Some meta) "checksum") with
        | inr checksum =>
            if truthy_opt checksum
               && negb (is_str (calculateChecksum csvContent) checksum)
            then [("Data integrity check failed - checksum mismatch", [])]
            else []
        | inl msg => [("Failed to verify data integrity:", [msg])]
        end
  | None => []
  end.

(** [loadExpenses]: the records, and what was logged with [console.warn]. *)
Definition loadExpenses (now : Z) (st : gmap string string) (username : string)
    : js (list Expense * list warning) :=
  if String.eqb username "" then throw "Failed to load data: Username is required"
  else
    match st !! storageKey username with
    | None => mret ([], [])
    | Some csvContent =>
        if String.eqb csvContent "" then mret ([], [])
        else
          let integrity := verifyIntegrity st username csvContent in
          let lines := split_lines csvContent in
          let dataStartIndex := findDataStart lines 0 in
          let '(expenses, errors) :=
            loadRows now (drop dataStartIndex lines) dataStartIndex [] [] in
          let parsing :=
            if (0 <? length errors)%nat then [("CSV parsing errors:", errors)]
            else [] in
          mret (expenses, integrity ++ parsing)
    end.

(** The header test of [importUserData]. *)
Definition isHeaderLine (l : string) : bool :=
  let line := toLowerCase (trim l) in
  includes "id" line && includes "amount" line && includes "category" line.

Fixpoint findImportStart (lines : list string) (i : nat) : nat :=
  match lines with
  | [] => 0%nat
  | l :: r => if isHeaderLine l then S i else findImportStart r (S i)
  end.

(** The duplicate test of [importUserData]. *)
Definition isDuplicate (expenses : list Expense) (e : Expense) : bool :=
  existsb (λ existing,
    String.eqb (id existing) (id e)
    || (PrimFloat.eqb (amount existing) (amount e)
        && String.eqb (category existing) (category e)
        && String.eqb (description existing) (description e)
        && String.eqb (date existing) (date e))) expenses.

(** The variables of the row loop of [importUserData]. *)
Record ImportState : Type := {
  imp_expenses : list Expense;
  imp_importedCount : nat;
  imp_skippedCount : nat;
  imp_errors : list string
}.

(** The row loop of [importUserData] from line [i] on. *)
Fixpoint importRows (now : Z) (lines : list string) (i : nat) (s : ImportState)
    : ImportState :=
  match lines with
  | [] => s
  | l :: r =>
      let line := trim l in
      if negb (String.eqb line "") && negb (startsWith "#" line) then
        let result := csvRowToExpense now line (S i) in
        match fst result with
        | Some e =>
            if negb (isDuplicate (imp_expenses s) e)
            then importRows now r (S i)
                   {| imp_expenses := imp_expenses s ++ [e];
                      imp_importedCount := S (imp_importedCount s);
                      imp_skippedCount := imp_skippedCount s;
                      imp_errors := imp_errors s |}
            else importRows now r (S i)
                   {| imp_expenses := imp_expenses s;
                      imp_importedCount := imp_importedCount s;
                      imp_skippedCount := S (imp_skippedCount s);
                      imp_errors :=
                        imp_errors s ++ ["Row " +:+ Str.of_nat (S i)
                                         +:+ ": Duplicate expense skipped"] |}
        | None =>
            importRows now r (S i)
              {| imp_expenses := imp_expenses s;
                 imp_importedCount := imp_importedCount s;
                 imp_skippedCount := S (imp_skippedCount s);
                 imp_errors := imp_errors s ++ snd result |}
        end
      else importRows now r (S i) s
  end.

(** [importUserData]: the result and the store after the call.  [now] is the
    instant the rows are validated at, [t_save] the one [saveExpenses] reads. *)
Definition importUserData (now t_save : Z) (st : gmap string string)
    (username : string) (file : File) : CSVImportResult * gmap string string :=
  let body : js (CSVImportResult * gmap string string) :=
    if negb (endsWith ".csv" (toLowerCase (File_name file)))
    then throw "File must be a CSV file"
    else if 5 * 1024 * 1024 <? File_size file
    then throw "File size too large. Maximum size is 5MB."
    else
      let csvContent := File_text file in
      if String.eqb (trim csvContent) "" then throw "File is empty"
      else
        let lines := split_lines csvContent in
        let dataStartIndex := findImportStart lines 0 in
        if (dataStartIndex =? 0)%nat
        then throw "Invalid CSV format: Header row not found"
        else
          let s :=
            importRows now (drop dataStartIndex lines) dataStartIndex
              {| imp_expenses := []; imp_importedCount := 0;
                 imp_skippedCount := 0; imp_errors := [] |} in
          if (length (imp_expenses s) =? 0)%nat
          then throw "No valid expenses found in the file"
          else
            st' ← saveExpenses t_save st username (expenses_json (imp_expenses s));
            mret ({| success := true;
                     importedCount := imp_importedCount s;
                     skippedCount := imp_skippedCount s;
                     errors := imp_errors s |}, st') in
  catch body (λ msg,
    ({| success := false; importedCount := 0; skippedCount := 0;
        errors := [msg] |}, st)).

End WithRuntime.

End CSVDataManager.

(** ** BackupManager *)

Module BackupManager.

Record RestoreResult : Type := {
  success : bool;
  restoredCount : nat;
  errors : list string;
  metadata : option json
}.

(** What the manager acts on besides the clock: [localStorage], the files
    whose download was triggered (by name), and the callbacks armed with
    [setTimeout] so far, each with the user it runs [performScheduledBackup]
    for and its delay in milliseconds.  The code never cancels a callback. *)
Record Page : Type := {
  store : gmap string string;
  downloads : list string;
  timers : list (string * Z)
}.

Definition BACKUP_VERSION : string := "1.0".

Definition BACKUP_PREFIX : string := "pak-kharcha-backup".

Definition SCHEDULE_KEY : string := "backup-schedule".

Definition FORMAT : string := "pak-kharcha-backup".

Definition day_ms : Z := 24 * 60 * 60 * 1000.

(** The prefix of the keys of the local snapshots of [username]. *)
Definition localPrefix (username : string) : string :=
  "backup-" +:+ username +:+ "-".

Definition localKey (username backupId : string) : string :=
  localPrefix username +:+ backupId.

Definition scheduleKey (username : string) : string :=
  SCHEDULE_KEY +:+ "-" +:+ username.

(** [obj.k = v] on an object: the property keeps its place when it exists and
    is added last otherwise. *)
Fixpoint set_assoc (k : string) (v : json) (props : list (string * json))
    : list (string * json) :=
  match props with
  | [] => [(k, v)]
  | (k', v') :: r =>
      if String.eqb k' k then (k, v) :: r else (k', v') :: set_assoc k v r
  end.

(** Insertion of [x] in front of a list sorted by [after]: [x] goes behind the
    elements that [after x] holds of. *)
Fixpoint insert_by {A} (after : A → A → bool) (x : A) (l : list A) : list A :=
  match l with
  | [] => [x]
  | y :: r => if after x y then y :: insert_by after x r else x :: y :: r
  end.

(** A stable sort, as [Array.prototype.sort] is. *)
Definition sort_by {A} (after : A → A → bool) (l : list A) : list A :=
  foldr (insert_by after) [] l.

(** [[...new Set(l)]]: the first occurrence of every string, in order. *)
Fixpoint unique (l : list string) (seen : list string) : list string :=
  match l with
  | [] => []
  | x :: r =>
      if existsb (String.eqb x) seen then unique r seen
      else x :: unique r (x :: seen)
  end.

Section WithRuntime.
Context (rt : Runtime).

(** [validateExpense] of the backup manager, on whatever [JSON.parse] gave. *)
Definition validateExpense (expense : json) : js unit :=
  f_id ← prop rt (Some expense) "id";
  if negb (truthy_opt f_id) || negb (is_string f_id)
  then throw "Invalid expense ID"
  else
    f_amount ← prop rt (Some expense) "amount";
    if match f_amount with
       | Some (JNum n) => PrimFloat.leb n 0%float
       | _ => true
       end
    then throw "Invalid expense amount"
    else
      f_category ← prop rt (Some expense) "category";
      if negb (truthy_opt f_category) || negb (is_string f_category)
      then throw "Invalid expense category"
      else
        f_description ← prop rt (Some expense) "description";
        if negb (truthy_opt f_description) || negb (is_string f_description)
        then throw "Invalid expense description"
        else
          f_date ← prop rt (Some expense) "date";
          if negb (truthy_opt f_date)
             || match Date_time rt f_date with
                | Some _ => false
                | None => true
                end
          then throw "Invalid expense date"
          else mret tt.

(** The [forEach] of [restoreFromBackup] from element [index] on. *)
Fixpoint validateAll (items : list json) (index : nat)
    (validExpenses : list json) (errors : list string)
    : list json * list string :=
  match items with
  | [] => (validExpenses, errors)
  | expense :: r =>
      match validateExpense expense with
      | inr _ => validateAll r (S index) (validExpenses ++ [expense]) errors
      | inl msg =>
          validateAll r (S index) validExpenses
            (errors ++ ["Expense " +:+ Str.of_nat (S index) +:+ ": " +:+ msg])
      end
  end.

(** The first part of [restoreFromBackup], up to the test of the two
    sections: the [metadata] and the [expenses] of the file. *)
Definition readBackup (file : File) : js (json * json) :=
  if negb (endsWith ".json" (toLowerCase (File_name file)))
  then throw "Backup files must be in JSON format"
  else
    backupFile ← JSON_parse rt (File_text file);
    format ← prop rt (Some backupFile) "format";
    if negb (is_str FORMAT format) then throw "Invalid backup file format"
    else
      match get backupFile "metadata", get backupFile "expenses" with
      | Some metadata, Some expenses =>
          if truthy metadata && truthy expenses then mret (metadata, expenses)
          else throw "Corrupted backup file - missing required sections"
      | _, _ => throw "Corrupted backup file - missing required sections"
      end.

(** The checksum test of [restoreFromBackup]: what it logs. *)
Definition verifyChecksum (metadata expenses : json) : list warning :=
  let expectedChecksum := calculateChecksum (JSON_stringify rt expenses) in
  if negb (is_str expectedChecksum (get metadata "checksum"))
  then [("Backup checksum mismatch - data may be corrupted", [])]
  else [].

(** [restoreFromBackup]: the result, the store after the call and what was
    logged with [console.warn]. *)
Definition restoreFromBackup (now : Z) (st : gmap string string)
    (username : string) (file : File)
    : RestoreResult * gmap string string * list warning :=
  let failed msg :=
    {| success := false; restoredCount := 0; errors := [msg];
       metadata := None |} in
  match readBackup file with
  | inl msg => (failed msg, st, [])
  | inr (metadata, expenses) =>
      let warnings := verifyChecksum metadata expenses in
      let body : js (RestoreResult * gmap string string) :=
        match expenses with
        | JArr items =>
            let '(validExpenses, errors) := validateAll items 0 [] [] in
            if (length validExpenses =? 0)%nat
            then throw "No valid expenses found in backup file"
            else
              st' ← CSVDataManager.saveExpenses rt now st username
                      (JArr validExpenses);
              mret ({| success := true;
                       restoredCount := length validExpenses;
                       errors := errors;
                       metadata := Some metadata |}, st')
        | _ => throw (type_error rt)
        end in
      match body with
      | inl msg => (failed msg, st, warnings)
      | inr (result, st') => (result, st', warnings)
      end
  end.

(** The instant a metadata object was created at, [NaN] being [None]. *)
Definition createdAt_time (metadata : json) : option Z :=
  Date_time rt (get metadata "createdAt").

(** The metadata [getLocalBackups] pushes for one stored value, if any. *)
Definition localMetadata (value : string) : option json :=
  match (backup ← JSON_parse rt value; prop rt (Some backup) "metadata") with
  | inr (Some metadata) => if truthy metadata then Some metadata else None
  | _ => None
  end.

(** The comparator of [getLocalBackups] is positive on [a], [b]: [b] was
    created after [a].  When a date is invalid the comparator is [NaN], which
    [sort] takes for a tie. *)
Definition older (a b : json) : bool :=
  match createdAt_time a, createdAt_time b with
  | Some ta, Some tb => ta <? tb
  | _, _ => false
  end.

(** [getLocalBackups]: most recent first. *)
Definition getLocalBackups (st : gmap string string) (username : string)
    : list json :=
  sort_by older
    (omap (λ kv, if startsWith (localPrefix username) (fst kv)
                 then localMetadata (snd kv) else None)
          (map_to_list st)).

(** [restoreFromLocalBackup]. *)
Definition restoreFromLocalBackup (now : Z) (st : gmap string string)
    (username backupId : string) : bool * gmap string string :=
  match st !! localKey username backupId with
  | Some backupData =>
      if String.eqb backupData "" then (false, st)
      else
        match (backup ← JSON_parse rt backupData;
               expenses ← prop rt (Some backup) "expenses";
               match expenses with
               | Some expenses =>
                   CSVDataManager.saveExpenses rt now st username expenses
               | None =>
                   throw "Failed to save data: Invalid username or expenses data"
               end) with
        | inr st' => (true, st')
        | inl _ => (false, st)
        end
  | None => (false, st)
  end.

(** [calculateNextBackup]; [now] is [new Date()].  A day is [day_ms]: the
    local time zone keeps its offset. *)
Definition calculateNextBackup (now : Z) (frequency : option json) : Z :=
  if is_str "daily" frequency then now + day_ms
  else if is_str "weekly" frequency then now + 7 * day_ms
  else if is_str "monthly" frequency then add_month rt now
  else now.

(** [scheduleNextBackup]; [t_next] is the [new Date()] of
    [calculateNextBackup] and [t_now] the [Date.now()] read after it. *)
Definition scheduleNextBackup (t_next t_now : Z) (p : Page)
    (username : string) (schedule : json) : Page :=
  let nextBackup := calculateNextBackup t_next (get schedule "frequency") in
  let timeUntilBackup := nextBackup - t_now in
  if 0 <? timeUntilBackup
  then {| store := store p; downloads := downloads p;
          timers := timers p ++ [(username, Z.min timeUntilBackup day_ms)] |}
  else p.

(** [setupAutoBackup]. *)
Definition setupAutoBackup (t_next t_now : Z) (p : Page)
    (username : string) (schedule : json) : Page :=
  let p :=
    {| store := <[scheduleKey username := JSON_stringify rt schedule]> (store p);
       downloads := downloads p; timers := timers p |} in
  match prop rt (Some schedule) "enabled" with
  | inr enabled =>
      if truthy_opt enabled then scheduleNextBackup t_next t_now p username schedule
      else p
  | inl _ => p
  end.

(** [getBackupSchedule]; [None] is [null]. *)
Definition getBackupSchedule (st : gmap string string) (username : string)
    : option json :=
  match st !! scheduleKey username with
  | Some schedule =>
      if String.eqb schedule "" then None
      else match JSON_parse rt schedule with
           | inr v => Some v
           | inl _ => None
           end
  | None => None
  end.

(** The key [storeLocalBackup] removes for an old metadata object: the
    owner's prefix and [new Date(backup.createdAt).getTime()]. *)
Definition removedKey (username : string) (metadata : json) : string :=
  localPrefix username +:+
  match createdAt_time metadata with
  | Some t => Str.of_Z t
  | None => "NaN"
  end.

(** [storeLocalBackup]; [t_store] is its [Date.now()]. *)
Definition storeLocalBackup (t_store : Z) (st : gmap string string)
    (username : string) (backup : json) : gmap string string :=
  let backupId := Str.of_Z t_store in
  let st := <[localKey username backupId := JSON_stringify rt backup]> st in
  let backups := getLocalBackups st username in
  if (5 <? length backups)%nat then
    foldl (λ st backup, delete (removedKey username backup) st)
          st (drop 5 backups)
  else st.

(** The total that [reduce] computes. *)
Definition totalAmount (expenses : list Expense) : float :=
  foldl (λ sum expense, PrimFloat.add sum (amount expense)) 0%float expenses.

(** The metadata [createBackup] derives; [t_meta] is the [new Date()] of
    [createdAt]. *)
Definition makeMetadata (t_meta : Z) (username : string) (expenses : list Expense)
    : json :=
  let dates := sort_by (λ a b, String.ltb b a) (map date expenses) in
  let categories := unique (map category expenses) [] in
  JObj [("version", JStr BACKUP_VERSION);
        ("username", JStr username);
        ("createdAt", JStr (toISOString rt t_meta));
        ("expenseCount", JNum (num_of_nat (length expenses)));
        ("totalAmount", JNum (totalAmount expenses));
        ("dateRange",
         JObj [("earliest", JStr (default "" (head dates)));
               ("latest", JStr (default "" (last dates)))]);
        ("categories", JArr (map JStr categories));
        ("checksum",
         JStr (calculateChecksum (JSON_stringify rt (expenses_json expenses))))].

(** [createBackup]: the file name and the page after the call.  [t_meta],
    [t_name] and [t_store] are its three readings of the clock, in order:
    for [createdAt], for the file name, and in [storeLocalBackup]. *)
Definition createBackup (t_meta t_name t_store : Z) (p : Page)
    (username : string) (expenses : list Expense) : js (string * Page) :=
  if (length expenses =? 0)%nat
  then throw "Backup failed: No expenses to backup"
  else
    let backupFile :=
      JObj [("metadata", makeMetadata t_meta username expenses);
            ("expenses", expenses_json expenses);
            ("format", JStr FORMAT)] in
    let timestamp := dash_colons (substring 0 19 (toISOString rt t_name)) in
    let filename :=
      BACKUP_PREFIX +:+ "-" +:+ username +:+ "-" +:+ timestamp +:+ ".json" in
    mret (filename,
          {| store := storeLocalBackup t_store (store p) username backupFile;
             downloads := downloads p ++ [filename];
             timers := timers p |}).

(** The readings of the clock during one [performScheduledBackup], in the
    order of the code. *)
Record FireClock : Type := {
  t_load : Z;
  t_meta : Z;
  t_name : Z;
  t_store : Z;
  t_last : Z;
  t_calc : Z;
  t_next : Z;
  t_now : Z
}.

(** [performScheduledBackup], the callback of the timer. *)
Definition performScheduledBackup (c : FireClock) (p : Page) (username : string)
    : bool * Page :=
  match CSVDataManager.loadExpenses rt (t_load c) (store p) username with
  | inl _ => (false, p)
  | inr (expenses, _) =>
      if (length expenses =? 0)%nat then (false, p)
      else
        match createBackup (t_meta c) (t_name c) (t_store c) p username expenses with
        | inl _ => (false, p)
        | inr (_, p) =>
            match getBackupSchedule (store p) username with
            | Some (JObj props) =>
                let props :=
                  set_assoc "lastBackup" (JStr (toISOString rt (t_last c))) props in
                let next :=
                  calculateNextBackup (t_calc c) (assoc "frequency" props) in
                let props :=
                  set_assoc "nextBackup" (JStr (toISOString rt next)) props in
                (true, setupAutoBackup (t_next c) (t_now c) p username (JObj props))
            | Some (JArr items) =>
                (true, setupAutoBackup (t_next c) (t_now c) p username (JArr items))
            | Some schedule =>
                if truthy schedule then (false, p) else (true, p)
            | None => (true, p)
            end
        end
  end.

(** The [try] block of [cleanupOldBackups] up to the comparison: the
    instant [backupDate] ([None] for an invalid date), or the error thrown
    by [JSON.parse] or by reading a property of nothing. *)
Definition backupDate (value : string) : js (option Z) :=
  backup ← JSON_parse rt value;
  metadata ← prop rt (Some backup) "metadata";
  createdAt ← prop rt metadata "createdAt";
  mret (Date_time rt createdAt).

(** Whether [cleanupOldBackups] marks a stored value for deletion. *)
Definition expired (cutoffDate : Z) (value : string) : bool :=
  match backupDate value with
  | inr (Some backupDate) => backupDate <? cutoffDate
  | inr None => false
  | inl _ => true
  end.

(** [cleanupOldBackups]; [now] is [new Date()]. *)
Definition cleanupOldBackups (now : Z) (st : gmap string string)
    (username : string) (retentionDays : Z) : gmap string string :=
  let cutoffDate := now - retentionDays * day_ms in
  let keysToDelete :=
    omap (λ kv, if startsWith (localPrefix username) (fst kv)
                   && expired cutoffDate (snd kv)
                then Some (fst kv) else None)
         (map_to_list st) in
  foldl (λ st key, delete key st) st keysToDelete.

End WithRuntime.

End BackupManager.

(** ** CSVDataManager: export, deletion, size and dated copies *)

Module UserData.

Import CSVDataManager.

(** [{ bytes: number; expenses: number }]. *)
Record DataSize : Type := {
  bytes : nat;
  expenses : float
}.

Definition urlKey (username : string) : string :=
  "csv-url-" +:+ getFileName username.

(** The prefix of the keys of the dated copies [backupUserData] makes. *)
Definition copyPrefix (username : string) : string :=
  "csv-backup-" +:+ getFileName username +:+ "-".

(** [s.replace] of every colon by a dash. *)
Fixpoint dash_for_colon (s : string) : string :=
  match s with
  | EmptyString => EmptyString
  | String c r =>
      String (if Ascii.eqb c ":" then "-"%char else c) (dash_for_colon r)
  end.

(** [new Blob([s]).size]: the bytes of the UTF-8 encoding, one for a code
    unit below 128 and two for the others. *)
Fixpoint byteLength (s : string) : nat :=
  match s with
  | EmptyString => 0%nat
  | String c r =>
      ((if (nat_of_ascii c <? 128)%nat then 1 else 2) + byteLength r)%nat
  end.

(** The number an integer is. *)
Definition num_of_Z (z : Z) : float :=
  if z <? 0 then PrimFloat.opp (num_of_nat (Z.to_nat (- z)))
  else num_of_nat (Z.to_nat z).

(** [Math.max(0, x)]. *)
Definition max0 (x : float) : float :=
  if PrimFloat.is_nan x then PrimFloat.nan
  else if PrimFloat.ltb 0%float x then x else 0%float.

(** The lines [getUserDataSize] counts when the metadata cannot be read. *)
Definition counted (line : string) : bool :=
  negb (String.eqb (trim line) "") && negb (startsWith "#" line)
  && has_char comma line.

(** [keys.forEach(key => localStorage.removeItem(key))]. *)
Definition removeAll (keys : list string) (st : gmap string string)
    : gmap string string :=
  foldl (λ st key, delete key st) st keys.

(** [deleteUserData]: it resolves to [true]. *)
Definition deleteUserData (st : gmap string string) (username : string)
    : bool * gmap string string :=
  (true, removeAll [storageKey username; backupKey username;
                    metadataKey username; urlKey username] st).

(** [backupUserData]; [now] is [Date.now()].  [Object.keys(...).sort()]
    orders the keys by their code units. *)
Definition backupUserData (now : Z) (st : gmap string string) (username : string)
    : bool * gmap string string :=
  match st !! storageKey username with
  | None => (false, st)
  | Some csvContent =>
      if String.eqb csvContent "" then (false, st)
      else
        let st := <[copyPrefix username +:+ Str.of_Z now := csvContent]> st in
        let backupKeys :=
          BackupManager.sort_by (λ a b, String.ltb b a)
            (List.filter (startsWith (copyPrefix username))
                         (map fst (map_to_list st))) in
        if (3 <? length backupKeys)%nat
        then (true, removeAll (take (length backupKeys - 3) backupKeys) st)
        else (true, st)
  end.

Section WithRuntime.
Context (rt : Runtime).

(** [exportUserData]: [None] is [null]; otherwise the name it returns, which
    is the name of the file whose download it triggers, and the content of
    that file.  [t_done] and [t_name] are its two readings of the clock. *)
Definition exportUserData (t_done t_name : Z) (st : gmap string string)
    (username : string) : option (string * string) :=
  match st !! storageKey username with
  | None => None
  | Some csvContent =>
      if String.eqb csvContent "" then None
      else
        let exportContent :=
          csvContent +:+ str1 nl +:+ str1 nl +:+ "# Export completed at: "
          +:+ toISOString rt t_done in
        let timestamp :=
          dash_for_colon (substring 0 19 (toISOString rt t_name)) in
        let downloadFileName :=
          "pak-kharcha-" +:+ toLowerCase username +:+ "-" +:+ timestamp
          +:+ ".csv" in
        Some (downloadFileName, exportContent)
  end.

(** The conversion of a string to a number belongs to the engine. *)
Context (StringToNumber : string → float).

(** The number [Math.max] takes a value for. *)
Definition to_Number (v : json) : float :=
  match v with
  | JNull => 0%float
  | JBool b => if b then 1%float else 0%float
  | JNum n => n
  | JStr s => StringToNumber s
  | JArr _ | JObj _ => StringToNumber (to_String rt v)
  end.

(** [getUserDataSize].  The inner [catch] is reached when [JSON.parse]
    throws and when the metadata is [null]. *)
Definition getUserDataSize (st : gmap string string) (username : string)
    : DataSize :=
  match st !! storageKey username with
  | None => {| bytes := 0; expenses := 0%float |}
  | Some csvContent =>
      if String.eqb csvContent "" then {| bytes := 0; expenses := 0%float |}
      else
        let expenseCount :=
          match st !! metadataKey username with
          | None => 0%float
          | Some metadata =>
              if String.eqb metadata "" then 0%float
              else
                match (meta ← JSON_parse rt metadata;
                       prop rt (Some meta) "expenseCount") with
                | inr (Some v) => if truthy v then to_Number v else 0%float
                | inr None => 0%float
                | inl _ =>
                    let lines := split_lines csvContent in
                    num_of_Z (Z.of_nat (length (List.filter counted lines)) - 1)
                end
          end in
        {| bytes := byteLength csvContent; expenses := max0 expenseCount |}
  end.

End WithRuntime.

End UserData.

(** ** ExpenseContext

    The provider of src/context/ExpenseContext.tsx, as far as it calls the
    data manager: the list it holds in memory, the flag [loading],
    [localStorage], and the toasts it has shown so far. *)

Module ExpenseContext.

Inductive toast : Type :=
| toast_success (message : string)
| toast_error (message : string).

Record Session : Type := {
  expenses : list Expense;
  loading : bool;
  storage : gmap string string;
  toasts : list toast
}.

Definition setExpenses (es : list Expense) (s : Session) : Session :=
  {| expenses := es; loading := loading s; storage := storage s;
     toasts := toasts s |}.

Definition setLoading (b : bool) (s : Session) : Session :=
  {| expenses := expenses s; loading := b; storage := storage s;
     toasts := toasts s |}.

Definition setStorage (st : gmap string string) (s : Session) : Session :=
  {| expenses := expenses s; loading := loading s; storage := st;
     toasts := toasts s |}.

Definition show (t : toast) (s : Session) : Session :=
  {| expenses := expenses s; loading := loading s; storage := storage s;
     toasts := toasts s ++ [t] |}.

Section WithRuntime.
Context (rt : Runtime).

(** [loadUserExpenses]; [user] is the name of the user logged in, if any. *)
Definition loadUserExpenses (now : Z) (user : option string) (s : Session)
    : Session :=
  match user with
  | None => s
  | Some username =>
      let s := setLoading true s in
      let s :=
        match CSVDataManager.loadExpenses rt now (storage s) username with
        | inr (userExpenses, _) => setExpenses userExpenses s
        | inl _ => show (toast_error "Failed to load your expense data") s
        end in
      setLoading false s
  end.

(** [saveUserExpenses]: [saveExpenses] resolves to [true] or throws. *)
Definition saveUserExpenses (now : Z) (user : option string) (s : Session)
    (newExpenses : list Expense) : Session :=
  match user with
  | None => s
  | Some username =>
      match CSVDataManager.saveExpenses rt now (storage s) username
              (expenses_json newExpenses) with
      | inr st => setStorage st s
      | inl _ => show (toast_error "Failed to save expense data") s
      end
  end.

(** [addExpense]; [uuid] is the value of [crypto.randomUUID()], which
    replaces whatever id [expense] has. *)
Definition addExpense (uuid : string) (now : Z) (user : option string)
    (s : Session) (expense : Expense) : Session :=
  match user with
  | None => show (toast_error "You must be logged in to add expenses") s
  | Some _ =>
      let newExpense :=
        {| id := uuid; amount := amount expense; category := category expense;
           description := description expense; date := date expense |} in
      let newExpenses := expenses s ++ [newExpense] in
      let s := setExpenses newExpenses s in
      let s := saveUserExpenses now user s newExpenses in
      show (toast_success "Expense added successfully") s
  end.

(** [deleteExpense]. *)
Definition deleteExpense (now : Z) (user : option string) (s : Session)
    (id' : string) : Session :=
  match user with
  | None => show (toast_error "You must be logged in to delete expenses") s
  | Some _ =>
      let newExpenses :=
        List.filter (λ expense, negb (String.eqb (id expense) id')) (expenses s) in
      let s := setExpenses newExpenses s in
      let s := saveUserExpenses now user s newExpenses in
      show (toast_success "Expense deleted successfully") s
  end.

(** [updateExpense]. *)
Definition updateExpense (now : Z) (user : option string) (s : Session)
    (updatedExpense : Expense) : Session :=
  match user with
  | None => show (toast_error "You must be logged in to update expenses") s
  | Some _ =>
      let newExpenses :=
        map (λ expense,
               if String.eqb (id expense) (id updatedExpense)
               then updatedExpense else expense) (expenses s) in
      let s := setExpenses newExpenses s in
      let s := saveUserExpenses now user s newExpenses in
      show (toast_success "Expense updated successfully") s
  end.

(** [importUserData] of the provider: the result of the import is not
    looked at.  [now] and [t_save] are the readings of the import, [t_load]
    the one of the reload. *)
Definition importUserData (now t_save t_load : Z) (user : option string)
    (s : Session) (file : File) : Session :=
  match user with
  | None => show (toast_error "You must be logged in to import data") s
  | Some username =>
      let out :=
        CSVDataManager.importUserData rt now t_save (storage s) username file in
      let s := setStorage out.2 s in
      let s := loadUserExpenses t_load user s in
      show (toast_success "Data imported successfully") s
  end.

(** [clearAllData]. *)
Definition clearAllData (user : option string) (s : Session) : Session :=
  match user with
  | None => show (toast_error "You must be logged in to clear data") s
  | Some username =>
      let out := UserData.deleteUserData (storage s) username in
      let s := setStorage out.2 s in
      if out.1
      then show (toast_success "All data cleared successfully")
             (setExpenses [] s)
      else show (toast_error "Failed to clear data") s
  end.

End WithRuntime.

End ExpenseContext.

(** ** AdvancedSettings

    The handlers of src/components/AdvancedSettings.tsx that call the backup
    manager. *)

Module AdvancedSettings.

Section WithRuntime.
Context (rt : Runtime).

(** The id the Restore action of a listed snapshot asks for:
    [new Date(backup.createdAt).getTime().toString()]. *)
Definition backupId (backup : json) : string :=
  match BackupManager.createdAt_time rt backup with
  | Some t => Str.of_Z t
  | None => "NaN"
  end.

(** The [onClick] of the Restore action; [backup] is the metadata listed. *)
Definition restoreListed (now : Z) (st : gmap string string) (username : string)
    (backup : json) : bool * gmap string string :=
  BackupManager.restoreFromLocalBackup rt now st username (backupId backup).

(** [handleCleanupOldBackups] and the list it reloads; [backupSchedule] is
    the schedule held by the component. *)
Definition handleCleanupOldBackups (now : Z) (st : gmap string string)
    (username : string) (retentionDays : Z)
    : gmap string string * list json :=
  let st := BackupManager.cleanupOldBackups rt now st username retentionDays in
  (st, BackupManager.getLocalBackups rt st username).

End WithRuntime.

End AdvancedSettings.

(** ** A reference engine

    An executable instance of [Runtime], used to run the model on concrete
    inputs.  It is exact on the values the examples use: numbers that are
    integers below [2^53] or short decimal fractions, dates in the ISO
    format, and JSON documents without unicode escapes or exponents. *)

Module Engine.

(** The integer a number is, if it is one. *)
Definition float_to_Z (f : float) : option Z :=
  match Prim2SF f with
  | SpecFloat.S754_zero _ => Some 0
  | SpecFloat.S754_finite s m e =>
      let m := Z.pos m in
      let sign := if s then -1 else 1 in
      if 0 <=? e then Some (sign * m * 2 ^ e)
      else if m mod 2 ^ (- e) =? 0 then Some (sign * (m / 2 ^ (- e)))
      else None
  | _ => None
  end.

Definition Z_to_float (z : Z) : float :=
  if z <? 0 then PrimFloat.opp (PrimFloat.of_uint63 (Uint63.of_Z (- z)))
  else PrimFloat.of_uint63 (Uint63.of_Z z).

(** Integers print as their digits; anything else is not an integer below
    [2^53] and prints as [NaN]. *)
Definition num_toString (f : float) : string :=
  match float_to_Z f with
  | Some z => if Z.abs z <=? 2 ^ 53 then Str.of_Z z else "NaN"
  | None => "NaN"
  end.

Definition digit (c : ascii) : option Z :=
  let n := Z.of_nat (nat_of_ascii c) in
  if (48 <=? n) && (n <=? 57) then Some (n - 48) else None.

(** The longest prefix of digits: its value, its length, and the rest. *)
Fixpoint digits (s : string) (acc : Z) (len : nat) : Z * nat * string :=
  match s with
  | EmptyString => (acc, len, s)
  | String c r =>
      match digit c with
      | Some d => digits r (10 * acc + d) (S len)
      | None => (acc, len, s)
      end
  end.

(** A decimal literal [-?digits(.digits)?] at the head of [s]: the number and
    the rest, or nothing when [s] does not start with one. *)
Definition number_prefix (s : string) : option (float * string) :=
  let '(neg, s) :=
    match s with
    | String c r => if Ascii.eqb c "-" then (true, r) else (false, s)
    | EmptyString => (false, s)
    end in
  let '(whole, n, r) := digits s 0 0 in
  if (n =? 0)%nat then None
  else
    let '(mant, scale, r) :=
      match r with
      | String c r' =>
          if Ascii.eqb c "." then
            let '(m, k, r'') := digits r' whole 0 in
            if (k =? 0)%nat then (whole, 0%nat, r) else (m, k, r'')
          else (whole, 0%nat, r)
      | EmptyString => (whole, 0%nat, r)
      end in
    let v := PrimFloat.div (Z_to_float mant) (Z_to_float (10 ^ Z.of_nat scale)) in
    Some (if neg then PrimFloat.opp v else v, r).

Definition parseFloat (s : string) : float :=
  match number_prefix (trimStart s) with
  | Some (v, _) => v
  | None => PrimFloat.nan
  end.

(** Days since the epoch of a civil date, and back. *)
Definition days_from_civil (y m d : Z) : Z :=
  let y := if m <=? 2 then y - 1 else y in
  let era := y / 400 in
  let yoe := y - era * 400 in
  let doy := (153 * (m + (if 2 <? m then -3 else 9)) + 2) / 5 + d - 1 in
  let doe := yoe * 365 + yoe / 4 - yoe / 100 + doy in
  era * 146097 + doe - 719468.

Definition civil_from_days (z : Z) : Z * Z * Z :=
  let z := z + 719468 in
  let era := z / 146097 in
  let doe := z - era * 146097 in
  let yoe := (doe - doe / 1460 + doe / 36524 - doe / 146096) / 365 in
  let doy := doe - (365 * yoe + yoe / 4 - yoe / 100) in
  let mp := (5 * doy + 2) / 153 in
  let d := doy - (153 * mp + 2) / 5 + 1 in
  let m := if mp <? 10 then mp + 3 else mp - 9 in
  (yoe + era * 400 + (if m <=? 2 then 1 else 0), m, d).

Definition day_ms : Z := 86400000.

(** [width] decimal digits of [z], padded with zeros. *)
Fixpoint pad (width : nat) (z : Z) : string :=
  match width with
  | O => EmptyString
  | S w => pad w (z / 10) +:+ str1 (ascii_of_nat (48 + Z.to_nat (z mod 10)))
  end.

Definition toISOString (t : Z) : string :=
  let '(y, m, d) := civil_from_days (t / day_ms) in
  let r := t mod day_ms in
  pad 4 y +:+ "-" +:+ pad 2 m +:+ "-" +:+ pad 2 d +:+ "T"
  +:+ pad 2 (r / 3600000) +:+ ":" +:+ pad 2 (r / 60000 mod 60) +:+ ":"
  +:+ pad 2 (r / 1000 mod 60) +:+ "." +:+ pad 3 (r mod 1000) +:+ "Z".

(** [count] digits exactly, then the rest. *)
Definition fixed_digits (count : nat) (s : string) : option (Z * string) :=
  let '(v, n, _) := digits (substring 0 count s) 0 0 in
  if (n =? count)%nat
  then Some (v, substring count (String.length s - count) s)
  else None.

Definition expect (c : ascii) (s : string) : option string :=
  match s with
  | String d r => if Ascii.eqb c d then Some r else None
  | EmptyString => None
  end.

(** [YYYY-MM-DD], alone or followed by [THH:MM:SS.mmmZ]. *)
Definition parse_iso (s : string) : option Z :=
  '(y, s) ← fixed_digits 4 s;
  s ← expect "-" s;
  '(m, s) ← fixed_digits 2 s;
  s ← expect "-" s;
  '(d, s) ← fixed_digits 2 s;
  if negb ((1 <=? m) && (m <=? 12) && (1 <=? d) && (d <=? 31)) then None
  else
    let day := days_from_civil y m d * day_ms in
    if String.eqb s EmptyString then Some day
    else
      s ← expect "T" s;
      '(hh, s) ← fixed_digits 2 s;
      s ← expect ":" s;
      '(mm, s) ← fixed_digits 2 s;
      s ← expect ":" s;
      '(ss, s) ← fixed_digits 2 s;
      s ← expect "." s;
      '(ms, s) ← fixed_digits 3 s;
      if String.eqb s "Z"
      then Some (day + hh * 3600000 + mm * 60000 + ss * 1000 + ms)
      else None.

Definition Date_value (v : json) : option Z :=
  match v with
  | JStr s => parse_iso s
  | JNum n => float_to_Z n
  | _ => None
  end.

(** The same day of the next month, overflowing into the month after when the
    next month is too short, as [setMonth] does. *)
Definition add_month (t : Z) : Z :=
  let '(y, m, d) := civil_from_days (t / day_ms) in
  let '(y, m) := if m =? 12 then (y + 1, 1) else (y, m + 1) in
  (days_from_civil y m 1 + d - 1) * day_ms + t mod day_ms.

(** A string literal of JSON. *)
Fixpoint quote_body (s : string) : string :=
  match s with
  | EmptyString => EmptyString
  | String c r =>
      (if Ascii.eqb c dq then "\" +:+ str1 dq
       else if Ascii.eqb c "\" then "\\"
       else if Ascii.eqb c nl then "\n"
       else str1 c) +:+ quote_body r
  end.

Definition quote (s : string) : string := str1 dq +:+ quote_body s +:+ str1 dq.

Fixpoint JSON_stringify (v : json) : string :=
  match v with
  | JNull => "null"
  | JBool b => if b then "true" else "false"
  | JNum n =>
      if PrimFloat.is_nan n || PrimFloat.is_infinity n then "null"
      else num_toString n
  | JStr s => quote s
  | JArr items => "[" +:+ join "," (map JSON_stringify items) +:+ "]"
  | JObj props =>
      "{" +:+ join "," (map (λ kv, quote (fst kv) +:+ ":" +:+ JSON_stringify (snd kv))
                            props) +:+ "}"
  end.

(** The characters of a string literal after its opening quote. *)
Fixpoint string_body (s acc : string) : option (string * string) :=
  match s with
  | EmptyString => None
  | String c r =>
      if Ascii.eqb c dq then Some (acc, r)
      else if Ascii.eqb c "\" then
        match r with
        | String e r' =>
            if Ascii.eqb e "n" then string_body r' (acc +:+ str1 nl)
            else if Ascii.eqb e dq || Ascii.eqb e "\" || Ascii.eqb e "/"
            then string_body r' (acc +:+ str1 e)
            else None
        | EmptyString => None
        end
      else string_body r (acc +:+ str1 c)
  end.

Definition literal (word : string) (v : json) (s : string) : option (json * string) :=
  if String.prefix word s
  then Some (v, substring (String.length word) (String.length s - String.length word) s)
  else None.

(** A value at the head of [s], and the rest; [fuel] bounds the nesting and
    the number of elements. *)
Fixpoint value (fuel : nat) (s : string) : option (json * string) :=
  match fuel with
  | O => None
  | S fuel =>
      match trimStart s with
      | EmptyString => None
      | String c r as s =>
          if Ascii.eqb c "n" then literal "null" JNull s
          else if Ascii.eqb c "t" then literal "true" (JBool true) s
          else if Ascii.eqb c "f" then literal "false" (JBool false) s
          else if Ascii.eqb c dq then
            '(str, r) ← string_body r EmptyString; Some (JStr str, r)
          else if Ascii.eqb c "[" then
            match expect "]" (trimStart r) with
            | Some r => Some (JArr [], r)
            | None => elements fuel r []
            end
          else if Ascii.eqb c "{" then
            match expect "}" (trimStart r) with
            | Some r => Some (JObj [], r)
            | None => members fuel r []
            end
          else '(n, r) ← number_prefix s; Some (JNum n, r)
      end
  end
with elements (fuel : nat) (s : string) (acc : list json) : option (json * string) :=
  match fuel with
  | O => None
  | S fuel =>
      '(v, r) ← value fuel s;
      match trimStart r with
      | String c r =>
          if Ascii.eqb c "," then elements fuel r (acc ++ [v])
          else if Ascii.eqb c "]" then Some (JArr (acc ++ [v]), r)
          else None
      | EmptyString => None
      end
  end
with members (fuel : nat) (s : string) (acc : list (string * json))
    : option (json * string) :=
  match fuel with
  | O => None
  | S fuel =>
      r ← expect dq (trimStart s);
      '(k, r) ← string_body r EmptyString;
      r ← expect ":" (trimStart r);
      '(v, r) ← value fuel r;
      match trimStart r with
      | String c r =>
          if Ascii.eqb c "," then members fuel r (acc ++ [(k, v)])
          else if Ascii.eqb c "}" then Some (JObj (acc ++ [(k, v)]), r)
          else None
      | EmptyString => None
      end
  end.

Definition JSON_parse (s : string) : js json :=
  match value (S (String.length s)) s with
  | Some (v, r) =>
      if String.eqb (trimStart r) EmptyString then mret v
      else throw "Unexpected non-whitespace character after JSON"
  | None => throw "Unexpected token in JSON"
  end.

Definition engine : Runtime :=
  Build_Runtime num_toString parseFloat Date_value toISOString add_month
    JSON_stringify JSON_parse
    (λ i, "00000000-0000-4000-8000-" +:+ pad 12 (Z.of_nat i))
    "Cannot read properties of null".

End Engine.

(** * Vocabulary of the properties *)

(** ** The serializer *)

Module CSVSpec.

Import CSVDataManager.

Section WithRuntime.
Context (rt : Runtime).

(** The escaping rule on a string. *)
Definition esc (s : string) : string := escapeCSVField rt (Some (JStr s)).

(** The row [expenseToCSVRow] writes for a typed record. *)
Definition csvRow (e : Expense) : string :=
  join "," [esc (id e); num_toString rt (amount e); esc (category e);
            esc (description e); esc (date e)].

(** The text that may follow a closing quote: the end or a character that is
    not a quote. *)
Definition closes (rest : string) : Prop :=
  match rest with
  | EmptyString => True
  | String next _ => Ascii.eqb next dq = false
  end.

(** The conditions under which a record survives the text format besides
    passing validation: its free-text fields are on one line, have no white
    space at either end, its id does not look like a comment, and the engine
    reads back the amount it prints. *)
Record portable (e : Expense) : Prop := {
  id_line : has_char nl (id e) = false;
  id_trim : trim (id e) = id e;
  id_data : startsWith "#" (id e) = false;
  description_line : has_char nl (description e) = false;
  description_trim : trim (description e) = description e;
  date_line : has_char nl (date e) = false;
  date_trim : trim (date e) = date e;
  amount_comma : has_char comma (num_toString rt (amount e)) = false;
  amount_quote : has_char dq (num_toString rt (amount e)) = false;
  amount_line : has_char nl (num_toString rt (amount e)) = false;
  amount_back : parseFloat rt (trim (num_toString rt (amount e))) = amount e
}.

(** The records [loadRows] adds, line by line. *)
Fixpoint decoded (now : Z) (lines : list string) (i : nat) : list Expense :=
  match lines with
  | [] => []
  | l :: r =>
      let line := trim l in
      (if negb (String.eqb line EmptyString) && negb (startsWith "#" line)
       then match fst (csvRowToExpense rt now line (S i)) with
            | Some e => [e]
            | None => []
            end
       else []) ++ decoded now r (S i)
  end.

(** The line starts with the comment mark, white space aside. *)
Definition comment (l : string) : Prop := startsWith "#" (trim l) = true.

(** The text [saveExpenses] stores for typed records. *)
Definition encode (username timestamp : string) (es : list Expense) : string :=
  csvHeader username timestamp (length es) +:+ join (str1 nl) (map csvRow es).

(** The store after [saveExpenses] copied the text it is about to replace
    to the backup key. *)
Definition keepPrevious (st : gmap string string) (username : string)
    : gmap string string :=
  match st !! storageKey username with
  | Some existingData =>
      if String.eqb existingData EmptyString then st
      else <[backupKey username := existingData]> st
  | None => st
  end.

(** The metadata [saveExpenses] stores next to a text. *)
Definition metadataText (username timestamp : string) (count : nat)
    (csvContent : string) : string :=
  JSON_stringify rt
    (JObj [("version", JStr CSV_VERSION);
           ("username", JStr username);
           ("lastSaved", JStr timestamp);
           ("expenseCount", JNum (num_of_nat count));
           ("checksum", JStr (calculateChecksum csvContent))]).

End WithRuntime.

End CSVSpec.

(** ** Restoring a backup file *)

Module RestoreSpec.

Import BackupManager.

Section WithRuntime.
Context (rt : Runtime).

(** The record passes the validator of the backup manager. *)
Definition passes (expense : json) : bool :=
  match validateExpense rt expense with
  | inr _ => true
  | inl _ => false
  end.

(** The errors [restoreFromBackup] collects: one per failing record, with
    the position of the record in the file. *)
Fixpoint failures (items : list json) (index : nat) : list string :=
  match items with
  | [] => []
  | expense :: r =>
      match validateExpense rt expense with
      | inr _ => []
      | inl msg => ["Expense " +:+ Str.of_nat (S index) +:+ ": " +:+ msg]
      end ++ failures r (S index)
  end.

End WithRuntime.

End RestoreSpec.

(** ** Importing a CSV file *)

Module ImportSpec.

Import CSVDataManager.

Section WithRuntime.
Context (rt : Runtime).

(** A line that is neither blank nor a comment. *)
Definition isData (l : string) : bool :=
  let line := trim l in
  negb (String.eqb line EmptyString) && negb (startsWith "#" line).

(** What [csvRowToExpense] makes of every data row from line [i] on. *)
Fixpoint parsedRows (now : Z) (lines : list string) (i : nat)
    : list (option Expense * list string) :=
  match lines with
  | [] => []
  | l :: r =>
      (if isData l then [csvRowToExpense rt now (trim l) (S i)] else [])
      ++ parsedRows now r (S i)
  end.

(** The row failed validation. *)
Definition failed (row : option Expense * list string) : bool :=
  match fst row with
  | Some _ => false
  | None => true
  end.

(** The number of rows that fail validation. *)
Definition invalidCount (rows : list (option Expense * list string)) : nat :=
  length (List.filter failed rows).

(** The valid rows, in order. *)
Definition validRows (rows : list (option Expense * list string)) : list Expense :=
  omap fst rows.

(** Among valid rows, those accepted after [acc]: a row is left out when it
    is a duplicate of one accepted before it. *)
Fixpoint accepted (acc valid : list Expense) : list Expense :=
  match valid with
  | [] => acc
  | e :: r => if isDuplicate acc e then accepted acc r else accepted (acc ++ [e]) r
  end.

(** The number of valid rows that duplicate a row accepted before them. *)
Fixpoint duplicateCount (acc valid : list Expense) : nat :=
  match valid with
  | [] => 0
  | e :: r =>
      if isDuplicate acc e then S (duplicateCount acc r)
      else duplicateCount (acc ++ [e]) r
  end.

End WithRuntime.

End ImportSpec.

(** ** Results and examples *)

(** Saving and then loading, in one step. *)
Definition save_then_load (rt : Runtime) (now : Z) (st : gmap string string)
    (username : string) (D : list Expense) : js (list Expense * list warning) :=
  st' ← CSVDataManager.saveExpenses rt now st username (expenses_json D);
  CSVDataManager.loadExpenses rt now st' username.

(** Noon of 2 January 2024, the instant of the examples. *)
Definition noon : Z := 1704196800000.

(** A lunch whose description has a comma and a quoted word. *)
Definition lunch : Expense :=
  {| id := "e-1"; amount := 500%float; category := "Food & Groceries";
     description := "Lunch, with " +:+ str1 dq +:+ "friends" +:+ str1 dq;
     date := "2024-01-01" |}.

(** The same lunch with a space before and after the description. *)
Definition padded_lunch : Expense :=
  {| id := "e-1"; amount := 500%float; category := "Food & Groceries";
     description := " Lunch "; date := "2024-01-01" |}.

(** The records of a load, without what was logged. *)
Definition records (r : js (list Expense * list warning)) : js (list Expense) :=
  match r with
  | inl msg => inl msg
  | inr (es, _) => inr es
  end.

(** What a restore did, without the metadata it echoes and what it logged. *)
Definition restored
    (r : BackupManager.RestoreResult * gmap string string * list warning)
    : bool * nat * list string * gmap string string :=
  (BackupManager.success r.1.1, BackupManager.restoredCount r.1.1,
   BackupManager.errors r.1.1, r.1.2).

(** A backup document and the file that holds it. *)
Definition backup_doc (metadata expenses : json) : json :=
  JObj [("metadata", metadata); ("expenses", expenses);
        ("format", JStr BackupManager.FORMAT)].

Definition backup_file (doc : json) : File :=
  let text := Engine.JSON_stringify doc in
  {| File_name := "pak-kharcha-backup-ali-2024-01-02T12-00-00.json";
     File_size := Z.of_nat (String.length text);
     File_text := text |}.

(** The metadata [createBackup] derives for the lunch, and the same with
    another checksum. *)
Definition sound_metadata : json :=
  BackupManager.makeMetadata Engine.engine noon "ali" [lunch].

Definition stale_metadata : json :=
  match sound_metadata with
  | JObj props => JObj (BackupManager.set_assoc "checksum" (JStr "0") props)
  | v => v
  end.

(** The backup file of [ali] for the records [es], made at [noon]. *)
Definition backup_of (es : list Expense) : File :=
  backup_file
    (backup_doc (BackupManager.makeMetadata Engine.engine noon "ali" es)
       (expenses_json es)).

(** A refund entered as an expense: its amount is negative. *)
Definition refund : Expense :=
  {| id := "e-9"; amount := (-5)%float; category := "Shopping";
     description := "Returned shoes"; date := "2024-01-01" |}.

(** The rows of a file as [importUserData] reads them: what
    [csvRowToExpense] makes of every data row below the header. *)
Definition importedRows (rt : Runtime) (now : Z) (file : File)
    : list (option Expense * list string) :=
  let lines := split_lines (File_text file) in
  let start := CSVDataManager.findImportStart lines 0 in
  ImportSpec.parsedRows rt now (drop start lines) start.

(** The file is taken for a CSV export: its name ends in [.csv], it is at
    most 5 MB and not blank, and a header line is found. *)
Definition recognized (file : File) : Prop :=
  endsWith ".csv" (toLowerCase (File_name file)) = true
  ∧ File_size file ≤ 5 * 1024 * 1024
  ∧ trim (File_text file) ≠ EmptyString
  ∧ CSVDataManager.findImportStart (split_lines (File_text file)) 0 ≠ 0%nat.

(** Four rows below the header: a lunch, the same lunch under another id, a
    refund with a negative amount, and a bus fare. *)
Definition bank_export : File :=
  let text :=
    join (str1 nl)
      ["id,amount,category,description,date";
       "a1,500,Food & Groceries,Lunch,2024-01-01";
       "a2,500,Food & Groceries,Lunch,2024-01-01";
       "a3,-5,Shopping,Returned shoes,2024-01-01";
       "a4,80,Transportation,Bus fare,2024-01-01"] in
  {| File_name := "export.CSV"; File_size := Z.of_nat (String.length text);
     File_text := text |}.

(** A lunch whose amount was not a number in the file it was imported from. *)
Definition unreadable : Expense :=
  {| id := "a1"; amount := PrimFloat.nan; category := "Food & Groceries";
     description := "Lunch"; date := "2024-01-01" |}.

(** Two rows below the header: a lunch whose amount is not a number, and a
    bus fare. *)
Definition unreadable_export : File :=
  let text :=
    join (str1 nl)
      ["id,amount,category,description,date";
       "a1,abc,Food & Groceries,Lunch,2024-01-01";
       "a4,80,Transportation,Bus fare,2024-01-01"] in
  {| File_name := "export.csv"; File_size := Z.of_nat (String.length text);
     File_text := text |}.

(** The rows of a stored text below its header. *)
Definition storedRows (st : gmap string string) (username : string)
    : option (list string) :=
  text ← st !! CSVDataManager.storageKey username;
  Some (drop 7 (split_lines text)).

(** The rent of December, saved before the import. *)
Definition rent : Expense :=
  {| id := "r1"; amount := 30000%float; category := "Housing";
     description := "Rent"; date := "2023-12-31" |}.

Definition store_with (es : list Expense) : gmap string string :=
  match CSVDataManager.saveExpenses Engine.engine noon ∅ "ali" (expenses_json es) with
  | inr st => st
  | inl _ => ∅
  end.

(** A gas bill dated the day after [noon]. *)
Definition gas_bill : Expense :=
  {| id := "e-3"; amount := 120%float; category := "Utilities";
     description := "Gas bill"; date := "2024-01-03" |}.

(** The page with nothing stored, downloaded or armed. *)
Definition blank : BackupManager.Page :=
  {| BackupManager.store := ∅; BackupManager.downloads := [];
     BackupManager.timers := [] |}.

(** The page after a backup of [es] for [ali]: [createdAt] is read at [t]
    and the key of the snapshot [late] milliseconds later. *)
Definition backup_at (t late : Z) (es : list Expense) (p : BackupManager.Page)
    : BackupManager.Page :=
  match BackupManager.createBackup Engine.engine t t (t + late) p "ali" es with
  | inr (_, p') => p'
  | inl _ => p
  end.

(** Six backups of the lunch, one second apart from [noon] on; the key of
    each snapshot is read [late] milliseconds after its [createdAt]. *)
Definition six_backups (late : Z) : BackupManager.Page :=
  foldl (λ p k, backup_at (noon + 1000 * k) late [lunch] p) blank
    [0; 1; 2; 3; 4; 5].

(** A daily schedule. *)
Definition daily (enabled : bool) : json :=
  JObj [("enabled", JBool enabled); ("frequency", JStr "daily");
        ("lastBackup", JNull); ("nextBackup", JNull);
        ("retentionDays", JNum 30%float)].

(** The lunch is saved; the schedule is enabled at [noon], which arms the
    timer, and disabled a second later. *)
Definition disabled_page : BackupManager.Page :=
  let p :=
    {| BackupManager.store := store_with [lunch];
       BackupManager.downloads := []; BackupManager.timers := [] |} in
  let p := BackupManager.setupAutoBackup Engine.engine noon noon p "ali" (daily true) in
  BackupManager.setupAutoBackup Engine.engine (noon + 1000) (noon + 1000) p "ali"
    (daily false).

(** The timer fires a day after [noon]. *)
Definition next_noon : BackupManager.FireClock :=
  let t := noon + BackupManager.day_ms in
  {| BackupManager.t_load := t; BackupManager.t_meta := t;
     BackupManager.t_name := t; BackupManager.t_store := t;
     BackupManager.t_last := t; BackupManager.t_calc := t;
     BackupManager.t_next := t; BackupManager.t_now := t |}.

(** The snapshot [createBackup] stores for [username] at [t]. *)
Definition snapshot_of (username : string) (t : Z) : string :=
  Engine.JSON_stringify
    (backup_doc (BackupManager.makeMetadata Engine.engine t username [lunch])
       (expenses_json [lunch])).

Definition days_ago (n : Z) : Z := noon - n * BackupManager.day_ms.

Definition key_of (username : string) (t : Z) : string :=
  BackupManager.localKey username (Str.of_Z t).

(** A store with two snapshots of [ali], forty days and one day old, a value
    under his prefix that is no JSON, and a forty days old snapshot of
    [bilal]. *)
Definition shelf : gmap string string :=
  <[key_of "ali" (days_ago 40) := snapshot_of "ali" (days_ago 40)]>
    (<[key_of "ali" (days_ago 1) := snapshot_of "ali" (days_ago 1)]>
       (<[BackupManager.localKey "ali" "draft" := "{metadata"]>
          (<[key_of "bilal" (days_ago 40) := snapshot_of "bilal" (days_ago 40)]>
             ∅))).

(** ** More vocabulary *)

Module Outcome.

(** The computation returned. *)
Definition returned {A} (m : js A) : bool :=
  match m with
  | inr _ => true
  | inl _ => false
  end.

(** What it returned, or [d] when it threw. *)
Definition result {A} (d : A) (m : js A) : A :=
  match m with
  | inr a => a
  | inl _ => d
  end.

End Outcome.

Module ChecksumSpec.

(** The value of the polynomial with the code units of [content] as
    coefficients at 31, started at [hash]. *)
Fixpoint horner (content : string) (hash : Z) : Z :=
  match content with
  | EmptyString => hash
  | String c r => horner r (31 * hash + charCode c)
  end.

End ChecksumSpec.

Module RowSpec.

(** The record has no white space at either end of its category, description
    and date. *)
Definition trimmed (e : Expense) : Prop :=
  trim (category e) = category e ∧ trim (description e) = description e
  ∧ trim (date e) = date e.

End RowSpec.

Module SaveSpec.

Import CSVDataManager.

(** The metadata object [saveExpenses] stores next to a text. *)
Definition metadataObject (username timestamp : string) (count : nat)
    (csvContent : string) : json :=
  JObj [("version", JStr CSV_VERSION);
        ("username", JStr username);
        ("lastSaved", JStr timestamp);
        ("expenseCount", JNum (num_of_nat count));
        ("checksum", JStr (calculateChecksum csvContent))].

(** The warning of the integrity check. *)
Definition mismatch : warning :=
  ("Data integrity check failed - checksum mismatch", []).

End SaveSpec.

Module UserDataSpec.

Import CSVDataManager UserData.

(** The keys of the dated copies of [username] in the store. *)
Definition copies (st : gmap string string) (username : string) : list string :=
  List.filter (startsWith (copyPrefix username)) (map fst (map_to_list st)).

(** The key [backupUserData] writes at [now]. *)
Definition copyKey (username : string) (now : Z) : string :=
  copyPrefix username +:+ Str.of_Z now.

End UserDataSpec.

Module ExportSpec.

Import CSVDataManager.

(** The lines [saveExpenses] writes above the column header. *)
Definition headerLines (username timestamp : string) (count : nat) : list string :=
  ["# Pak-Kharcha Expense Data Export"; "# Version: " +:+ CSV_VERSION;
   "# User: " +:+ username; "# Export Date: " +:+ timestamp;
   "# Total Expenses: " +:+ Str.of_nat count; "#"].

(** The name [exportUserData] gives the file. *)
Definition exportName (rt : Runtime) (t_name : Z) (username : string) : string :=
  "pak-kharcha-" +:+ toLowerCase username +:+ "-"
  +:+ UserData.dash_for_colon (substring 0 19 (toISOString rt t_name))
  +:+ ".csv".

(** The comment [exportUserData] closes the text with. *)
Definition closing (rt : Runtime) (t_done : Z) : string :=
  "# Export completed at: " +:+ toISOString rt t_done.

(** The content of the file for a stored text. *)
Definition exportText (rt : Runtime) (t_done : Z) (csvContent : string) : string :=
  csvContent +:+ str1 nl +:+ str1 nl +:+ closing rt t_done.

(** The file the browser hands back for a text downloaded under a name. *)
Definition downloaded (name text : string) : File :=
  {| File_name := name; File_size := Z.of_nat (UserData.byteLength text);
     File_text := text |}.

End ExportSpec.

(** * Properties *)

(** ** Strings *)

Module StrFacts.

Lemma append_nil_r (s : string) : s +:+ EmptyString = s.
Proof. induction s as [|c s IH]; simpl; [done | by rewrite IH]. Qed.

Lemma append_assoc (a b c : string) : (a +:+ b) +:+ c = a +:+ (b +:+ c).
Proof. induction a as [|x a IH]; simpl; [done | by rewrite IH]. Qed.

Lemma has_char_app (c : ascii) (a b : string) :
  has_char c (a +:+ b) = has_char c a || has_char c b.
Proof.
  induction a as [|x a IH]; simpl; [done |].
  rewrite IH. by rewrite orb_assoc.
Qed.

Lemma eqb_empty_app (a b : string) :
  String.eqb (a +:+ b) EmptyString = String.eqb a EmptyString && String.eqb b EmptyString.
Proof. destruct a; simpl; [by destruct b | done]. Qed.

(** *** Lines *)

Lemma split_lines_single (a : string) :
  has_char nl a = false → split_lines a = [a].
Proof.
  induction a as [|c a IH]; simpl; [done |].
  intros [Hc Ha]%orb_false_iff. rewrite Hc, (IH Ha). done.
Qed.

Lemma split_lines_app (a b : string) :
  has_char nl a = false → split_lines (a +:+ String nl b) = a :: split_lines b.
Proof.
  induction a as [|c a IH]; simpl.
  - intros _. done.
  - intros [Hc Ha]%orb_false_iff. rewrite Hc, (IH Ha). done.
Qed.

Lemma join_cons (sep x : string) (l : list string) :
  l ≠ [] → join sep (x :: l) = x +:+ sep +:+ join sep l.
Proof. by destruct l. Qed.

Lemma split_lines_join (parts : list string) :
  parts ≠ [] → Forall (λ p, has_char nl p = false) parts →
  split_lines (join (str1 nl) parts) = parts.
Proof.
  induction parts as [|p parts IH]; [done |].
  intros _ Hall. apply Forall_cons in Hall as [Hp Hall].
  destruct parts as [|q parts].
  - simpl. by apply split_lines_single.
  - change (join (str1 nl) (p :: q :: parts))
      with (p +:+ String nl (join (str1 nl) (q :: parts))).
    rewrite split_lines_app by done. f_equal. by apply IH.
Qed.

(** *** Trimming *)

Lemma trimStart_length (s : string) :
  (String.length (trimStart s) ≤ String.length s)%nat.
Proof.
  induction s as [|c s IH]; simpl; [done |].
  destruct (is_space c); simpl; lia.
Qed.

Lemma trimEnd_length (s : string) :
  (String.length (trimEnd s) ≤ String.length s)%nat.
Proof.
  induction s as [|c s IH]; simpl; [done |].
  destruct (is_space c && _); simpl; lia.
Qed.

Lemma trimStart_fix (s : string) :
  String.length (trimStart s) = String.length s → trimStart s = s.
Proof.
  destruct s as [|c s]; simpl; [done |].
  destruct (is_space c); [| done].
  pose proof (trimStart_length s). lia.
Qed.

(** A string that [trim] leaves alone is left alone by both halves. *)
Lemma trim_fix (s : string) :
  trim s = s → trimStart s = s ∧ trimEnd s = s.
Proof.
  unfold trim. intros H.
  pose proof (trimStart_length s) as H1.
  pose proof (trimEnd_length (trimStart s)) as H2.
  assert (trimStart s = s) as Hs.
  { apply trimStart_fix. rewrite H in H2. lia. }
  split; [done |]. by rewrite Hs in H.
Qed.

Lemma trimStart_head (c : ascii) (s : string) :
  trimStart (String c s) = String c s → is_space c = false.
Proof.
  simpl. destruct (is_space c) eqn:E; [| done].
  intros H. pose proof (trimStart_length s) as Hl.
  rewrite H in Hl. simpl in Hl. lia.
Qed.

Lemma trimStart_keep (c : ascii) (s : string) :
  is_space c = false → trimStart (String c s) = String c s.
Proof. simpl. by intros ->. Qed.

Lemma trimEnd_app (a b : string) :
  b ≠ EmptyString → trimEnd b = b → trimEnd (a +:+ b) = a +:+ b.
Proof.
  intros Hb Ht. induction a as [|c a IH]; simpl; [done |].
  rewrite IH. rewrite eqb_empty_app.
  destruct b; [done |]. simpl. by rewrite !andb_false_r.
Qed.

Lemma trimEnd_app_ne (a b : string) :
  b ≠ EmptyString ∧ trimEnd b = b →
  a +:+ b ≠ EmptyString ∧ trimEnd (a +:+ b) = a +:+ b.
Proof.
  intros [Hb Ht]. split; [| by apply trimEnd_app].
  destruct a; [done | done].
Qed.

End StrFacts.

(** ** The serializer *)

Module CSVFacts.

Import CSVDataManager CSVSpec StrFacts.

#[local] Arguments storageKey : simpl never.
#[local] Arguments metadataKey : simpl never.
#[local] Arguments backupKey : simpl never.
#[local] Arguments csvHeader : simpl never.
#[local] Arguments calculateChecksum : simpl never.
#[local] Arguments num_of_nat : simpl never.

Section WithRuntime.
Context (rt : Runtime).

Abbreviation esc := (CSVSpec.esc rt).
Abbreviation csvRow := (CSVSpec.csvRow rt).
Abbreviation portable := (CSVSpec.portable rt).
Abbreviation decoded := (CSVSpec.decoded rt).
Abbreviation encode := (CSVSpec.encode rt).
Abbreviation metadataText := (CSVSpec.metadataText rt).

Lemma expenseToCSVRow_typed (e : Expense) :
  expenseToCSVRow rt (json_of_expense e) = inr (csvRow e).
Proof. reflexivity. Qed.

Lemma mapM_rows (es : list Expense) :
  mapM (expenseToCSVRow rt) (map json_of_expense es) = inr (map csvRow es).
Proof.
  induction es as [|e es IH]; [done |].
  cbn [map mapM]. rewrite expenseToCSVRow_typed. cbn. rewrite IH. done.
Qed.

(** *** The tokenizer inverts the escaping rule *)

Lemma parseFields_raw (f rest cur : string) (fields : list string) :
  has_char comma f = false → has_char dq f = false →
  parseFields (f +:+ rest) cur false fields
  = parseFields rest (cur +:+ f) false fields.
Proof.
  revert cur. induction f as [|c f IH]; intros cur; simpl.
  - intros _ _. by rewrite append_nil_r.
  - intros [Hc Hf]%orb_false_iff [Hq Hf']%orb_false_iff.
    rewrite Hq, Hc. simpl. rewrite IH by done. by rewrite append_assoc.
Qed.

Lemma parseFields_quoted (f rest cur : string) (fields : list string) :
  closes rest →
  parseFields (double_quotes f +:+ String dq rest) cur true fields
  = parseFields rest (cur +:+ f) false fields.
Proof.
  intros Hrest. revert cur. induction f as [|c f IH]; intros cur.
  - simpl. rewrite append_nil_r.
    destruct rest as [|next rest']; [done |].
    simpl in Hrest. by rewrite Hrest.
  - simpl. destruct (Ascii.eqb c dq) eqn:E.
    + apply Ascii.eqb_eq in E. subst c. simpl.
      rewrite IH. by rewrite append_assoc.
    + simpl. rewrite E, andb_false_r, IH. by rewrite append_assoc.
Qed.

Lemma parseFields_wrapped (v rest : string) (fields : list string) :
  closes rest →
  parseFields (str1 dq +:+ double_quotes v +:+ str1 dq +:+ rest)
    EmptyString false fields
  = parseFields rest v false fields.
Proof.
  intros Hrest. unfold str1. simpl.
  rewrite parseFields_quoted by done. done.
Qed.

Lemma parseFields_field (v rest : string) (fields : list string) :
  parseFields (esc v +:+ String comma rest) EmptyString false fields
  = parseFields rest EmptyString false (fields ++ [trim v]).
Proof.
  unfold esc, escapeCSVField. simpl String_of.
  destruct (_ || _ || _) eqn:Hs.
  - rewrite !append_assoc. rewrite parseFields_wrapped by done. done.
  - apply orb_false_iff in Hs as [[Hc Hq]%orb_false_iff Hn].
    rewrite parseFields_raw by done. done.
Qed.

Lemma parseFields_last (v : string) (fields : list string) :
  parseFields (esc v) EmptyString false fields = fields ++ [trim v].
Proof.
  unfold esc, escapeCSVField. simpl String_of.
  destruct (_ || _ || _) eqn:Hs.
  - rewrite <- (append_nil_r (_ +:+ _ +:+ _)). rewrite !append_assoc.
    rewrite parseFields_wrapped by done. done.
  - apply orb_false_iff in Hs as [[Hc Hq]%orb_false_iff Hn].
    rewrite <- (append_nil_r v) at 1.
    rewrite parseFields_raw by done. done.
Qed.

Lemma parseFields_plain (a rest : string) (fields : list string) :
  has_char comma a = false → has_char dq a = false →
  parseFields (a +:+ String comma rest) EmptyString false fields
  = parseFields rest EmptyString false (fields ++ [trim a]).
Proof. intros Hc Hq. rewrite parseFields_raw by done. done. Qed.

(** The fields the tokenizer finds in the row of any record whose amount
    prints without comma or quote: the five fields, trimmed. *)
Lemma parseFields_row (e : Expense) :
  has_char comma (num_toString rt (amount e)) = false →
  has_char dq (num_toString rt (amount e)) = false →
  parseFields (csvRow e) EmptyString false []
  = [trim (id e); trim (num_toString rt (amount e)); trim (category e);
     trim (description e); trim (date e)].
Proof.
  intros Hc Hq. unfold csvRow, join. cbn [String.concat].
  change ("," +:+ ?x) with (String comma x).
  rewrite parseFields_field.
  change ("," +:+ ?x) with (String comma x).
  rewrite parseFields_plain by done.
  change ("," +:+ ?x) with (String comma x).
  rewrite parseFields_field.
  change ("," +:+ ?x) with (String comma x).
  rewrite parseFields_field.
  rewrite parseFields_last. done.
Qed.

(** *** What the rows look like *)

Lemma has_char_double (c : ascii) (s : string) :
  Ascii.eqb dq c = false → has_char c (double_quotes s) = has_char c s.
Proof.
  intros Hc. induction s as [|d s IH]; simpl; [done |].
  destruct (Ascii.eqb d dq) eqn:E; simpl.
  - apply Ascii.eqb_eq in E. subst d. by rewrite Hc, IH.
  - by rewrite IH.
Qed.

Lemma esc_nl (v : string) : has_char nl v = false → has_char nl (esc v) = false.
Proof.
  intros Hv. unfold esc, escapeCSVField. simpl String_of.
  destruct (_ || _ || _); [| done].
  rewrite !has_char_app, has_char_double by done. by rewrite Hv.
Qed.

(** An escaped field starts as the field does, or with a quote. *)
Lemma esc_head (v : string) :
  String.eqb v EmptyString = false → trimStart v = v →
  startsWith "#" v = false →
  ∃ c r, esc v = String c r ∧ is_space c = false ∧ Ascii.eqb c hash = false.
Proof.
  intros Hne Ht Hh. unfold esc, escapeCSVField. simpl String_of.
  destruct (_ || _ || _).
  - eexists dq, _. by split.
  - destruct v as [|c r]; [done |]. exists c, r.
    split; [done |]. split; [by eapply trimStart_head |].
    simpl in Hh. by rewrite andb_true_r in Hh.
Qed.

(** An escaped field ends as the field does, or with a quote. *)
Lemma esc_tail (v : string) :
  String.eqb v EmptyString = false → trimEnd v = v →
  esc v ≠ EmptyString ∧ trimEnd (esc v) = esc v.
Proof.
  intros Hne Ht. unfold esc, escapeCSVField. simpl String_of.
  destruct (_ || _ || _).
  - do 2 apply trimEnd_app_ne. by split.
  - split; [by destruct v | done].
Qed.

(** What a passing validation tells about the fields. *)
Lemma validateExpense_true (now : Z) (e : Expense) :
  fst (validateExpense rt now e) = true →
  String.eqb (id e) EmptyString = false
  ∧ existsb (String.eqb (category e)) validCategories = true
  ∧ String.eqb (date e) EmptyString = false.
Proof.
  unfold validateExpense. cbn [fst].
  destruct (String.eqb (id e) EmptyString); [done |].
  destruct (_ || _); [done |].
  destruct (String.eqb (category e) EmptyString); [done |].
  destruct (existsb _ _); [| done].
  destruct (String.eqb (date e) EmptyString); [| done].
  cbn [orb negb app]. rewrite !length_app. cbn [length].
  intros H. apply Nat.eqb_eq in H. lia.
Qed.

Lemma validCategories_plain (c : string) :
  existsb (String.eqb c) validCategories = true →
  trim c = c ∧ has_char nl c = false.
Proof.
  intros (x & Hin & Heq)%existsb_exists.
  apply String.eqb_eq in Heq. subst x.
  unfold validCategories in Hin. cbn [In] in Hin.
  repeat (destruct Hin as [<- | Hin]; [by vm_compute |]). done.
Qed.

Lemma csvRow_nl (now : Z) (e : Expense) :
  fst (validateExpense rt now e) = true → portable e →
  has_char nl (csvRow e) = false.
Proof.
  intros (_ & Hcat & _)%validateExpense_true He.
  apply validCategories_plain in Hcat as [_ Hcat].
  unfold csvRow, join. cbn [String.concat].
  rewrite !has_char_app.
  rewrite !esc_nl by (done || apply He). rewrite (amount_line _ _ He). done.
Qed.

(** The row of a portable record is a data line that [trim] leaves alone. *)
Lemma csvRow_line (now : Z) (e : Expense) :
  fst (validateExpense rt now e) = true → portable e →
  trim (csvRow e) = csvRow e
  ∧ String.eqb (csvRow e) EmptyString = false
  ∧ startsWith "#" (csvRow e) = false.
Proof.
  intros (Hid & _ & Hdate)%validateExpense_true He.
  destruct (trim_fix _ (id_trim _ _ He)) as [Hids _].
  destruct (trim_fix _ (date_trim _ _ He)) as [_ Hdatee].
  destruct (esc_head _ Hid Hids (id_data _ _ He)) as (c & r & Hesc & Hsp & Hh).
  pose proof (esc_tail _ Hdate Hdatee) as Htail.
  assert (trimEnd (csvRow e) = csvRow e) as Hend.
  { unfold csvRow, join. cbn [String.concat].
    by repeat (apply trimEnd_app_ne). }
  assert (∃ r', csvRow e = String c r') as [r' Hrow].
  { unfold csvRow, join. cbn [String.concat]. rewrite Hesc. by eexists. }
  split; [| split].
  - unfold trim. rewrite Hrow at 1. rewrite trimStart_keep by done.
    by rewrite <- Hrow.
  - by rewrite Hrow.
  - rewrite Hrow. simpl. by rewrite andb_true_r.
Qed.

(** Reading back the row of a valid, portable record gives the record. *)
Lemma csvRowToExpense_csvRow (now : Z) (e : Expense) (j : nat) :
  fst (validateExpense rt now e) = true → portable e →
  csvRowToExpense rt now (csvRow e) j = (Some e, []).
Proof.
  intros Hv He.
  destruct (validateExpense_true _ _ Hv) as (Hid & Hcat & _).
  apply validCategories_plain in Hcat as [Hcat _].
  unfold csvRowToExpense.
  rewrite parseFields_row by apply He.
  rewrite (id_trim _ _ He), Hcat, (description_trim _ _ He), (date_trim _ _ He).
  rewrite (amount_back _ _ He), Hid.
  replace {| id := id e; amount := amount e; category := category e;
             description := description e; date := date e |} with e
    by by destruct e.
  cbn zeta. by rewrite Hv.
Qed.

(** *** The loop over the lines *)

Lemma loadRows_decoded (now : Z) (lines : list string) (i : nat)
    (es : list Expense) (errs : list string) :
  fst (loadRows rt now lines i es errs) = es ++ decoded now lines i.
Proof.
  revert i es errs. induction lines as [|l r IH]; intros i es errs; simpl.
  - by rewrite app_nil_r.
  - destruct (_ && _); simpl; rewrite IH; [| done].
    destruct (fst _); [| done]. by rewrite <- app_assoc.
Qed.

Lemma decoded_rows (now : Z) (D : list Expense) (i : nat) :
  Forall (λ e, fst (validateExpense rt now e) = true ∧ portable e) D →
  decoded now (map csvRow D) i = D.
Proof.
  intros HD. revert i. induction HD as [|e D [Hv He] _ IH]; intros i; [done |].
  cbn [map decoded].
  destruct (csvRow_line _ _ Hv He) as (-> & -> & ->).
  rewrite csvRowToExpense_csvRow by done. cbn. by rewrite IH.
Qed.

Lemma decoded_comments (now : Z) (pre rest : list string) (i : nat) :
  Forall comment pre →
  decoded now (pre ++ rest) i = decoded now rest (i + length pre).
Proof.
  intros Hpre. revert i. induction Hpre as [|l pre Hl _ IH]; intros i.
  - simpl. by rewrite Nat.add_0_r.
  - cbn [app decoded length]. unfold comment in Hl. rewrite Hl.
    rewrite andb_false_r. cbn [app]. rewrite IH. f_equal. lia.
Qed.

(** The column header, read as a row, is rejected: its category is not one. *)
Lemma decoded_columns (now : Z) (rest : list string) (i : nat) :
  decoded now (columns :: rest) i = decoded now rest (S i).
Proof.
  cbn [decoded].
  replace (trim columns) with columns by by vm_compute.
  replace (String.eqb columns EmptyString) with false by by vm_compute.
  replace (startsWith "#" columns) with false by by vm_compute.
  cbn [negb andb]. unfold csvRowToExpense.
  replace (parseFields columns EmptyString false [])
    with ["id"; "amount"; "category"; "description"; "date"] by by vm_compute.
  cbn zeta. unfold validateExpense. cbn [fst snd category id description date].
  replace (existsb (String.eqb "category") validCategories) with false
    by by vm_compute.
  rewrite orb_true_r. cbn [negb].
  replace (String.eqb "id" EmptyString) with false by by vm_compute.
  rewrite !length_app. cbn [length app].
  replace (_ =? 0)%nat with false; [done |].
  symmetry. apply Nat.eqb_neq. lia.
Qed.

Lemma findDataStart_found (lines : list string) (i : nat) :
  Exists (λ l, includes "id,amount,category" l = true) lines →
  (i < findDataStart lines i)%nat.
Proof.
  intros H. revert i. induction H as [l r Hl | l r _ IH]; intros i; simpl.
  - rewrite Hl. lia.
  - destruct (includes _ l); [lia |]. specialize (IH (S i)). lia.
Qed.

(** Whichever informational line the search for the header stops at, the
    rows read are those below the column header. *)
Lemma decoded_below_header (now : Z) (pre rest : list string) (i : nat) :
  Forall comment pre →
  let lines := pre ++ columns :: rest in
  let k := findDataStart lines i in
  ∃ j, decoded now (drop (k - i) lines) k = decoded now rest j.
Proof.
  intros Hpre. revert i. induction Hpre as [|l pre Hl Hpre IH]; intros i.
  - cbn [app findDataStart].
    replace (includes "id,amount,category" columns) with true by by vm_compute.
    cbn zeta. replace (S i - i)%nat with 1%nat by lia.
    exists (S i). done.
  - cbn [app findDataStart]. destruct (includes _ l) eqn:E.
    + cbn zeta. replace (S i - i)%nat with 1%nat by lia.
      change (drop 1 (l :: ?x)) with x.
      rewrite decoded_comments by done. rewrite decoded_columns. by eexists.
    + cbn zeta. destruct (IH (S i)) as [j Hj]. exists j.
      assert (S i < findDataStart (pre ++ columns :: rest) (S i))%nat as Hlt.
      { apply findDataStart_found. apply Exists_app. right.
        apply Exists_cons_hd. by vm_compute. }
      replace (findDataStart (pre ++ columns :: rest) (S i) - i)%nat
        with (S (findDataStart (pre ++ columns :: rest) (S i) - S i)) by lia.
      exact Hj.
Qed.

(** *** Saving typed records, and reading them back *)

Lemma keys_distinct (username : string) :
  storageKey username ≠ metadataKey username
  ∧ storageKey username ≠ backupKey username
  ∧ backupKey username ≠ metadataKey username.
Proof.
  unfold storageKey, metadataKey, backupKey, getFileName. simpl.
  repeat split; congruence.
Qed.

(** [saveExpenses] on typed records, for a named user. *)
Lemma saveExpenses_typed_eq (now : Z) (st : gmap string string)
    (username : string) (es : list Expense) :
  username ≠ EmptyString →
  saveExpenses rt now st username (expenses_json es)
  = inr (<[metadataKey username :=
             metadataText username (toISOString rt now) (length es)
               (encode username (toISOString rt now) es)]>
           (<[storageKey username := encode username (toISOString rt now) es]>
              (keepPrevious st username))).
Proof.
  intros Hu. apply String.eqb_neq in Hu.
  unfold saveExpenses, expenses_json. rewrite Hu, mapM_rows.
  unfold encode, metadataText, keepPrevious. rewrite length_map. reflexivity.
Qed.

(** [saveExpenses] on typed records succeeds for a named user; it stores the
    encoded text under the user's key and touches two more keys at most. *)
Lemma saveExpenses_typed (now : Z) (st : gmap string string)
    (username : string) (es : list Expense) :
  username ≠ EmptyString →
  ∃ st', saveExpenses rt now st username (expenses_json es) = inr st'
    ∧ st' !! storageKey username
      = Some (encode username (toISOString rt now) es)
    ∧ ∀ k, k ≠ storageKey username → k ≠ metadataKey username →
           k ≠ backupKey username → st' !! k = st !! k.
Proof.
  intros Hu. destruct (keys_distinct username) as (Hsm & Hsb & Hbm).
  rewrite saveExpenses_typed_eq by done. eexists. split; [done |]. split.
  - rewrite lookup_insert_ne by done. by rewrite lookup_insert_eq.
  - intros k Hk1 Hk2 Hk3. rewrite !lookup_insert_ne by done.
    unfold keepPrevious.
    destruct (st !! storageKey username) as [existing|]; [| done].
    destruct (String.eqb existing EmptyString); [done |].
    by rewrite lookup_insert_ne.
Qed.

Lemma of_uint_nl (d : Decimal.uint) :
  has_char nl (DecimalString.NilEmpty.string_of_uint d) = false.
Proof. induction d; simpl; done. Qed.

Lemma comment_hash (s : string) : comment (String hash s).
Proof. unfold comment, trim. simpl. done. Qed.

Lemma split_lines_join_last (parts : list string) (last : string) :
  Forall (λ p, has_char nl p = false) parts →
  split_lines (join (str1 nl) (parts ++ [last])) = parts ++ split_lines last.
Proof.
  induction 1 as [|p parts Hp _ IH]; [done |].
  cbn [app]. rewrite join_cons by by destruct parts.
  change (str1 nl +:+ ?b) with (String nl b).
  rewrite split_lines_app by done. by rewrite IH.
Qed.

(** The lines of the stored text: six informational lines, the column
    header, and the rows (a single empty line when there is none). *)
Lemma split_lines_encode (username timestamp : string) (rows : list string)
    (count : nat) :
  has_char nl username = false → has_char nl timestamp = false →
  Forall (λ r, has_char nl r = false) rows →
  ∃ pre, Forall comment pre
    ∧ split_lines (csvHeader username timestamp count +:+ join (str1 nl) rows)
      = pre ++ columns :: (if rows is [] then [EmptyString] else rows).
Proof.
  intros Hu Ht Hrows.
  exists ["# Pak-Kharcha Expense Data Export"; "# Version: " +:+ CSV_VERSION;
          "# User: " +:+ username; "# Export Date: " +:+ timestamp;
          "# Total Expenses: " +:+ Str.of_nat count; "#"].
  split.
  { repeat (apply Forall_cons; split; [apply comment_hash |]). done. }
  set (pre := [_; _; _; _; _; _]).
  replace (csvHeader username timestamp count +:+ join (str1 nl) rows)
    with (join (str1 nl) ((pre ++ [columns]) ++ [join (str1 nl) rows])).
  - rewrite split_lines_join_last.
    + rewrite <- app_assoc. cbn [app]. do 7 f_equal.
      destruct rows as [|r rows]; [done |]. by apply split_lines_join.
    + subst pre. cbn [app].
      repeat (apply Forall_cons; split; [simpl; try done |]);
        [apply of_uint_nl | done].
  - subst pre. unfold csvHeader, join. cbn [String.concat app].
    by rewrite !append_assoc.
Qed.

(** [loadExpenses] on a store that holds an encoded text: the records are
    those decoded from the rows, whatever the metadata says. *)
Lemma loadExpenses_encode (now : Z) (st : gmap string string)
    (username timestamp : string) (es : list Expense) :
  username ≠ EmptyString →
  has_char nl username = false → has_char nl timestamp = false →
  Forall (λ e, has_char nl (csvRow e) = false) es →
  st !! storageKey username = Some (encode username timestamp es) →
  ∃ j warnings,
    loadExpenses rt now st username
    = inr (decoded now (if es is [] then [EmptyString] else map csvRow es) j,
           warnings).
Proof.
  intros Hu Hnl Ht Hrows Hst. apply String.eqb_neq in Hu.
  unfold loadExpenses. rewrite Hu, Hst.
  replace (String.eqb (encode username timestamp es) EmptyString) with false
    by (unfold encode, csvHeader, join; by simpl).
  unfold encode.
  destruct (split_lines_encode username timestamp (map csvRow es) (length es))
    as (pre & Hpre & ->); [done | done | by apply Forall_map |].
  destruct (decoded_below_header now pre
              (if map csvRow es is [] then [EmptyString] else map csvRow es)
              0 Hpre) as [j Hj].
  cbn zeta in Hj. rewrite Nat.sub_0_r in Hj.
  destruct (loadRows rt now _ _ [] []) as [expenses errors] eqn:E.
  exists j. eexists. do 2 f_equal.
  change expenses with (fst (expenses, errors)). rewrite <- E.
  rewrite loadRows_decoded. cbn [app]. rewrite Hj. by destruct es.
Qed.

(** What [saveExpenses] stores for typed records under the two keys that
    [loadExpenses] reads does not depend on the store it started from. *)
Lemma saveExpenses_independent (now : Z) (st1 st2 st1' : gmap string string)
    (username : string) (es : list Expense) :
  saveExpenses rt now st1 username (expenses_json es) = inr st1' →
  ∃ st2', saveExpenses rt now st2 username (expenses_json es) = inr st2'
    ∧ st1' !! storageKey username
      = Some (encode username (toISOString rt now) es)
    ∧ st2' !! storageKey username = st1' !! storageKey username
    ∧ st2' !! metadataKey username = st1' !! metadataKey username.
Proof.
  destruct (keys_distinct username) as (Hsm & Hsb & Hbm).
  destruct (decide (username = EmptyString)) as [-> | Hu]; [done |].
  rewrite !saveExpenses_typed_eq by done. intros [= <-].
  eexists. split; [done |].
  rewrite !(lookup_insert_ne _ (metadataKey username) (storageKey username))
    by done.
  by rewrite !lookup_insert_eq.
Qed.

(** [loadExpenses] reads two keys of the store. *)
Lemma loadExpenses_ext (now : Z) (st1 st2 : gmap string string) (username : string) :
  st1 !! storageKey username = st2 !! storageKey username →
  st1 !! metadataKey username = st2 !! metadataKey username →
  loadExpenses rt now st1 username = loadExpenses rt now st2 username.
Proof.
  intros Hs Hm. unfold loadExpenses, verifyIntegrity. by rewrite Hs, Hm.
Qed.

End WithRuntime.

End CSVFacts.

(** ** The serializer round trip *)

(** C1, as the code has it.  Saving a dataset and loading it again gives the
    same records, field by field, when every record passes validation and is
    [portable]: its id, description and date have no white space at either
    end and no line feed, its id does not start with the comment mark, and
    the engine reads back the amount it printed.  Commas and quotes inside
    the fields are free.  The user is named, and neither the user name nor
    the time stamp written in the header contains a line feed. *)
Theorem csv_roundtrip (rt : Runtime) (now t_save : Z) (st : gmap string string)
    (username : string) (D : list Expense) :
  username ≠ EmptyString →
  has_char nl username = false →
  has_char nl (toISOString rt t_save) = false →
  Forall (λ e, fst (CSVDataManager.validateExpense rt now e) = true
               ∧ CSVSpec.portable rt e) D →
  ∃ st' warnings,
    CSVDataManager.saveExpenses rt t_save st username (expenses_json D) = inr st'
    ∧ CSVDataManager.loadExpenses rt now st' username = inr (D, warnings).
Proof.
  intros Hu Hnl Ht HD.
  destruct (CSVFacts.saveExpenses_typed rt t_save st username D Hu)
    as (st' & Hsave & Hst' & _).
  destruct (CSVFacts.loadExpenses_encode rt now st' username _ D Hu Hnl Ht)
    as (j & warnings & Hload); [| done |].
  { eapply Forall_impl; [exact HD |]. intros e [Hv He].
    by eapply CSVFacts.csvRow_nl. }
  exists st', warnings. split; [done |]. rewrite Hload. do 2 f_equal.
  destruct D as [|e D]; [done |].
  by apply CSVFacts.decoded_rows.
Qed.

Lemma csv_roundtrip_witness :
  ∃ st' warnings,
    CSVDataManager.saveExpenses Engine.engine noon ∅ "ali" (expenses_json [lunch])
    = inr st'
    ∧ CSVDataManager.loadExpenses Engine.engine noon st' "ali"
      = inr ([lunch], warnings).
Proof.
  apply (csv_roundtrip Engine.engine noon noon ∅ "ali" [lunch]).
  - discriminate.
  - vm_compute. reflexivity.
  - vm_compute. reflexivity.
  - apply Forall_cons. split; [| by apply Forall_nil].
    split; [vm_compute; reflexivity |].
    constructor; vm_compute; reflexivity.
Defined.

(** C1 as stated fails: a description with a space at either end passes
    validation and comes back without the spaces. *)
Lemma csv_roundtrip_trims :
  fst (CSVDataManager.validateExpense Engine.engine noon padded_lunch) = true
  ∧ save_then_load Engine.engine noon ∅ "ali" [padded_lunch]
    = inr ([{| id := "e-1"; amount := 500%float;
               category := "Food & Groceries"; description := "Lunch";
               date := "2024-01-01" |}], [])
  ∧ description padded_lunch ≠ "Lunch".
Proof.
  split; [vm_compute; reflexivity |].
  split; [vm_compute; reflexivity | discriminate].
Qed.

(** A description with a line feed is quoted by [escapeCSVField], but
    [loadExpenses] splits the text at every line feed first: the record is
    lost on the way back. *)
Example csv_roundtrip_line_feed :
  let e := {| id := "e-2"; amount := 500%float; category := "Housing";
              description := "Rent" +:+ str1 nl +:+ "May";
              date := "2024-01-01" |} in
  fst (CSVDataManager.validateExpense Engine.engine noon e) = true
  ∧ ∃ warnings, save_then_load Engine.engine noon ∅ "ali" [e] = inr ([], warnings).
Proof. split; [| eexists]; vm_compute; reflexivity. Qed.

(** ** Integrity is a hint *)

(** C5.  The stored checksum never decides what is loaded or restored.
    Loading gives the same records whatever is stored as metadata next to
    the same text; restoring two backup files that carry the same expenses
    gives the same result and the same store whatever their metadata say,
    and all that the checksum test contributes is what is logged. *)
Theorem checksum_never_blocks (rt : Runtime) (now : Z) (username : string) :
  (∀ (st : gmap string string) (metadata : string),
     records (CSVDataManager.loadExpenses rt now
                (<[CSVDataManager.metadataKey username := metadata]> st) username)
     = records (CSVDataManager.loadExpenses rt now st username))
  ∧ (∀ (st : gmap string string) (f1 f2 : File) (m1 m2 expenses : json),
       BackupManager.readBackup rt f1 = inr (m1, expenses) →
       BackupManager.readBackup rt f2 = inr (m2, expenses) →
       restored (BackupManager.restoreFromBackup rt now st username f1)
       = restored (BackupManager.restoreFromBackup rt now st username f2)
       ∧ (BackupManager.restoreFromBackup rt now st username f1).2
         = BackupManager.verifyChecksum rt m1 expenses).
Proof.
  split.
  - intros st metadata. unfold CSVDataManager.loadExpenses.
    destruct (CSVFacts.keys_distinct username) as (Hsm & _ & _).
    rewrite lookup_insert_ne by done.
    destruct (String.eqb username ""); [done |].
    destruct (st !! CSVDataManager.storageKey username) as [csv|]; [| done].
    destruct (String.eqb csv ""); [done |].
    by destruct (CSVDataManager.loadRows _ _ _ _ _ _).
  - intros st f1 f2 m1 m2 expenses H1 H2.
    unfold BackupManager.restoreFromBackup, restored. rewrite H1, H2.
    destruct expenses; try done.
    destruct (BackupManager.validateAll _ _ _ _ _) as [valid errs].
    destruct (length valid =? 0)%nat; [done |].
    by destruct (CSVDataManager.saveExpenses _ _ _ _ _) as [msg|st'].
Qed.

Lemma checksum_never_blocks_witness :
  let sound := backup_file (backup_doc sound_metadata (expenses_json [lunch])) in
  let stale := backup_file (backup_doc stale_metadata (expenses_json [lunch])) in
  BackupManager.readBackup Engine.engine sound
  = inr (sound_metadata, expenses_json [lunch])
  ∧ BackupManager.readBackup Engine.engine stale
    = inr (stale_metadata, expenses_json [lunch])
  ∧ BackupManager.verifyChecksum Engine.engine sound_metadata
      (expenses_json [lunch]) = []
  ∧ BackupManager.verifyChecksum Engine.engine stale_metadata
      (expenses_json [lunch])
    = [("Backup checksum mismatch - data may be corrupted", [])]
  ∧ restored (BackupManager.restoreFromBackup Engine.engine noon ∅ "ali" sound)
    = restored (BackupManager.restoreFromBackup Engine.engine noon ∅ "ali" stale).
Proof.
  intros sound stale.
  assert (H1 : BackupManager.readBackup Engine.engine sound
               = inr (sound_metadata, expenses_json [lunch]))
    by (vm_compute; reflexivity).
  assert (H2 : BackupManager.readBackup Engine.engine stale
               = inr (stale_metadata, expenses_json [lunch]))
    by (vm_compute; reflexivity).
  split; [exact H1 |]. split; [exact H2 |].
  split; [vm_compute; reflexivity |]. split; [vm_compute; reflexivity |].
  exact (proj1 (proj2 (checksum_never_blocks Engine.engine noon "ali")
                  ∅ sound stale _ _ _ H1 H2)).
Defined.

(** ** Restoring a backup file *)

Module RestoreFacts.

Import BackupManager RestoreSpec.

Section WithRuntime.
Context (rt : Runtime).

Abbreviation passes := (RestoreSpec.passes rt).
Abbreviation failures := (RestoreSpec.failures rt).

Lemma validateAll_spec (items : list json) (index : nat)
    (valid : list json) (errs : list string) :
  validateAll rt items index valid errs
  = (valid ++ List.filter passes items, errs ++ failures items index).
Proof.
  revert index valid errs.
  induction items as [|e items IH]; intros index valid errs; simpl.
  - by rewrite !app_nil_r.
  - unfold passes. destruct (validateExpense rt e); rewrite IH.
    + by rewrite <- app_assoc.
    + by rewrite <- app_assoc.
Qed.

(** A record that passes has what [expenseToCSVRow] reads: it is an object
    and its amount is a number. *)
Lemma passes_row (expense : json) :
  passes expense = true → ∃ row, CSVDataManager.expenseToCSVRow rt expense = inr row.
Proof.
  unfold passes, validateExpense, CSVDataManager.expenseToCSVRow.
  destruct expense as [| b | n | s | items | props]; try done; cbn.
  destruct (_ || _); [done |].
  destruct (assoc "amount" props) as [[| | n | | |]|]; try done.
  intros _. by eexists.
Qed.

Lemma mapM_cons {A B} (f : A → js B) (x : A) (l : list A) :
  mapM f (x :: l) = (y ← f x; k ← mapM f l; mret (y :: k)).
Proof. reflexivity. Qed.

Lemma mapM_length {A B} (f : A → js B) (l : list A) (k : list B) :
  mapM f l = inr k → length k = length l.
Proof.
  revert k. induction l as [|x l IH]; intros k.
  - by intros [= <-].
  - rewrite mapM_cons. destruct (f x) as [msg|y]; [done |].
    cbn. destruct (mapM f l) as [msg|k']; [done |].
    intros [= <-]. cbn. f_equal. by apply IH.
Qed.

Lemma passes_rows (items : list json) :
  Forall (λ e, passes e = true) items →
  ∃ rows, mapM (CSVDataManager.expenseToCSVRow rt) items = inr rows.
Proof.
  induction 1 as [|e items He _ [rows IH]]; [by eexists |].
  destruct (passes_row e He) as [row Hrow].
  exists (row :: rows). rewrite mapM_cons, Hrow, IH. done.
Qed.

(** Records that pass can always be saved for a named user. *)
Lemma passes_save (now : Z) (st : gmap string string) (username : string)
    (items : list json) :
  username ≠ EmptyString → Forall (λ e, passes e = true) items →
  ∃ st', CSVDataManager.saveExpenses rt now st username (JArr items) = inr st'.
Proof.
  intros Hu Hitems. apply String.eqb_neq in Hu.
  destruct (passes_rows items Hitems) as [rows Hrows].
  unfold CSVDataManager.saveExpenses. rewrite Hu, Hrows. cbn. by eexists.
Qed.

(** What [saveExpenses] writes for records whose rows are [rows]. *)
Lemma saveExpenses_rows (now : Z) (st : gmap string string) (username : string)
    (items : list json) (rows : list string) :
  username ≠ EmptyString →
  mapM (CSVDataManager.expenseToCSVRow rt) items = inr rows →
  let csvContent :=
    CSVDataManager.csvHeader username (toISOString rt now) (length items)
    +:+ join (str1 nl) rows in
  ∃ st', CSVDataManager.saveExpenses rt now st username (JArr items) = inr st'
    ∧ st' !! CSVDataManager.storageKey username = Some csvContent
    ∧ st' !! CSVDataManager.metadataKey username
      = Some (CSVSpec.metadataText rt username (toISOString rt now)
                (length items) csvContent)
    ∧ ∀ k, k ≠ CSVDataManager.storageKey username →
           k ≠ CSVDataManager.metadataKey username →
           k ≠ CSVDataManager.backupKey username → st' !! k = st !! k.
Proof.
  intros Hu Hrows. apply String.eqb_neq in Hu.
  destruct (CSVFacts.keys_distinct username) as (Hsm & Hsb & Hbm).
  cbn zeta. unfold CSVDataManager.saveExpenses. rewrite Hu, Hrows.
  eexists. split; [reflexivity |]. split; [| split].
  - rewrite lookup_insert_ne by done. by rewrite lookup_insert_eq.
  - by rewrite lookup_insert_eq.
  - intros k Hk1 Hk2 Hk3. rewrite !lookup_insert_ne by done.
    destruct (st !! CSVDataManager.storageKey username) as [existing|]; [| done].
    destruct (String.eqb existing EmptyString); [done |].
    by rewrite lookup_insert_ne.
Qed.

End WithRuntime.

End RestoreFacts.



(** ** Importing a CSV file *)

Module ImportFacts.

Import CSVDataManager ImportSpec.

Section WithRuntime.
Context (rt : Runtime).

Abbreviation parsedRows := (ImportSpec.parsedRows rt).

(** A row is a duplicate exactly when an accepted row has its id, or its
    amount, category, description and date. *)
Lemma isDuplicate_spec (acc : list Expense) (e : Expense) :
  isDuplicate acc e = true ↔
  ∃ x, x ∈ acc
    ∧ (id x = id e
       ∨ (PrimFloat.eqb (amount x) (amount e) = true
          ∧ category x = category e
          ∧ description x = description e
          ∧ date x = date e)).
Proof.
  unfold isDuplicate. rewrite existsb_exists. split.
  - intros (x & Hin & H). exists x. split; [by apply list_elem_of_In |].
    apply orb_true_iff in H as [H | H].
    + left. by apply String.eqb_eq.
    + right. repeat (apply andb_true_iff in H as [H ?]).
      repeat split; try by apply String.eqb_eq. done.
  - intros (x & Hin & H). exists x. split; [by apply list_elem_of_In |].
    apply orb_true_iff. destruct H as [H | (Ha & Hc & Hd & Ht)].
    + left. by apply String.eqb_eq.
    + right. rewrite Ha. repeat (apply andb_true_iff; split); try done;
        by apply String.eqb_eq.
Qed.

(** A row that fails comes with at least one error. *)
Lemma csvRowToExpense_failed (now : Z) (row : string) (i : nat) :
  failed (csvRowToExpense rt now row i) = true →
  (1 ≤ length (snd (csvRowToExpense rt now row i)))%nat.
Proof.
  unfold failed, csvRowToExpense.
  destruct (parseFields _ _ _ _) as [|f1 [|f2 [|f3 [|f4 [|f5 [|f6 fs]]]]]];
    cbn; try lia.
  destruct (negb _); cbn; [| done].
  intros _. rewrite length_app. cbn. lia.
Qed.

Lemma length_validRows (rows : list (option Expense * list string)) :
  length rows = (invalidCount rows + length (validRows rows))%nat.
Proof.
  unfold invalidCount, validRows, failed.
  induction rows as [|[[e|] errs] rows IH]; cbn in *; lia.
Qed.

Lemma length_accepted (acc valid : list Expense) :
  (length (accepted acc valid) + duplicateCount acc valid
   = length acc + length valid)%nat.
Proof.
  revert acc. induction valid as [|e r IH]; intros acc; cbn; [lia |].
  destruct (isDuplicate acc e).
  - specialize (IH acc). lia.
  - specialize (IH (acc ++ [e])). rewrite length_app in IH. cbn in IH. lia.
Qed.

Lemma validRows_cons (row : option Expense * list string)
    (rows : list (option Expense * list string)) :
  validRows (row :: rows)
  = match fst row with
    | Some e => e :: validRows rows
    | None => validRows rows
    end.
Proof. reflexivity. Qed.

Lemma invalidCount_cons (row : option Expense * list string)
    (rows : list (option Expense * list string)) :
  invalidCount (row :: rows)
  = ((if failed row then 1 else 0) + invalidCount rows)%nat.
Proof. unfold invalidCount. cbn. by destruct (failed row). Qed.

(** Use the induction hypothesis at the state the loop goes on with. *)
Ltac next_state IH :=
  match goal with
  | |- context [importRows _ _ _ ?i ?s] =>
      destruct (IH i s) as (H1 & H2 & H3 & H4);
      cbn [imp_expenses imp_importedCount imp_skippedCount imp_errors] in *
  end.

(** The row loop of [importUserData], in terms of the rows it reads. *)
Lemma importRows_spec (now : Z) (lines : list string) (i : nat) (s : ImportState) :
  let rows := parsedRows now lines i in
  let s' := importRows rt now lines i s in
  imp_expenses s' = accepted (imp_expenses s) (validRows rows)
  ∧ (imp_importedCount s' + length (imp_expenses s)
     = imp_importedCount s + length (imp_expenses s'))%nat
  ∧ imp_skippedCount s'
    = (imp_skippedCount s + invalidCount rows
       + duplicateCount (imp_expenses s) (validRows rows))%nat
  ∧ (length (imp_errors s) + invalidCount rows
     + duplicateCount (imp_expenses s) (validRows rows)
     ≤ length (imp_errors s'))%nat.
Proof.
  revert i s. induction lines as [|l r IH]; intros i s.
  - cbn. repeat split; lia.
  - cbn [parsedRows importRows]. fold (isData l).
    destruct (isData l) eqn:Hdata; cbn [app]; [| apply IH].
    rewrite validRows_cons, invalidCount_cons.
    pose proof (csvRowToExpense_failed now (trim l) (S i)) as Herr.
    unfold failed in *.
    destruct (fst (csvRowToExpense rt now (trim l) (S i))) as [e|] eqn:E.
    + cbn [accepted duplicateCount].
      destruct (isDuplicate (imp_expenses s) e) eqn:Hdup; cbn [negb].
      * next_state IH. rewrite length_app in H4. cbn [length] in H4.
        repeat split; [done | lia | lia | lia].
      * next_state IH. rewrite length_app in H2. cbn [length] in H2.
        repeat split; [done | lia | lia | lia].
    + next_state IH. rewrite length_app in H4. specialize (Herr eq_refl).
      repeat split; [done | lia | lia | lia].
Qed.

End WithRuntime.

End ImportFacts.

(** The counts of the import, in terms of what [csvRowToExpense] returns.
    For a recognized file with [N] data rows, for [M] of which
    [csvRowToExpense] returns no record, and of which [K] duplicate a row
    accepted before them, [M + K < N], imported for a named user: the import
    succeeds with [N - M - K] rows imported, [M + K] skipped and at least
    [M + K] errors.  A row is a duplicate exactly when an accepted row has
    the same id or the same amount, category, description and date. *)
Theorem partial_import (rt : Runtime) (now t_save : Z) (st : gmap string string)
    (username : string) (file : File) :
  let rows := importedRows rt now file in
  let N := length rows in
  let M := ImportSpec.invalidCount rows in
  let K := ImportSpec.duplicateCount [] (ImportSpec.validRows rows) in
  let out := CSVDataManager.importUserData rt now t_save st username file in
  username ≠ EmptyString → recognized file → (M + K < N)%nat →
  CSVDataManager.success out.1 = true
  ∧ CSVDataManager.importedCount out.1 = (N - M - K)%nat
  ∧ CSVDataManager.skippedCount out.1 = (M + K)%nat
  ∧ (M + K ≤ length (CSVDataManager.errors out.1))%nat
  ∧ ∀ acc e,
      CSVDataManager.isDuplicate acc e = true ↔
      ∃ x, x ∈ acc
        ∧ (id x = id e
           ∨ (PrimFloat.eqb (amount x) (amount e) = true
              ∧ category x = category e
              ∧ description x = description e
              ∧ date x = date e)).
Proof.
  cbn zeta. intros Hu (Hname & Hsize & Htext & Hstart) Hlt.
  unfold importedRows in *.
  set (lines := split_lines (File_text file)) in *.
  set (start := CSVDataManager.findImportStart lines 0) in *.
  pose proof (ImportFacts.importRows_spec rt now (drop start lines) start
                {| CSVDataManager.imp_expenses := [];
                   CSVDataManager.imp_importedCount := 0;
                   CSVDataManager.imp_skippedCount := 0;
                   CSVDataManager.imp_errors := [] |}) as Hspec.
  cbn zeta in Hspec. cbn [CSVDataManager.imp_expenses
    CSVDataManager.imp_importedCount CSVDataManager.imp_skippedCount
    CSVDataManager.imp_errors length] in Hspec.
  destruct Hspec as (Hexp & Himp & Hskip & Herr).
  pose proof (ImportFacts.length_validRows
                (ImportSpec.parsedRows rt now (drop start lines) start)) as HN.
  pose proof (ImportFacts.length_accepted []
                (ImportSpec.validRows
                   (ImportSpec.parsedRows rt now (drop start lines) start)))
    as HA.
  rewrite <- Hexp in HA. cbn [length] in HA.
  unfold CSVDataManager.importUserData.
  rewrite Hname. cbn [negb].
  replace (5 * 1024 * 1024 <? File_size file) with false
    by (symmetry; apply Z.ltb_ge; lia).
  replace (String.eqb (trim (File_text file)) EmptyString) with false
    by (symmetry; by apply String.eqb_neq).
  fold lines. fold start.
  replace (start =? 0)%nat with false by (symmetry; by apply Nat.eqb_neq).
  set (s := CSVDataManager.importRows rt now (drop start lines) start _) in *.
  replace (length (CSVDataManager.imp_expenses s) =? 0)%nat with false
    by (symmetry; apply Nat.eqb_neq; lia).
  destruct (CSVFacts.saveExpenses_typed rt t_save st username
              (CSVDataManager.imp_expenses s) Hu) as (st' & -> & _).
  cbn. repeat split; try lia.
  - apply ImportFacts.isDuplicate_spec.
  - apply ImportFacts.isDuplicate_spec.
Qed.

Lemma partial_import_witness :
  let rows := importedRows Engine.engine noon bank_export in
  let out :=
    CSVDataManager.importUserData Engine.engine noon noon ∅ "ali" bank_export in
  recognized bank_export
  ∧ (length rows, ImportSpec.invalidCount rows,
     ImportSpec.duplicateCount [] (ImportSpec.validRows rows))
    = (4, 1, 1)%nat
  ∧ CSVDataManager.success out.1 = true
  ∧ CSVDataManager.importedCount out.1 = 2%nat
  ∧ CSVDataManager.skippedCount out.1 = 2%nat
  ∧ (2 ≤ length (CSVDataManager.errors out.1))%nat.
Proof.
  intros rows out.
  assert (Hrec : recognized bank_export).
  { repeat split; vm_compute; congruence. }
  assert (Hcount : (length rows, ImportSpec.invalidCount rows,
                    ImportSpec.duplicateCount [] (ImportSpec.validRows rows))
                   = (4, 1, 1)%nat)
    by (vm_compute; reflexivity).
  split; [exact Hrec |]. split; [exact Hcount |].
  destruct (partial_import Engine.engine noon noon ∅ "ali" bank_export)
    as (Hs & Hi & Hk & He & _).
  - discriminate.
  - exact Hrec.
  - vm_compute. lia.
  - subst rows out. split; [exact Hs |].
    split; [rewrite Hi; vm_compute; reflexivity |].
    split; [rewrite Hk; vm_compute; reflexivity |].
    eapply Nat.le_trans; [| exact He]. vm_compute. lia.
Defined.

(** C3 does not hold of the code.  The rows [csvRowToExpense] returns no
    record for are not the rows that fail validation.  For a row whose amount
    is not a number it notes the error [Invalid amount]; [NaN] then fails
    both comparisons of [validateExpense], and the row is returned as a
    record with the amount [NaN] and an empty list of errors.  A recognized
    file with two data rows, one of them with the amount [abc], is imported
    with both rows counted as imported, none skipped and no error, and the
    row is saved with [NaN] as its amount. *)
Theorem import_counts_unreadable_amount :
  let rows := importedRows Engine.engine noon unreadable_export in
  let out :=
    CSVDataManager.importUserData Engine.engine noon noon ∅ "ali"
      unreadable_export in
  recognized unreadable_export
  ∧ length rows = 2%nat
  ∧ rows !! 0%nat = Some (Some unreadable, [])
  ∧ PrimFloat.is_nan (parseFloat Engine.engine "abc") = true
  ∧ PrimFloat.is_nan (amount unreadable) = true
  ∧ CSVDataManager.success out.1 = true
  ∧ CSVDataManager.importedCount out.1 = 2%nat
  ∧ CSVDataManager.skippedCount out.1 = 0%nat
  ∧ CSVDataManager.errors out.1 = []
  ∧ storedRows out.2 "ali"
    = Some ["a1,NaN,Food & Groceries,Lunch,2024-01-01";
            "a4,80,Transportation,Bus fare,2024-01-01"].
Proof.
  cbn zeta. split.
  { repeat split; vm_compute; congruence. }
  repeat split; vm_compute; reflexivity.
Qed.

(** ** What an import leaves in the store *)

(** C10.  A successful import stores, as the owner's dataset, the encoding
    of the rows it accepted from the file and of nothing else: the text under
    the owner's key is that encoding whatever the store held before, and the
    result and every later load are the same from any other store. *)
Theorem import_replaces_dataset (rt : Runtime) (now t_save : Z)
    (st1 st2 : gmap string string) (username : string) (file : File) :
  let out1 := CSVDataManager.importUserData rt now t_save st1 username file in
  let out2 := CSVDataManager.importUserData rt now t_save st2 username file in
  let kept :=
    ImportSpec.accepted [] (ImportSpec.validRows (importedRows rt now file)) in
  CSVDataManager.success out1.1 = true →
  out1.2 !! CSVDataManager.storageKey username
  = Some (CSVSpec.encode rt username (toISOString rt t_save) kept)
  ∧ CSVDataManager.importedCount out1.1 = length kept
  ∧ out2.1 = out1.1
  ∧ ∀ now',
      CSVDataManager.loadExpenses rt now' out2.2 username
      = CSVDataManager.loadExpenses rt now' out1.2 username.
Proof.
  cbn zeta. unfold CSVDataManager.importUserData, importedRows.
  set (lines := split_lines (File_text file)).
  set (start := CSVDataManager.findImportStart lines 0).
  pose proof (ImportFacts.importRows_spec rt now (drop start lines) start
                {| CSVDataManager.imp_expenses := [];
                   CSVDataManager.imp_importedCount := 0;
                   CSVDataManager.imp_skippedCount := 0;
                   CSVDataManager.imp_errors := [] |}) as (Hexp & Himp & _).
  cbn [CSVDataManager.imp_expenses CSVDataManager.imp_importedCount length]
    in Hexp, Himp.
  set (s := CSVDataManager.importRows rt now (drop start lines) start _) in *.
  rewrite <- Hexp.
  destruct (negb _); [done |].
  destruct (_ <? _); [done |].
  destruct (String.eqb (trim _) _); [done |].
  destruct (start =? 0)%nat; [done |].
  destruct (length _ =? 0)%nat; [done |].
  destruct (CSVDataManager.saveExpenses rt t_save st1 _ _) as [msg|st1'] eqn:E1;
    [done |].
  destruct (CSVFacts.saveExpenses_independent rt _ _ st2 _ _ _ E1)
    as (st2' & -> & Hkey & Hs & Hm).
  cbn. intros _. repeat split; [done | lia |].
  intros now'. by apply CSVFacts.loadExpenses_ext.
Qed.

Lemma import_replaces_dataset_witness :
  let out1 :=
    CSVDataManager.importUserData Engine.engine noon noon (store_with [rent])
      "ali" bank_export in
  let out2 :=
    CSVDataManager.importUserData Engine.engine noon noon ∅ "ali" bank_export in
  let kept :=
    ImportSpec.accepted []
      (ImportSpec.validRows (importedRows Engine.engine noon bank_export)) in
  records (CSVDataManager.loadExpenses Engine.engine noon (store_with [rent]) "ali")
  = inr [rent]
  ∧ map id kept = ["a1"; "a4"]
  ∧ records (CSVDataManager.loadExpenses Engine.engine noon out1.2 "ali")
    = inr kept
  ∧ CSVDataManager.success out1.1 = true
  ∧ out1.2 !! CSVDataManager.storageKey "ali"
    = Some (CSVSpec.encode Engine.engine "ali" (Engine.toISOString noon) kept)
  ∧ CSVDataManager.importedCount out1.1 = length kept
  ∧ out2.1 = out1.1
  ∧ ∀ now',
      CSVDataManager.loadExpenses Engine.engine now' out2.2 "ali"
      = CSVDataManager.loadExpenses Engine.engine now' out1.2 "ali".
Proof.
  intros out1 out2 kept.
  assert (Hs : CSVDataManager.success out1.1 = true) by (vm_compute; reflexivity).
  split; [vm_compute; reflexivity |]. split; [vm_compute; reflexivity |].
  split; [vm_compute; reflexivity |]. split; [exact Hs |].
  exact (import_replaces_dataset Engine.engine noon noon (store_with [rent]) ∅
           "ali" bank_export Hs).
Defined.

(** ** Restoring a local snapshot *)




(** ** Two validators *)

(** C4 does not hold of the code.  The validator of the CSV path rejects
    every record dated after [now]; the validator of the backup manager has
    no such test.  A backup file whose only record is dated the day after
    [noon] is restored with success, and the record it saved is the one the
    CSV path rejects: the next load drops it. *)
Theorem restore_accepts_future_date :
  (∀ (rt : Runtime) (now t : Z) (e : Expense),
     Date_value rt (JStr (date e)) = Some t → now < t →
     fst (CSVDataManager.validateExpense rt now e) = false)
  ∧ (∀ (rt : Runtime) (t : Z) (e : Expense),
       id e ≠ EmptyString → PrimFloat.leb (amount e) 0%float = false →
       category e ≠ EmptyString → description e ≠ EmptyString →
       date e ≠ EmptyString → Date_value rt (JStr (date e)) = Some t →
       BackupManager.validateExpense rt (json_of_expense e) = inr tt)
  ∧ snd (CSVDataManager.validateExpense Engine.engine noon gas_bill)
    = ["Date cannot be in the future"]
  ∧ BackupManager.validateExpense Engine.engine (json_of_expense gas_bill)
    = inr tt
  ∧ let out :=
      BackupManager.restoreFromBackup Engine.engine noon ∅ "ali"
        (backup_of [gas_bill]) in
    BackupManager.success out.1.1 = true
    ∧ BackupManager.restoredCount out.1.1 = 1%nat
    ∧ BackupManager.errors out.1.1 = []
    ∧ records (CSVDataManager.loadExpenses Engine.engine noon out.1.2 "ali")
      = inr [].
Proof.
  split; [| split].
  - intros rt now t e Ht Hlt. unfold CSVDataManager.validateExpense. cbn [fst].
    rewrite Ht. replace (now <? t) with true by (symmetry; by apply Z.ltb_lt).
    apply Nat.eqb_neq. rewrite !length_app.
    destruct (String.eqb (date e) ""); cbn [length]; lia.
  - intros rt t e Hid Hamount Hcat Hdesc Hdate Ht.
    apply String.eqb_neq in Hid, Hcat, Hdesc, Hdate.
    unfold BackupManager.validateExpense.
    change (prop rt (Some (json_of_expense e)) "id")
      with (inr (Some (JStr (id e))) : js (option json)).
    change (prop rt (Some (json_of_expense e)) "amount")
      with (inr (Some (JNum (amount e))) : js (option json)).
    change (prop rt (Some (json_of_expense e)) "category")
      with (inr (Some (JStr (category e))) : js (option json)).
    change (prop rt (Some (json_of_expense e)) "description")
      with (inr (Some (JStr (description e))) : js (option json)).
    change (prop rt (Some (json_of_expense e)) "date")
      with (inr (Some (JStr (date e))) : js (option json)).
    cbn. by rewrite Hid, Hamount, Hcat, Hdesc, Hdate, Ht.
  - repeat split; vm_compute; reflexivity.
Qed.

(** ** Retention of local snapshots *)

(** C6 does not hold of the code.  [storeLocalBackup] stores a snapshot under
    the instant it reads itself and removes the old ones under the instant of
    their [createdAt], which [createBackup] read before.  When the clock has
    moved by a millisecond in between, the keys it removes do not exist: after
    six backups six snapshots are stored.  When both readings agree, five are. *)
Theorem retention_misses_late_keys :
  length (BackupManager.getLocalBackups Engine.engine
            (BackupManager.store (six_backups 1)) "ali") = 6%nat
  ∧ size (BackupManager.store (six_backups 1)) = 6%nat
  ∧ size (BackupManager.store (six_backups 0)) = 5%nat.
Proof. repeat split; vm_compute; reflexivity. Qed.

(** ** The scheduled backup *)

Module ScheduleFacts.

Import BackupManager.

Section WithRuntime.
Context (rt : Runtime).

Lemma scheduleNextBackup_downloads (t_next t_now : Z) (p : Page)
    (username : string) (schedule : json) :
  downloads (scheduleNextBackup rt t_next t_now p username schedule)
  = downloads p.
Proof. unfold scheduleNextBackup. by destruct (0 <? _). Qed.

Lemma setupAutoBackup_downloads (t_next t_now : Z) (p : Page)
    (username : string) (schedule : json) :
  downloads (setupAutoBackup rt t_next t_now p username schedule) = downloads p.
Proof.
  unfold setupAutoBackup. destruct (prop rt _ _) as [msg|enabled]; [done |].
  destruct (truthy_opt enabled); [| done].
  by rewrite scheduleNextBackup_downloads.
Qed.

(** Whatever the schedule says, a fire on a dataset that loads with records
    triggers the download of one backup file. *)
Lemma performScheduledBackup_downloads (c : FireClock) (p : Page)
    (username : string) (es : list Expense) (logged : list warning) :
  CSVDataManager.loadExpenses rt (t_load c) (store p) username = inr (es, logged) →
  es ≠ [] →
  ∃ filename,
    downloads (performScheduledBackup rt c p username).2
    = downloads p ++ [filename].
Proof.
  intros Hload Hes. unfold performScheduledBackup. rewrite Hload.
  destruct es as [|e es]; [done |]. cbn [length Nat.eqb].
  unfold createBackup. cbn [length Nat.eqb]. eexists.
  unfold mret, js_ret, ret. cbn beta iota.
  match goal with
  | |- context [getBackupSchedule rt ?st username] =>
      destruct (getBackupSchedule rt st username)
        as [[| b | n | s | items | props]|]
  end; cbn [snd]; rewrite ?setupAutoBackup_downloads; try done;
    by destruct (truthy _).
Qed.

End WithRuntime.

End ScheduleFacts.

(** C7 does not hold of the code.  [performScheduledBackup] creates the
    backup before it reads the schedule, and never looks at [enabled] first:
    with the schedule disabled after the timer was armed, the fire still
    downloads a backup file and stores a snapshot.  All that [enabled]
    decides is that no new timer is armed. *)
Theorem disabled_schedule_still_fires :
  BackupManager.timers disabled_page = [("ali", BackupManager.day_ms)]
  ∧ (enabled ← BackupManager.getBackupSchedule Engine.engine
                 (BackupManager.store disabled_page) "ali";
     get enabled "enabled") = Some (JBool false)
  ∧ BackupManager.getLocalBackups Engine.engine
      (BackupManager.store disabled_page) "ali" = []
  ∧ let out :=
      BackupManager.performScheduledBackup Engine.engine next_noon
        disabled_page "ali" in
    out.1 = true
    ∧ BackupManager.downloads out.2
      = ["pak-kharcha-backup-ali-2024-01-03T12-00-00.json"]
    ∧ length (BackupManager.getLocalBackups Engine.engine
                (BackupManager.store out.2) "ali") = 1%nat
    ∧ BackupManager.timers out.2 = BackupManager.timers disabled_page.
Proof. repeat split; vm_compute; reflexivity. Qed.

(** ** Cleaning up old snapshots *)

Module CleanupFacts.

Import BackupManager.

Lemma lookup_foldl_delete (keys : list string) (st : gmap string string)
    (k : string) :
  foldl (λ st key, delete key st) st keys !! k
  = if decide (k ∈ keys) then None else st !! k.
Proof.
  revert st. induction keys as [|x keys IH]; intros st; cbn [foldl].
  - by rewrite decide_False by apply not_elem_of_nil.
  - rewrite IH. destruct (decide (k ∈ keys)) as [Hin | Hout].
    + by rewrite decide_True by by apply list_elem_of_further.
    + destruct (decide (k = x)) as [-> | Hne].
      * rewrite decide_True by apply list_elem_of_here.
        apply lookup_delete_eq.
      * rewrite decide_False by (rewrite elem_of_cons; tauto).
        by apply lookup_delete_ne.
Qed.

Section WithRuntime.
Context (rt : Runtime).

(** What [cleanupOldBackups] leaves under every key. *)
Lemma cleanupOldBackups_lookup (now : Z) (st : gmap string string)
    (username : string) (retentionDays : Z) (k : string) :
  cleanupOldBackups rt now st username retentionDays !! k
  = match st !! k with
    | Some v =>
        if startsWith (localPrefix username) k
           && expired rt (now - retentionDays * day_ms) v
        then None else Some v
    | None => None
    end.
Proof.
  unfold cleanupOldBackups. rewrite lookup_foldl_delete.
  set (cutoff := now - retentionDays * day_ms).
  destruct (decide _) as [Hin | Hout].
  - apply list_elem_of_omap in Hin as ([k' v] & Hkv & Hsome).
    apply elem_of_map_to_list in Hkv. cbn [fst snd] in Hsome.
    destruct (_ && _) eqn:E; [| done].
    injection Hsome as ->. by rewrite Hkv, E.
  - destruct (st !! k) as [v|] eqn:Hk; [| done].
    destruct (_ && _) eqn:E; [| done].
    exfalso. apply Hout. apply list_elem_of_omap. exists (k, v). split.
    + by apply elem_of_map_to_list.
    + cbn [fst snd]. by rewrite E.
Qed.

(** What [storeLocalBackup] leaves under every key. *)
Lemma storeLocalBackup_lookup (t_store : Z) (st : gmap string string)
    (username : string) (backup : json) (k : string) :
  let stored :=
    <[localKey username (Str.of_Z t_store) := JSON_stringify rt backup]> st in
  let backups := getLocalBackups rt stored username in
  storeLocalBackup rt t_store st username backup !! k
  = if decide ((5 < length backups)%nat
               ∧ k ∈ map (removedKey rt username) (drop 5 backups))
    then None else stored !! k.
Proof.
  cbn zeta. unfold storeLocalBackup.
  set (stored := <[_ := _]> st).
  set (backups := getLocalBackups rt stored username).
  destruct (5 <? length backups)%nat eqn:E.
  - apply Nat.ltb_lt in E.
    replace (foldl _ stored (drop 5 backups))
      with (foldl (λ st key, delete key st) stored
              (map (removedKey rt username) (drop 5 backups))).
    + rewrite lookup_foldl_delete.
      destruct (decide (k ∈ _)) as [Hin | Hout].
      * by rewrite decide_True.
      * rewrite decide_False; [done | tauto].
    + generalize stored. induction (drop 5 backups) as [|b l IH]; [done |].
      intros m. cbn [map foldl]. by rewrite IH.
  - apply Nat.ltb_ge in E. rewrite decide_False; [done | lia].
Qed.

End WithRuntime.

End CleanupFacts.

(** C8, as the code has it.  [cleanupOldBackups] removes, among the keys
    under the owner's prefix, those whose value cannot be read as a snapshot
    with metadata and those whose [createdAt] is before the cut-off, [now]
    minus the retention in days; it leaves every other key as it is.  So with
    a retention of 0 a readable snapshot created before [now] goes, with 9999
    one created within the last 9999 days stays, and a key that does not
    start with the owner's prefix is never touched. *)
Theorem cleanup_removes_expired (rt : Runtime) (now : Z)
    (st : gmap string string) (username : string) :
  let clean := BackupManager.cleanupOldBackups rt now st username in
  let mine := startsWith (BackupManager.localPrefix username) in
  (∀ days k v, st !! k = Some v → mine k = true →
     clean days !! k
     = match BackupManager.backupDate rt v with
       | inl _ => None
       | inr None => Some v
       | inr (Some t) =>
           if t <? now - days * BackupManager.day_ms then None else Some v
       end)
  ∧ (∀ k v t, st !! k = Some v → mine k = true →
       BackupManager.backupDate rt v = inr (Some t) → t < now →
       clean 0 !! k = None)
  ∧ (∀ k v t, st !! k = Some v → mine k = true →
       BackupManager.backupDate rt v = inr (Some t) →
       now - 9999 * BackupManager.day_ms ≤ t →
       clean 9999 !! k = Some v)
  ∧ (∀ days k, mine k = false → clean days !! k = st !! k)
  ∧ (∀ days k, st !! k = None → clean days !! k = None).
Proof.
  cbn zeta. repeat split.
  - intros days k v Hk Hmine.
    rewrite CleanupFacts.cleanupOldBackups_lookup, Hk, Hmine.
    unfold BackupManager.expired. cbn [andb].
    by destruct (BackupManager.backupDate rt v) as [msg|[t|]].
  - intros k v t Hk Hmine Hdate Hlt.
    rewrite CleanupFacts.cleanupOldBackups_lookup, Hk, Hmine.
    unfold BackupManager.expired. rewrite Hdate. cbn [andb].
    replace (t <? now - 0 * BackupManager.day_ms) with true; [done |].
    symmetry. apply Z.ltb_lt. lia.
  - intros k v t Hk Hmine Hdate Hle.
    rewrite CleanupFacts.cleanupOldBackups_lookup, Hk, Hmine.
    unfold BackupManager.expired. rewrite Hdate. cbn [andb].
    replace (t <? now - 9999 * BackupManager.day_ms) with false; [done |].
    symmetry. apply Z.ltb_ge. lia.
  - intros days k Hmine.
    rewrite CleanupFacts.cleanupOldBackups_lookup, Hmine.
    by destruct (st !! k).
  - intros days k Hk.
    by rewrite CleanupFacts.cleanupOldBackups_lookup, Hk.
Qed.

Lemma cleanup_removes_expired_witness :
  let clean := BackupManager.cleanupOldBackups Engine.engine noon shelf "ali" in
  clean 30 !! key_of "ali" (days_ago 40) = None
  ∧ clean 30 !! key_of "ali" (days_ago 1)
    = Some (snapshot_of "ali" (days_ago 1))
  ∧ clean 30 !! BackupManager.localKey "ali" "draft" = None
  ∧ clean 0 !! key_of "ali" (days_ago 1) = None
  ∧ clean 9999 !! key_of "ali" (days_ago 40)
    = Some (snapshot_of "ali" (days_ago 40))
  ∧ clean 0 !! key_of "bilal" (days_ago 40)
    = shelf !! key_of "bilal" (days_ago 40).
Proof.
  intros clean. subst clean.
  destruct (cleanup_removes_expired Engine.engine noon shelf "ali")
    as (Hall & Hzero & Hmany & Hother & _).
  refine (conj _ (conj _ (conj _ (conj _ (conj _ _))))).
  - rewrite (Hall 30 _ (snapshot_of "ali" (days_ago 40)));
      vm_compute; reflexivity.
  - rewrite (Hall 30 _ (snapshot_of "ali" (days_ago 1)));
      vm_compute; reflexivity.
  - rewrite (Hall 30 _ "{metadata"); vm_compute; reflexivity.
  - apply (Hzero _ (snapshot_of "ali" (days_ago 1)) (days_ago 1));
      vm_compute; reflexivity.
  - apply (Hmany _ (snapshot_of "ali" (days_ago 40)) (days_ago 40));
      vm_compute; try reflexivity. discriminate.
  - apply Hother. vm_compute. reflexivity.
Defined.

(** C8 as stated fails in its last clause: the snapshots of an owner whose
    name extends the caller's name and a dash lie under the caller's prefix.
    Cleaning up for [ali] removes the old snapshot of [ali-zafar]. *)
Lemma cleanup_reaches_other_owner :
  let st : gmap string string :=
    <[key_of "ali-zafar" (days_ago 40) := snapshot_of "ali-zafar" (days_ago 40)]> ∅ in
  BackupManager.storeLocalBackup Engine.engine (days_ago 40) ∅ "ali-zafar"
    (backup_doc
       (BackupManager.makeMetadata Engine.engine (days_ago 40) "ali-zafar" [lunch])
       (expenses_json [lunch])) = st
  ∧ st !! key_of "ali-zafar" (days_ago 40)
    = Some (snapshot_of "ali-zafar" (days_ago 40))
  ∧ BackupManager.cleanupOldBackups Engine.engine noon st "ali" 30
    !! key_of "ali-zafar" (days_ago 40) = None.
Proof. repeat split; vm_compute; reflexivity. Qed.

(** * More properties *)

Module OutcomeFacts.

Import Outcome.

Lemma returned_result {A} (d : A) (m : js A) :
  returned m = true → m = inr (result d m).
Proof. by destruct m. Qed.

Lemma store_with_saved (es : list Expense) :
  returned (CSVDataManager.saveExpenses Engine.engine noon ∅ "ali" (expenses_json es))
  = true →
  CSVDataManager.saveExpenses Engine.engine noon ∅ "ali" (expenses_json es)
  = inr (store_with es).
Proof. apply (returned_result ∅). Qed.

End OutcomeFacts.

Module FloatFacts.

Lemma SFcompare_refl (x : SpecFloat.spec_float) :
  x ≠ SpecFloat.S754_nan → SpecFloat.SFcompare x x = Some Eq.
Proof.
  destruct x as [s|s| |s m e]; simpl; try done.
  - by destruct s.
  - intros _. rewrite Z.compare_refl, Pos.compare_refl. by destruct s.
Qed.

Lemma is_nan_Prim2SF (f : float) :
  PrimFloat.is_nan f = true → Prim2SF f = SpecFloat.S754_nan.
Proof.
  unfold PrimFloat.is_nan. rewrite FloatAxioms.eqb_spec. unfold SpecFloat.SFeqb.
  destruct (Prim2SF f) as [s|s| |s m e] eqn:E; [| | done |];
    by rewrite SFcompare_refl.
Qed.

(** [NaN] fails every comparison. *)
Lemma nan_leb (f g : float) : PrimFloat.is_nan f = true → PrimFloat.leb f g = false.
Proof.
  intros H. rewrite FloatAxioms.leb_spec, (is_nan_Prim2SF _ H). done.
Qed.

Lemma nan_ltb_r (f g : float) : PrimFloat.is_nan f = true → PrimFloat.ltb g f = false.
Proof.
  intros H. rewrite FloatAxioms.ltb_spec, (is_nan_Prim2SF _ H). unfold SpecFloat.SFltb.
  by destruct (Prim2SF g) as [| | |[] ? ?].
Qed.

End FloatFacts.

Module ChecksumFacts.

Import ChecksumSpec.

Lemma to_int32_add (x k : Z) : to_int32 (x + k * 2 ^ 32) = to_int32 x.
Proof.
  unfold to_int32. replace (x + k * 2 ^ 32 + 2 ^ 31) with (x + 2 ^ 31 + k * 2 ^ 32) by lia.
  by rewrite Z_mod_plus_full.
Qed.

Lemma to_int32_eq (x : Z) : ∃ k, to_int32 x = x + k * 2 ^ 32.
Proof.
  exists (- ((x + 2 ^ 31) / 2 ^ 32)). unfold to_int32.
  rewrite Z.mod_eq by lia. lia.
Qed.

Lemma to_int32_congr (x y k : Z) : x = y + k * 2 ^ 32 → to_int32 x = to_int32 y.
Proof. intros ->. apply to_int32_add. Qed.

Lemma to_int32_idem (x : Z) : to_int32 (to_int32 x) = to_int32 x.
Proof. destruct (to_int32_eq x) as [k E]. by apply (to_int32_congr _ _ k). Qed.

(** One turn of the loop multiplies by 31 and adds the code unit, modulo
    [2^32]. *)
Lemma checksum_step (h : Z) (c : ascii) :
  to_int32 (to_int32 (Z.shiftl (to_int32 h) 5) - to_int32 h + charCode c)
  = to_int32 (31 * h + charCode c).
Proof.
  rewrite Z.shiftl_mul_pow2 by lia.
  destruct (to_int32_eq h) as [k ->].
  destruct (to_int32_eq ((h + k * 2 ^ 32) * 2 ^ 5)) as [k' ->].
  apply (to_int32_congr _ _ (k' + 31 * k)). lia.
Qed.

Lemma checksum_loop_horner (content : string) (h : Z) :
  checksum_loop content (to_int32 h) = to_int32 (horner content h).
Proof.
  revert h. induction content as [|c r IH]; intros h; simpl; [done |].
  rewrite checksum_step. apply IH.
Qed.

Lemma horner_app (a b : string) (h : Z) :
  horner (a +:+ b) h = horner b (horner a h).
Proof. revert h. induction a as [|c a IH]; intros h; simpl; [done | apply IH]. Qed.

Lemma horner_shift (a : string) (h : Z) :
  horner a h = h * 31 ^ Z.of_nat (String.length a) + horner a 0.
Proof.
  revert h. induction a as [|c a IH]; intros h.
  - simpl. lia.
  - cbn [horner String.length]. rewrite (IH (31 * h + charCode c)), (IH (31 * 0 + charCode c)).
    rewrite Nat2Z.inj_succ, Z.pow_succ_r by lia. lia.
Qed.

Lemma horner_congr (s : string) (h k : Z) :
  ∃ k', horner s (h + k * 2 ^ 32) = horner s h + k' * 2 ^ 32.
Proof.
  rewrite (horner_shift s (h + _)), (horner_shift s h).
  exists (k * 31 ^ Z.of_nat (String.length s)). lia.
Qed.

End ChecksumFacts.

(** X1.  [calculateChecksum] is the polynomial hash at 31 of the code units,
    wrapped to a signed 32-bit integer and printed in base 16. *)
Theorem checksum_is_polynomial (content : string) :
  calculateChecksum content
  = hex (to_int32 (ChecksumSpec.horner content 0))
  ∧ - 2 ^ 31 ≤ checksum_loop content 0 < 2 ^ 31.
Proof.
  assert (checksum_loop content 0 = to_int32 (ChecksumSpec.horner content 0)) as E.
  { apply (ChecksumFacts.checksum_loop_horner content 0). }
  split.
  - unfold calculateChecksum. by rewrite E.
  - rewrite E. unfold to_int32.
    pose proof (Z.mod_pos_bound (ChecksumSpec.horner content 0 + 2 ^ 31) (2 ^ 32)).
    lia.
Qed.

(** X2.  Two fragments of the same length whose polynomial values agree
    modulo [2^32] can replace one another anywhere in a text without changing
    its checksum. *)
Theorem checksum_misses_congruent_edit (a b before after : string) :
  String.length a = String.length b →
  (ChecksumSpec.horner a 0 - ChecksumSpec.horner b 0) mod 2 ^ 32 = 0 →
  calculateChecksum (before +:+ a +:+ after)
  = calculateChecksum (before +:+ b +:+ after).
Proof.
  intros Hlen Hmod. unfold calculateChecksum. f_equal.
  rewrite !(ChecksumFacts.checksum_loop_horner _ 0).
  rewrite !ChecksumFacts.horner_app.
  set (h := ChecksumSpec.horner before 0).
  rewrite (ChecksumFacts.horner_shift a h), (ChecksumFacts.horner_shift b h), Hlen.
  apply Z.mod_divide in Hmod as [k Hk]; [| lia].
  replace (h * 31 ^ Z.of_nat (String.length b) + ChecksumSpec.horner a 0)
    with (h * 31 ^ Z.of_nat (String.length b) + ChecksumSpec.horner b 0 + k * 2 ^ 32)
    by lia.
  destruct (ChecksumFacts.horner_congr after
              (h * 31 ^ Z.of_nat (String.length b) + ChecksumSpec.horner b 0) k)
    as [k' ->].
  apply ChecksumFacts.to_int32_add.
Qed.

Lemma checksum_misses_congruent_edit_witness :
  "Aa" ≠ "BB"
  ∧ calculateChecksum ("id,amount" +:+ "Aa" +:+ ",rest")
    = calculateChecksum ("id,amount" +:+ "BB" +:+ ",rest").
Proof.
  split; [done |].
  apply (checksum_misses_congruent_edit "Aa" "BB" "id,amount" ",rest");
    [reflexivity | vm_compute; reflexivity].
Defined.

Module ValidatorFacts.

Import CSVDataManager StrFacts.

(** *** Trimming twice *)

Lemma trimEnd_idem (s : string) : trimEnd (trimEnd s) = trimEnd s.
Proof.
  induction s as [|c s IH]; simpl; [done |].
  destruct (is_space c && String.eqb (trimEnd s) EmptyString) eqn:E; [done |].
  simpl. by rewrite IH, E.
Qed.

Lemma trimStart_trimEnd (s : string) :
  trimStart s = s → trimStart (trimEnd s) = trimEnd s.
Proof.
  destruct s as [|c s]; [done |].
  intros H%trimStart_head. simpl. rewrite H. simpl. by rewrite H.
Qed.

Lemma trimStart_idem (s : string) : trimStart (trimStart s) = trimStart s.
Proof.
  induction s as [|c s IH]; simpl; [done |].
  destruct (is_space c) eqn:E; [done |]. simpl. by rewrite E.
Qed.

Lemma trim_idem (s : string) : trim (trim s) = trim s.
Proof.
  unfold trim. rewrite trimStart_trimEnd by apply trimStart_idem.
  apply trimEnd_idem.
Qed.


(** Every field the tokenizer pushes is trimmed. *)
Lemma parseFields_trimmed (row current : string) (inQuotes : bool)
    (fields : list string) :
  Forall (λ f, trim f = f) fields →
  Forall (λ f, trim f = f) (parseFields row current inQuotes fields).
Proof.
  remember (String.length row) as n eqn:Hn.
  assert (String.length row ≤ n)%nat as Hle by lia. clear Hn.
  revert row current inQuotes fields Hle.
  induction n as [|n IH]; intros row current inQuotes fields Hle Hf.
  - destruct row; [| simpl in Hle; lia]. simpl.
    apply Forall_app. split; [done |]. apply Forall_cons. split; [| done].
    apply trim_idem.
  - destruct row as [|char rest]; simpl.
    + apply Forall_app. split; [done |]. apply Forall_cons. split; [| done].
      apply trim_idem.
    + simpl in Hle.
      assert (∀ cur q fs, Forall (λ f, trim f = f) fs →
                Forall (λ f, trim f = f) (parseFields rest cur q fs)) as Hrest.
      { intros. apply IH; [lia | done]. }
      destruct (Ascii.eqb char dq).
      * destruct inQuotes; [| by apply Hrest].
        destruct rest as [|next rest']; [by apply Hrest |].
        destruct (Ascii.eqb next dq); [| by apply Hrest].
        apply IH; [simpl in Hle; lia | done].
      * destruct (Ascii.eqb char comma && negb inQuotes); [| by apply Hrest].
        apply Hrest. apply Forall_app. split; [done |].
        apply Forall_cons. split; [| done]. apply trim_idem.
Qed.

Section WithRuntime.
Context (rt : Runtime).

(** What a record that passes [validateExpense] is like. *)
Lemma validateExpense_inv (now : Z) (e : Expense) :
  fst (validateExpense rt now e) = true →
  String.eqb (id e) EmptyString = false
  ∧ PrimFloat.leb (amount e) 0%float = false
  ∧ PrimFloat.ltb 10000000%float (amount e) = false
  ∧ String.eqb (category e) EmptyString = false
  ∧ existsb (String.eqb (category e)) validCategories = true
  ∧ String.eqb (description e) EmptyString = false
  ∧ (2 ≤ String.length (description e) ≤ 200)%nat
  ∧ String.eqb (date e) EmptyString = false
  ∧ ∃ t, Date_value rt (JStr (date e)) = Some t ∧ t ≤ now.
Proof.
  unfold validateExpense. cbn [fst].
  destruct (String.eqb (id e) EmptyString); [done |].
  destruct (PrimFloat.leb (amount e) 0); [done |].
  destruct (PrimFloat.ltb 10000000 (amount e)); [done |].
  destruct (String.eqb (category e) EmptyString); [done |].
  destruct (existsb _ _); [| done].
  destruct (String.eqb (description e) EmptyString); [done |].
  destruct (String.length (description e) <? 2)%nat eqn:E2; [done |].
  destruct (200 <? String.length (description e))%nat eqn:E200; [done |].
  destruct (String.eqb (date e) EmptyString); [done |].
  destruct (Date_value rt (JStr (date e))) as [t|]; [| done].
  destruct (now <? t) eqn:Et; [done |].
  intros _. apply Nat.ltb_ge in E2, E200. apply Z.ltb_ge in Et.
  repeat split; try done. by exists t.
Qed.

(** The amount plays its part in [validateExpense] through two
    comparisons. *)
Lemma validateExpense_amount (now : Z) (e : Expense) (a : float) :
  PrimFloat.leb a 0%float = PrimFloat.leb (amount e) 0%float →
  PrimFloat.ltb 10000000%float a = PrimFloat.ltb 10000000%float (amount e) →
  validateExpense rt now
    {| id := id e; amount := a; category := category e;
       description := description e; date := date e |}
  = validateExpense rt now e.
Proof.
  intros H1 H2. unfold validateExpense. cbn [id amount category description date].
  by rewrite H1, H2.
Qed.

(** A row is accepted with the record it was read as, which passes
    [validateExpense], and without any error. *)
Lemma csvRowToExpense_Some (now : Z) (row : string) (i : nat) (e : Expense)
    (errs : list string) :
  csvRowToExpense rt now row i = (Some e, errs) →
  fst (validateExpense rt now e) = true ∧ errs = []
  ∧ ∃ f_id amountStr,
      parseFields row EmptyString false []
      = [f_id; amountStr; category e; description e; date e]
      ∧ amount e = parseFloat rt amountStr
      ∧ id e = (if String.eqb f_id EmptyString then randomUUID rt i else f_id).
Proof.
  unfold csvRowToExpense.
  destruct (parseFields row EmptyString false []) as [|f1 [|f2 [|f3 [|f4 [|f5 [|]]]]]];
    try done.
  cbn zeta.
  destruct (fst (validateExpense rt now _)) eqn:Hv; cbn [negb]; [| done].
  intros [= <- <-]. split; [done |]. split; [done |]. by exists f1, f2.
Qed.

(** The validator of the backup manager on a typed record. *)
Lemma backup_validateExpense_typed (t : Z) (e : Expense) :
  String.eqb (id e) EmptyString = false →
  PrimFloat.leb (amount e) 0%float = false →
  String.eqb (category e) EmptyString = false →
  String.eqb (description e) EmptyString = false →
  String.eqb (date e) EmptyString = false →
  Date_value rt (JStr (date e)) = Some t →
  BackupManager.validateExpense rt (json_of_expense e) = inr tt.
Proof.
  intros Hid Hamount Hcat Hdesc Hdate Ht.
  unfold BackupManager.validateExpense.
  change (prop rt (Some (json_of_expense e)) "id")
    with (inr (Some (JStr (id e))) : js (option json)).
  change (prop rt (Some (json_of_expense e)) "amount")
    with (inr (Some (JNum (amount e))) : js (option json)).
  change (prop rt (Some (json_of_expense e)) "category")
    with (inr (Some (JStr (category e))) : js (option json)).
  change (prop rt (Some (json_of_expense e)) "description")
    with (inr (Some (JStr (description e))) : js (option json)).
  change (prop rt (Some (json_of_expense e)) "date")
    with (inr (Some (JStr (date e))) : js (option json)).
  cbn. by rewrite Hid, Hamount, Hcat, Hdesc, Hdate, Ht.
Qed.

Lemma decoded_valid (now : Z) (lines : list string) (i : nat) :
  Forall (λ e, fst (validateExpense rt now e) = true ∧ RowSpec.trimmed e)
    (CSVSpec.decoded rt now lines i).
Proof.
  revert i. induction lines as [|l lines IH]; intros i; simpl; [done |].
  apply Forall_app. split; [| apply IH].
  destruct (negb _ && negb _); [| done].
  destruct (csvRowToExpense rt now (trim l) (S i)) as [[e|] errs] eqn:E;
    cbn [fst]; [| done].
  apply Forall_cons. split; [| done].
  apply csvRowToExpense_Some in E as (Hv & _ & f_id & amountStr & Hf & _).
  split; [done |].
  pose proof (parseFields_trimmed (trim l) EmptyString false [] (Forall_nil_2 _)) as Ht.
  rewrite Hf in Ht.
  apply Forall_cons in Ht as [_ Ht]. apply Forall_cons in Ht as [_ Ht].
  apply Forall_cons in Ht as [H1 Ht]. apply Forall_cons in Ht as [H2 Ht].
  apply Forall_cons in Ht as [H3 _]. done.
Qed.

Lemma loadExpenses_records (now : Z) (st : gmap string string) (username : string)
    (es : list Expense) (logged : list warning) :
  loadExpenses rt now st username = inr (es, logged) →
  es = [] ∨ ∃ lines i, es = CSVSpec.decoded rt now lines i.
Proof.
  unfold loadExpenses.
  destruct (String.eqb username EmptyString); [done |].
  destruct (st !! storageKey username) as [csvContent|]; [| intros [= <- _]; by left].
  destruct (String.eqb csvContent EmptyString); [intros [= <- _]; by left |].
  destruct (loadRows rt now _ _ [] []) as [expenses errors] eqn:E.
  intros [= <- _]. right.
  eexists _, _. pose proof (CSVFacts.loadRows_decoded rt now
    (drop (findDataStart (split_lines csvContent) 0) (split_lines csvContent))
    (findDataStart (split_lines csvContent) 0) [] []) as H.
  rewrite E in H. exact H.
Qed.

End WithRuntime.

End ValidatorFacts.

(** X3.  Whatever the store holds, every record [loadExpenses] returns
    passes [validateExpense] at the instant of the load, and its category,
    description and date have no white space at either end. *)
Theorem load_returns_validated (rt : Runtime) (now : Z) (st : gmap string string)
    (username : string) (es : list Expense) (logged : list warning) :
  CSVDataManager.loadExpenses rt now st username = inr (es, logged) →
  Forall (λ e, fst (CSVDataManager.validateExpense rt now e) = true
               ∧ trim (category e) = category e
               ∧ trim (description e) = description e
               ∧ trim (date e) = date e) es.
Proof.
  intros [-> | (lines & i & ->)]%ValidatorFacts.loadExpenses_records; [done |].
  apply ValidatorFacts.decoded_valid.
Qed.

Lemma load_returns_validated_witness :
  CSVDataManager.loadExpenses Engine.engine noon (store_with [lunch; rent]) "ali"
  = inr ([lunch; rent], [])
  ∧ Forall (λ e, fst (CSVDataManager.validateExpense Engine.engine noon e) = true
                 ∧ trim (category e) = category e
                 ∧ trim (description e) = description e
                 ∧ trim (date e) = date e)
      [lunch; rent].
Proof.
  split; [vm_compute; reflexivity |].
  apply (load_returns_validated Engine.engine noon (store_with [lunch; rent])
           "ali" [lunch; rent] []).
  vm_compute. reflexivity.
Defined.

(** X4.  A row whose amount [parseFloat] cannot read is accepted, with [NaN]
    as its amount and without any error, whenever the same row with the
    amount 1 passes [validateExpense]. *)
Theorem unreadable_amount_is_accepted (rt : Runtime) (now : Z) (row : string)
    (i : nat) (f_id amountStr f_category f_description f_date : string) :
  let e a :=
    {| id := if String.eqb f_id EmptyString then randomUUID rt i else f_id;
       amount := a; category := f_category; description := f_description;
       date := f_date |} in
  CSVDataManager.parseFields row EmptyString false []
  = [f_id; amountStr; f_category; f_description; f_date] →
  PrimFloat.is_nan (parseFloat rt amountStr) = true →
  fst (CSVDataManager.validateExpense rt now (e 1%float)) = true →
  CSVDataManager.csvRowToExpense rt now row i
  = (Some (e (parseFloat rt amountStr)), []).
Proof.
  intros e Hfields Hnan Hv. unfold CSVDataManager.csvRowToExpense.
  rewrite Hfields. cbn zeta. fold (e (parseFloat rt amountStr)).
  assert (CSVDataManager.validateExpense rt now (e (parseFloat rt amountStr))
          = CSVDataManager.validateExpense rt now (e 1%float)) as ->.
  { apply (ValidatorFacts.validateExpense_amount rt now (e 1%float)).
    - by rewrite FloatFacts.nan_leb.
    - by rewrite FloatFacts.nan_ltb_r. }
  by rewrite Hv.
Qed.

Lemma unreadable_amount_is_accepted_witness :
  PrimFloat.is_nan (Engine.parseFloat "abc") = true
  ∧ CSVDataManager.csvRowToExpense Engine.engine noon
      "a1,abc,Food & Groceries,Lunch,2024-01-01" 2
    = (Some {| id := "a1"; amount := Engine.parseFloat "abc";
               category := "Food & Groceries"; description := "Lunch";
               date := "2024-01-01" |}, []).
Proof.
  split; [vm_compute; reflexivity |].
  apply (unreadable_amount_is_accepted Engine.engine noon
           "a1,abc,Food & Groceries,Lunch,2024-01-01" 2
           "a1" "abc" "Food & Groceries" "Lunch" "2024-01-01");
    vm_compute; reflexivity.
Defined.

(** X5.  The validator of the backup manager accepts every record the
    validator of the CSV path accepts. *)
Theorem csv_valid_is_backup_valid (rt : Runtime) (now : Z) (e : Expense) :
  fst (CSVDataManager.validateExpense rt now e) = true →
  BackupManager.validateExpense rt (json_of_expense e) = inr tt.
Proof.
  intros (Hid & Hle & _ & Hcat & _ & Hdesc & _ & Hdate & t & Ht & _)
    %ValidatorFacts.validateExpense_inv.
  by apply (ValidatorFacts.backup_validateExpense_typed rt t).
Qed.

Lemma csv_valid_is_backup_valid_witness :
  fst (CSVDataManager.validateExpense Engine.engine noon lunch) = true
  ∧ BackupManager.validateExpense Engine.engine (json_of_expense lunch) = inr tt.
Proof.
  split; [vm_compute; reflexivity |].
  apply (csv_valid_is_backup_valid Engine.engine noon lunch).
  vm_compute. reflexivity.
Defined.

Module ImportMore.

Import CSVDataManager ImportSpec.

(** No record of [l] is a duplicate of those before it. *)
Lemma fresh_snoc (acc : list Expense) (e : Expense) :
  (∀ n y, acc !! n = Some y → isDuplicate (take n acc) y = false) →
  isDuplicate acc e = false →
  ∀ n y, (acc ++ [e]) !! n = Some y → isDuplicate (take n (acc ++ [e])) y = false.
Proof.
  intros Hacc He n y Hn.
  destruct (decide (n < length acc)%nat) as [Hlt|Hge].
  - rewrite lookup_app_l in Hn by done.
    rewrite take_app_le by lia. by apply Hacc.
  - apply lookup_lt_Some in Hn as Hlen. rewrite length_app in Hlen. simpl in Hlen.
    assert (n = length acc) as -> by lia.
    rewrite list_lookup_middle in Hn by done. injection Hn as <-.
    by rewrite take_app_length.
Qed.

Lemma accepted_fresh (acc valid : list Expense) :
  (∀ n y, acc !! n = Some y → isDuplicate (take n acc) y = false) →
  ∀ n y, accepted acc valid !! n = Some y →
         isDuplicate (take n (accepted acc valid)) y = false.
Proof.
  revert acc. induction valid as [|e valid IH]; intros acc Hacc; simpl; [done |].
  destruct (isDuplicate acc e) eqn:E; [by apply IH |].
  apply IH. by apply fresh_snoc.
Qed.

Lemma fresh_ids (l : list Expense) (i j : nat) (x y : Expense) :
  (∀ n y, l !! n = Some y → isDuplicate (take n l) y = false) →
  (i < j)%nat → l !! i = Some x → l !! j = Some y → id x ≠ id y.
Proof.
  intros Hl Hij Hx Hy Heq.
  pose proof (Hl j y Hy) as Hd.
  assert (isDuplicate (take j l) y = true) as Ht; [| congruence].
  apply ImportFacts.isDuplicate_spec. exists x. split; [| by left].
  apply list_elem_of_lookup. exists i. by rewrite lookup_take_lt.
Qed.

Lemma fresh_NoDup (l : list Expense) :
  (∀ n y, l !! n = Some y → isDuplicate (take n l) y = false) →
  NoDup (map id l).
Proof.
  intros Hl. change (map id l) with (id <$> l).
  apply NoDup_alt. intros i j s Hi Hj.
  apply list_lookup_fmap_Some in Hi as (x & -> & Hx).
  apply list_lookup_fmap_Some in Hj as (y & Heq & Hy).
  destruct (Nat.lt_trichotomy i j) as [Hlt | [-> | Hgt]]; [| done |].
  - by destruct (fresh_ids l i j x y Hl Hlt Hx Hy).
  - by destruct (fresh_ids l j i y x Hl Hgt Hy Hx).
Qed.

End ImportMore.

(** X6.  The dataset a successful import stores has no two records with the
    same id, and none of its records is a duplicate, in the sense of
    [isDuplicate], of the records before it. *)
Theorem imported_records_are_distinct (rt : Runtime) (now t_save : Z)
    (st : gmap string string) (username : string) (file : File) :
  let out := CSVDataManager.importUserData rt now t_save st username file in
  CSVDataManager.success out.1 = true →
  ∃ kept,
    out.2 !! CSVDataManager.storageKey username
    = Some (CSVSpec.encode rt username (toISOString rt t_save) kept)
    ∧ CSVDataManager.importedCount out.1 = length kept
    ∧ NoDup (map id kept)
    ∧ ∀ n e, kept !! n = Some e →
             CSVDataManager.isDuplicate (take n kept) e = false.
Proof.
  cbn zeta. unfold CSVDataManager.importUserData.
  set (lines := split_lines (File_text file)).
  set (start := CSVDataManager.findImportStart lines 0).
  pose proof (ImportFacts.importRows_spec rt now (drop start lines) start
                {| CSVDataManager.imp_expenses := [];
                   CSVDataManager.imp_importedCount := 0;
                   CSVDataManager.imp_skippedCount := 0;
                   CSVDataManager.imp_errors := [] |}) as (Hexp & Himp & _).
  cbn [CSVDataManager.imp_expenses CSVDataManager.imp_importedCount length]
    in Hexp, Himp.
  set (s := CSVDataManager.importRows rt now (drop start lines) start _) in *.
  destruct (negb _); [done |].
  destruct (_ <? _); [done |].
  destruct (String.eqb (trim _) _); [done |].
  destruct (start =? 0)%nat; [done |].
  destruct (length _ =? 0)%nat eqn:Hlen; [done |].
  destruct (CSVDataManager.saveExpenses rt t_save st _ _) as [msg|st'] eqn:E;
    [done |].
  destruct (CSVFacts.saveExpenses_independent rt _ _ st _ _ _ E)
    as (st2' & E2 & Hkey & _).
  cbn. intros _. exists (CSVDataManager.imp_expenses s).
  assert (∀ n y, CSVDataManager.imp_expenses s !! n = Some y →
            CSVDataManager.isDuplicate (take n (CSVDataManager.imp_expenses s)) y
            = false) as Hfresh.
  { rewrite Hexp. apply ImportMore.accepted_fresh. intros n y Hn.
    by rewrite lookup_nil in Hn. }
  repeat split; [done | lia | by apply ImportMore.fresh_NoDup | done].
Qed.

Lemma imported_records_are_distinct_witness :
  let out :=
    CSVDataManager.importUserData Engine.engine noon noon ∅ "ali" bank_export in
  ∃ kept,
    out.2 !! CSVDataManager.storageKey "ali"
    = Some (CSVSpec.encode Engine.engine "ali" (Engine.toISOString noon) kept)
    ∧ CSVDataManager.importedCount out.1 = length kept
    ∧ NoDup (map id kept)
    ∧ ∀ n e, kept !! n = Some e →
             CSVDataManager.isDuplicate (take n kept) e = false.
Proof.
  apply (imported_records_are_distinct Engine.engine noon noon ∅ "ali" bank_export).
  vm_compute. reflexivity.
Defined.

(** X7.  An import that fails reports nothing imported, nothing skipped and
    one error.  The error is one of the five messages [importUserData] throws
    before it calls [saveExpenses], and then the store is as it was; or it is
    the message of a failed [saveExpenses], which starts with
    [Failed to save data: ], and then nothing is said of the store. *)
Theorem failed_import_reports_one_error (rt : Runtime) (now t_save : Z)
    (st : gmap string string) (username : string) (file : File) :
  let out := CSVDataManager.importUserData rt now t_save st username file in
  CSVDataManager.success out.1 = false →
  CSVDataManager.importedCount out.1 = 0%nat
  ∧ CSVDataManager.skippedCount out.1 = 0%nat
  ∧ ∃ msg, CSVDataManager.errors out.1 = [msg]
      ∧ ((msg ∈ ["File must be a CSV file";
                 "File size too large. Maximum size is 5MB.";
                 "File is empty";
                 "Invalid CSV format: Header row not found";
                 "No valid expenses found in the file"]
          ∧ out.2 = st)
         ∨ startsWith "Failed to save data: " msg = true).
Proof.
  cbn zeta. unfold CSVDataManager.importUserData.
  destruct (negb _).
  { intros _. cbn. repeat split. eexists. split; [done |]. left.
    split; [| done]. rewrite !elem_of_cons. tauto. }
  destruct (_ <? _).
  { intros _. cbn. repeat split. eexists. split; [done |]. left.
    split; [| done]. rewrite !elem_of_cons. tauto. }
  destruct (String.eqb (trim _) _).
  { intros _. cbn. repeat split. eexists. split; [done |]. left.
    split; [| done]. rewrite !elem_of_cons. tauto. }
  destruct (_ =? 0)%nat.
  { intros _. cbn. repeat split. eexists. split; [done |]. left.
    split; [| done]. rewrite !elem_of_cons. tauto. }
  destruct (length _ =? 0)%nat.
  { intros _. cbn. repeat split. eexists. split; [done |]. left.
    split; [| done]. rewrite !elem_of_cons. tauto. }
  destruct (CSVDataManager.saveExpenses rt t_save st _ _) as [msg|st'] eqn:E;
    [| done].
  intros _. cbn. repeat split. exists msg. split; [done |]. right.
  unfold CSVDataManager.saveExpenses in E.
  destruct (match expenses_json _ with JArr _ => _ | _ => _ end) as [m|];
    [| done].
  by injection E as <-.
Qed.

Lemma failed_import_reports_one_error_witness :
  let file := {| File_name := "export.txt"; File_size := 10;
                 File_text := File_text bank_export |} in
  let out :=
    CSVDataManager.importUserData Engine.engine noon noon (store_with [rent])
      "ali" file in
  CSVDataManager.errors out.1 = ["File must be a CSV file"]
  ∧ CSVDataManager.importedCount out.1 = 0%nat
  ∧ CSVDataManager.skippedCount out.1 = 0%nat
  ∧ ∃ msg, CSVDataManager.errors out.1 = [msg]
      ∧ ((msg ∈ ["File must be a CSV file";
                 "File size too large. Maximum size is 5MB.";
                 "File is empty";
                 "Invalid CSV format: Header row not found";
                 "No valid expenses found in the file"]
          ∧ out.2 = store_with [rent])
         ∨ startsWith "Failed to save data: " msg = true).
Proof.
  split; [vm_compute; reflexivity |].
  apply (failed_import_reports_one_error Engine.engine noon noon
           (store_with [rent])
           "ali" {| File_name := "export.txt"; File_size := 10;
                    File_text := File_text bank_export |}).
  vm_compute. reflexivity.
Defined.

Module SaveFacts.

Import CSVDataManager CSVSpec SaveSpec StrFacts.

Lemma hex_nonempty (z : Z) : hex z ≠ EmptyString.
Proof.
  unfold hex. destruct (Z.to_hex_int z) as [d|d]; simpl; [| done].
  unfold HexadecimalString.NilZero.string_of_uint.
  destruct d; done.
Qed.

Lemma calculateChecksum_nonempty (content : string) :
  String.eqb (calculateChecksum content) EmptyString = false.
Proof. apply String.eqb_neq, hex_nonempty. Qed.

Section WithRuntime.
Context (rt : Runtime).

Lemma encode_nonempty (username timestamp : string) (es : list Expense) :
  String.eqb (encode rt username timestamp es) EmptyString = false.
Proof. done. Qed.

Lemma saveExpenses_named (now : Z) (st st' : gmap string string)
    (username : string) (expenses : json) :
  saveExpenses rt now st username expenses = inr st' → username ≠ EmptyString.
Proof.
  unfold saveExpenses. intros H ->. by destruct expenses.
Qed.

(** What [saveExpenses] leaves under its three keys. *)
Lemma saveExpenses_keys (now : Z) (st st' : gmap string string)
    (username : string) (es : list Expense) :
  saveExpenses rt now st username (expenses_json es) = inr st' →
  let content := encode rt username (toISOString rt now) es in
  st' !! storageKey username = Some content
  ∧ st' !! metadataKey username
    = Some (JSON_stringify rt
              (metadataObject username (toISOString rt now) (length es) content))
  ∧ st' !! backupKey username
    = match st !! storageKey username with
      | Some existingData =>
          if String.eqb existingData EmptyString then st !! backupKey username
          else Some existingData
      | None => st !! backupKey username
      end
  ∧ ∀ k, k ≠ storageKey username → k ≠ metadataKey username →
         k ≠ backupKey username → st' !! k = st !! k.
Proof.
  intros H. pose proof (saveExpenses_named _ _ _ _ _ H) as Hu.
  rewrite (CSVFacts.saveExpenses_typed_eq rt now st username es Hu) in H.
  injection H as <-. cbn zeta.
  destruct (CSVFacts.keys_distinct username) as (Hsm & Hsb & Hbm).
  repeat split.
  - rewrite lookup_insert_ne by done. by rewrite lookup_insert_eq.
  - by rewrite lookup_insert_eq.
  - rewrite !lookup_insert_ne by done. unfold keepPrevious.
    destruct (st !! storageKey username) as [old|]; [| done].
    destruct (String.eqb old EmptyString); [done |].
    by rewrite lookup_insert_eq.
  - intros k H1 H2 H3. rewrite !lookup_insert_ne by done. unfold keepPrevious.
    destruct (st !! storageKey username) as [old|]; [| done].
    destruct (String.eqb old EmptyString); [done |].
    by rewrite lookup_insert_ne.
Qed.

End WithRuntime.

End SaveFacts.

(** X8.  [saveExpenses] keeps one previous version: after two saves the
    text of the first is under the backup key and the text of the second
    under the storage key. *)
Theorem save_keeps_previous_version (rt : Runtime) (t1 t2 : Z)
    (st st1 st2 : gmap string string) (username : string)
    (es1 es2 : list Expense) :
  CSVDataManager.saveExpenses rt t1 st username (expenses_json es1) = inr st1 →
  CSVDataManager.saveExpenses rt t2 st1 username (expenses_json es2) = inr st2 →
  st2 !! CSVDataManager.backupKey username
  = Some (CSVSpec.encode rt username (toISOString rt t1) es1)
  ∧ st2 !! CSVDataManager.storageKey username
    = Some (CSVSpec.encode rt username (toISOString rt t2) es2).
Proof.
  intros H1 H2.
  apply SaveFacts.saveExpenses_keys in H1 as (Hs1 & _).
  apply SaveFacts.saveExpenses_keys in H2 as (Hs2 & _ & Hb2 & _).
  split; [| done]. rewrite Hb2, Hs1.
  by rewrite SaveFacts.encode_nonempty.
Qed.

Lemma save_keeps_previous_version_witness :
  let st1 := store_with [rent] in
  let st2 :=
    Outcome.result ∅
      (CSVDataManager.saveExpenses Engine.engine (noon + 1000) st1 "ali"
         (expenses_json [rent; lunch])) in
  st2 !! CSVDataManager.backupKey "ali"
  = Some (CSVSpec.encode Engine.engine "ali" (toISOString Engine.engine noon)
            [rent])
  ∧ st2 !! CSVDataManager.storageKey "ali"
    = Some (CSVSpec.encode Engine.engine "ali"
              (toISOString Engine.engine (noon + 1000)) [rent; lunch]).
Proof.
  intros st1 st2.
  refine (save_keeps_previous_version Engine.engine noon (noon + 1000) ∅ st1 st2
            "ali" [rent] [rent; lunch] _ _).
  - apply OutcomeFacts.store_with_saved. vm_compute. reflexivity.
  - apply OutcomeFacts.returned_result. vm_compute. reflexivity.
Defined.

(** X9.  A dataset is saved by [saveExpenses] for a user whose metadata the
    engine reads back as it wrote them, and some non-empty text is later put
    under the user's storage key.  Then [verifyIntegrity] on that text
    returns the checksum warning alone if the checksum of the text differs
    from the checksum of the text that was saved, and nothing if they are
    equal; and [loadExpenses] returns, with the checksum warning among what
    it logged exactly when the two checksums differ. *)
Theorem integrity_warns_iff_checksum_differs (rt : Runtime) (now now' : Z)
    (st st' : gmap string string) (username : string) (es : list Expense)
    (text : string) :
  let content := CSVSpec.encode rt username (toISOString rt now) es in
  let meta :=
    SaveSpec.metadataObject username (toISOString rt now) (length es) content in
  let found := <[CSVDataManager.storageKey username := text]> st' in
  CSVDataManager.saveExpenses rt now st username (expenses_json es) = inr st' →
  JSON_stringify rt meta ≠ EmptyString →
  JSON_parse rt (JSON_stringify rt meta) = inr meta →
  text ≠ EmptyString →
  CSVDataManager.verifyIntegrity rt found username text
  = (if String.eqb (calculateChecksum content) (calculateChecksum text)
     then [] else [SaveSpec.mismatch])
  ∧ ∃ es' warnings,
      CSVDataManager.loadExpenses rt now' found username = inr (es', warnings)
      ∧ (SaveSpec.mismatch ∈ warnings
         ↔ calculateChecksum content ≠ calculateChecksum text).
Proof.
  intros content meta found Hsave Hne Hparse Htext.
  pose proof (SaveFacts.saveExpenses_named _ _ _ _ _ _ Hsave) as Hu.
  apply SaveFacts.saveExpenses_keys in Hsave as (_ & Hmeta & _).
  destruct (CSVFacts.keys_distinct username) as (Hsm & _).
  assert (CSVDataManager.verifyIntegrity rt found username text
          = (if String.eqb (calculateChecksum content) (calculateChecksum text)
             then [] else [SaveSpec.mismatch])) as Hint.
  { unfold CSVDataManager.verifyIntegrity, found.
    rewrite lookup_insert_ne by done. rewrite Hmeta. fold content. fold meta.
    replace (String.eqb (JSON_stringify rt meta) EmptyString) with false
      by (symmetry; by apply String.eqb_neq).
    rewrite Hparse.
    change (meta0 ← inr meta; prop rt (Some meta0) "checksum")
      with (inr (Some (JStr (calculateChecksum content))) : js (option json)).
    cbn [truthy_opt truthy is_str].
    rewrite SaveFacts.calculateChecksum_nonempty. cbn [negb andb].
    by destruct (String.eqb (calculateChecksum content) (calculateChecksum text)). }
  split; [exact Hint |].
  unfold CSVDataManager.loadExpenses.
  replace (String.eqb username EmptyString) with false
    by (symmetry; by apply String.eqb_neq).
  unfold found at 1. rewrite lookup_insert_eq.
  replace (String.eqb text EmptyString) with false
    by (symmetry; by apply String.eqb_neq).
  rewrite Hint.
  destruct (CSVDataManager.loadRows rt now' _ _ [] []) as [es' errors].
  set (parsing := if (0 <? length errors)%nat
                  then [("CSV parsing errors:", errors)] else []).
  assert (SaveSpec.mismatch ∉ parsing) as Hnot.
  { unfold parsing. destruct (0 <? length errors)%nat.
    - intros Hin. apply list_elem_of_singleton in Hin. discriminate Hin.
    - apply not_elem_of_nil. }
  clearbody parsing.
  destruct (String.eqb_spec (calculateChecksum content) (calculateChecksum text))
    as [Heq|Hneq].
  - exists es', parsing. split; [reflexivity |].
    split; [intros Hin; exfalso; exact (Hnot Hin) |].
    intros Hn. exfalso. exact (Hn Heq).
  - exists es', (SaveSpec.mismatch :: parsing). split; [reflexivity |].
    split; [intros _; exact Hneq |].
    intros _. apply list_elem_of_here.
Qed.

Lemma integrity_warns_iff_checksum_differs_witness :
  let content :=
    CSVSpec.encode Engine.engine "ali" (toISOString Engine.engine noon) [lunch] in
  let text := "id,amount,category,description,date" in
  let found := <[CSVDataManager.storageKey "ali" := text]> (store_with [lunch]) in
  calculateChecksum content ≠ calculateChecksum text
  ∧ CSVDataManager.verifyIntegrity Engine.engine found "ali" text
    = (if String.eqb (calculateChecksum content) (calculateChecksum text)
       then [] else [SaveSpec.mismatch])
  ∧ ∃ es' warnings,
      CSVDataManager.loadExpenses Engine.engine noon found "ali"
      = inr (es', warnings)
      ∧ (SaveSpec.mismatch ∈ warnings
         ↔ calculateChecksum content ≠ calculateChecksum text).
Proof.
  intros content text found.
  split; [vm_compute; discriminate |].
  refine (integrity_warns_iff_checksum_differs Engine.engine noon noon ∅
            (store_with [lunch]) "ali" [lunch] text _ _ _ _).
  - apply OutcomeFacts.store_with_saved. vm_compute. reflexivity.
  - vm_compute. discriminate.
  - vm_compute. reflexivity.
  - discriminate.
Defined.

Module UserDataFacts.

Import CSVDataManager UserData UserDataSpec StrFacts.

Lemma startsWith_length (p k : string) :
  startsWith p k = true → (String.length p ≤ String.length k)%nat.
Proof.
  revert k. induction p as [|a p IH]; intros k; simpl; [lia |].
  destruct k as [|b k]; [done |].
  intros [_ H]%andb_true_iff. apply IH in H. simpl. lia.
Qed.

Lemma startsWith_app (p r : string) : startsWith p (p +:+ r) = true.
Proof.
  induction p as [|a p IH]; simpl; [done |].
  by rewrite Ascii.eqb_refl, IH.
Qed.

Lemma startsWith_inv (p k : string) :
  startsWith p k = true → ∃ r, k = p +:+ r.
Proof.
  revert k. induction p as [|a p IH]; intros k; simpl.
  - intros _. by exists k.
  - destruct k as [|b k]; [done |].
    intros [Hab H]%andb_true_iff. apply Ascii.eqb_eq in Hab as ->.
    apply IH in H as [r ->]. by exists r.
Qed.

Lemma length_append (a b : string) :
  String.length (a +:+ b) = (String.length a + String.length b)%nat.
Proof. induction a as [|c a IH]; simpl; [done | by rewrite IH]. Qed.

(** A key under the prefix of the dated copies is none of the four keys
    [deleteUserData] removes. *)
Lemma copy_is_no_dataset_key (username k : string) :
  startsWith (copyPrefix username) k = true →
  k ≠ storageKey username ∧ k ≠ backupKey username
  ∧ k ≠ metadataKey username ∧ k ≠ urlKey username.
Proof.
  intros H. apply startsWith_length in H as Hlen.
  apply startsWith_inv in H as [r ->].
  unfold copyPrefix, storageKey, backupKey, metadataKey, urlKey, getFileName in *.
  rewrite !length_append in Hlen. simpl in *.
  repeat split; try congruence.
  intros E. apply (f_equal String.length) in E.
  simpl in E. rewrite !length_append in E. simpl in E. lia.
Qed.

(** Neither is a key of the backup manager. *)
Lemma backup_is_no_dataset_key (username k : string) :
  startsWith "backup-" k = true →
  k ≠ storageKey username ∧ k ≠ backupKey username
  ∧ k ≠ metadataKey username ∧ k ≠ urlKey username.
Proof.
  intros [r ->]%startsWith_inv.
  unfold storageKey, backupKey, metadataKey, urlKey, getFileName. simpl.
  repeat split; congruence.
Qed.

Lemma removeAll_lookup (keys : list string) (st : gmap string string) (k : string) :
  removeAll keys st !! k = if decide (k ∈ keys) then None else st !! k.
Proof. apply CleanupFacts.lookup_foldl_delete. Qed.

End UserDataFacts.

(** X10.  [deleteUserData] removes the dataset, its previous version and its
    metadata, so that the next load is empty; the dated copies of the user
    and every key of the backup manager stay in the store. *)
Theorem deleteUserData_clears_dataset_only (rt : Runtime) (now : Z)
    (st : gmap string string) (username : string) :
  let out := UserData.deleteUserData st username in
  out.1 = true
  ∧ CSVDataManager.loadExpenses rt now out.2 username
    = (if String.eqb username EmptyString
       then throw "Failed to load data: Username is required"
       else inr ([], []))
  ∧ out.2 !! CSVDataManager.storageKey username = None
  ∧ out.2 !! CSVDataManager.backupKey username = None
  ∧ out.2 !! CSVDataManager.metadataKey username = None
  ∧ ∀ k, startsWith (UserData.copyPrefix username) k = true
         ∨ startsWith "backup-" k = true →
         out.2 !! k = st !! k.
Proof.
  cbn zeta. unfold UserData.deleteUserData. cbn [fst snd].
  assert (∀ k, k ∈ [CSVDataManager.storageKey username;
                    CSVDataManager.backupKey username;
                    CSVDataManager.metadataKey username;
                    UserData.urlKey username] →
               UserData.removeAll
                 [CSVDataManager.storageKey username;
                  CSVDataManager.backupKey username;
                  CSVDataManager.metadataKey username;
                  UserData.urlKey username] st !! k = None) as Hgone.
  { intros k Hk. rewrite UserDataFacts.removeAll_lookup. by rewrite decide_True. }
  split; [done |]. split.
  { unfold CSVDataManager.loadExpenses.
    destruct (String.eqb username EmptyString); [done |].
    rewrite Hgone; [done | set_solver]. }
  split; [apply Hgone; set_solver |].
  split; [apply Hgone; set_solver |].
  split; [apply Hgone; set_solver |].
  intros k Hk. rewrite UserDataFacts.removeAll_lookup.
  rewrite decide_False; [done |].
  assert (k ≠ CSVDataManager.storageKey username
          ∧ k ≠ CSVDataManager.backupKey username
          ∧ k ≠ CSVDataManager.metadataKey username
          ∧ k ≠ UserData.urlKey username) as (H1 & H2 & H3 & H4).
  { destruct Hk as [Hk | Hk].
    - by apply UserDataFacts.copy_is_no_dataset_key.
    - by apply UserDataFacts.backup_is_no_dataset_key. }
  rewrite !elem_of_cons, elem_of_nil. tauto.
Qed.

Lemma deleteUserData_clears_dataset_only_witness :
  let st :=
    BackupManager.store
      (backup_at noon 0 [lunch]
         {| BackupManager.store := store_with [lunch];
            BackupManager.downloads := []; BackupManager.timers := [] |}) in
  let out := UserData.deleteUserData st "ali" in
  records (CSVDataManager.loadExpenses Engine.engine noon st "ali") = inr [lunch]
  ∧ CSVDataManager.loadExpenses Engine.engine noon out.2 "ali" = inr ([], [])
  ∧ out.2 !! key_of "ali" noon = st !! key_of "ali" noon
  ∧ is_Some (st !! key_of "ali" noon).
Proof.
  intros st out.
  pose proof (deleteUserData_clears_dataset_only Engine.engine noon st "ali")
    as (_ & Hload & _ & _ & _ & Hkeep).
  split; [vm_compute; reflexivity |]. split; [exact Hload |].
  split; [apply Hkeep; right; vm_compute; reflexivity |].
  vm_compute. eauto.
Defined.

Module CopiesFacts.

Import CSVDataManager UserData UserDataSpec UserDataFacts.

Lemma insert_by_Permutation {A} (after : A → A → bool) (x : A) (l : list A) :
  BackupManager.insert_by after x l ≡ₚ x :: l.
Proof.
  induction l as [|y l IH]; simpl; [done |].
  destruct (after x y); [| done].
  rewrite IH. apply Permutation_swap.
Qed.

(** Sorting rearranges. *)
Lemma sort_by_Permutation {A} (after : A → A → bool) (l : list A) :
  BackupManager.sort_by after l ≡ₚ l.
Proof.
  unfold BackupManager.sort_by. induction l as [|x l IH]; simpl; [done |].
  rewrite insert_by_Permutation. by rewrite IH.
Qed.

Lemma elem_of_copies (st : gmap string string) (username k : string) :
  k ∈ copies st username
  ↔ startsWith (copyPrefix username) k = true ∧ is_Some (st !! k).
Proof.
  unfold copies. rewrite list_elem_of_In, List.filter_In, <- list_elem_of_In.
  change (map fst (map_to_list st)) with (fst <$> map_to_list st).
  rewrite list_elem_of_fmap. split.
  - intros [([k' v] & -> & Hkv) Hp]. split; [done |].
    apply elem_of_map_to_list in Hkv. by exists v.
  - intros [Hp [v Hv]]. split; [| done]. exists (k, v). split; [done |].
    by apply elem_of_map_to_list.
Qed.

Lemma NoDup_copies (st : gmap string string) (username : string) :
  NoDup (copies st username).
Proof.
  unfold copies. apply NoDup_ListNoDup, List.NoDup_filter, NoDup_ListNoDup.
  apply NoDup_fst_map_to_list.
Qed.

(** [backupUserData] as one removal, whether or not there are more than three
    copies. *)
Lemma backupUserData_eq (now : Z) (st : gmap string string)
    (username csvContent : string) :
  st !! storageKey username = Some csvContent → csvContent ≠ EmptyString →
  let stored := <[copyKey username now := csvContent]> st in
  let sorted :=
    BackupManager.sort_by (λ a b, String.ltb b a) (copies stored username) in
  backupUserData now st username
  = (true, removeAll (take (length sorted - 3) sorted) stored).
Proof.
  intros Hst Hne. cbn zeta. unfold backupUserData. rewrite Hst.
  replace (String.eqb csvContent EmptyString) with false
    by (symmetry; by apply String.eqb_neq).
  fold (copyKey username now).
  fold (copies (<[copyKey username now := csvContent]> st) username).
  destruct (3 <? length _)%nat eqn:E; [done |].
  apply Nat.ltb_ge in E.
  replace (_ - 3)%nat with 0%nat by lia. done.
Qed.

End CopiesFacts.

(** X11.  [backupUserData] does nothing without a dataset.  With one, it
    stores a dated copy and then keeps, of the dated copies of the user, the
    last three in the order of their keys: at most three are left, every
    other key of the store is as it was, and nothing is left that was not
    there. *)
Theorem backupUserData_keeps_three (now : Z) (st : gmap string string)
    (username : string) :
  let out := UserData.backupUserData now st username in
  (st !! CSVDataManager.storageKey username = None → out = (false, st))
  ∧ ∀ csvContent,
      st !! CSVDataManager.storageKey username = Some csvContent →
      csvContent ≠ EmptyString →
      let stored := <[UserDataSpec.copyKey username now := csvContent]> st in
      let sorted :=
        BackupManager.sort_by (λ a b, String.ltb b a)
          (UserDataSpec.copies stored username) in
      out.1 = true
      ∧ UserDataSpec.copies out.2 username ≡ₚ drop (length sorted - 3) sorted
      ∧ (length (UserDataSpec.copies out.2 username) ≤ 3)%nat
      ∧ (∀ k, startsWith (UserData.copyPrefix username) k = false →
              out.2 !! k = stored !! k)
      ∧ (∀ k v, out.2 !! k = Some v → stored !! k = Some v).
Proof.
  cbn zeta. split.
  { intros H. unfold UserData.backupUserData. by rewrite H. }
  intros csvContent Hst Hne.
  rewrite (CopiesFacts.backupUserData_eq now st username csvContent Hst Hne).
  cbn [fst snd].
  set (stored := <[_ := csvContent]> st).
  set (sorted := BackupManager.sort_by _ (UserDataSpec.copies stored username)).
  set (n := (length sorted - 3)%nat).
  assert (sorted ≡ₚ UserDataSpec.copies stored username) as Hperm
    by apply CopiesFacts.sort_by_Permutation.
  assert (NoDup sorted) as Hnd.
  { rewrite Hperm. apply CopiesFacts.NoDup_copies. }
  assert (∀ k, UserData.removeAll (take n sorted) stored !! k
               = if decide (k ∈ take n sorted) then None else stored !! k)
    as Hlook by (intros k; apply UserDataFacts.removeAll_lookup).
  assert (UserDataSpec.copies (UserData.removeAll (take n sorted) stored) username
          ≡ₚ drop n sorted) as Hleft.
  { apply NoDup_Permutation.
    - apply CopiesFacts.NoDup_copies.
    - rewrite <- (take_drop n sorted) in Hnd. by apply NoDup_app in Hnd as (_ & _ & ?).
    - intros k. rewrite CopiesFacts.elem_of_copies, Hlook.
      rewrite <- (take_drop n sorted) in Hnd. apply NoDup_app in Hnd as (_ & Hdis & _).
      split.
      + intros [Hp Hsome]. destruct (decide (k ∈ take n sorted)) as [|Hout].
        { by destruct Hsome. }
        assert (k ∈ sorted) as Hin.
        { rewrite Hperm. by apply CopiesFacts.elem_of_copies. }
        rewrite <- (take_drop n sorted) in Hin.
        apply elem_of_app in Hin as [|]; done.
      + intros Hin.
        assert (k ∈ sorted) as Hs.
        { rewrite <- (take_drop n sorted). apply elem_of_app. by right. }
        rewrite Hperm in Hs. apply CopiesFacts.elem_of_copies in Hs as [Hp Hsome].
        split; [done |]. rewrite decide_False; [done |].
        intros Ht. by apply (Hdis k). }
  split; [done |]. split; [done |]. split.
  { rewrite Hleft, length_drop. lia. }
  split.
  - intros k Hk. rewrite Hlook. rewrite decide_False; [done |].
    intros Hin.
    assert (k ∈ sorted) as Hs.
    { rewrite <- (take_drop n sorted). apply elem_of_app. by left. }
    rewrite Hperm in Hs. apply CopiesFacts.elem_of_copies in Hs as [Hp _].
    congruence.
  - intros k v. rewrite Hlook. by destruct (decide _).
Qed.

Lemma backupUserData_keeps_three_witness :
  let st0 : gmap string string :=
    <[UserDataSpec.copyKey "ali" 1000 := "c1"]>
      (<[UserDataSpec.copyKey "ali" 2000 := "c2"]>
         (<[UserDataSpec.copyKey "ali" 3000 := "c3"]> (store_with [lunch]))) in
  let out := UserData.backupUserData 4000 st0 "ali" in
  UserData.backupUserData 4000 ∅ "ali" = (false, ∅)
  ∧ out.1 = true
  ∧ (length (UserDataSpec.copies out.2 "ali") ≤ 3)%nat
  ∧ out.2 !! UserDataSpec.copyKey "ali" 1000 = None
  ∧ out.2 !! UserDataSpec.copyKey "ali" 4000
    = st0 !! CSVDataManager.storageKey "ali"
  ∧ out.2 !! CSVDataManager.backupKey "ali"
    = st0 !! CSVDataManager.backupKey "ali".
Proof.
  intros st0 out.
  destruct (backupUserData_keeps_three 4000 ∅ "ali") as [Hnone _].
  destruct (backupUserData_keeps_three 4000 st0 "ali") as [_ Hsome].
  destruct (st0 !! CSVDataManager.storageKey "ali") as [csvContent|] eqn:E;
    [| vm_compute in E; discriminate].
  destruct (Hsome csvContent eq_refl) as (H1 & _ & H3 & H4 & _).
  { intros ->. vm_compute in E. discriminate. }
  split; [apply Hnone; reflexivity |].
  split; [exact H1 |]. split; [exact H3 |].
  split; [vm_compute; reflexivity |].
  split; [rewrite <- E; vm_compute; reflexivity |].
  rewrite H4 by (vm_compute; reflexivity).
  vm_compute. reflexivity.
Defined.

Module ExportFacts.

Import CSVDataManager CSVSpec ImportSpec ExportSpec StrFacts.

(** *** Lines of a text that goes on after a line feed *)

Lemma split_lines_nonempty (s : string) : split_lines s ≠ [].
Proof.
  induction s as [|c s IH]; simpl; [done |].
  destruct (Ascii.eqb c nl); [done |]. by destruct (split_lines s).
Qed.

Lemma split_lines_app_nl (a b : string) :
  split_lines (a +:+ String nl b) = split_lines a ++ split_lines b.
Proof.
  induction a as [|c a IH]; simpl.
  - done.
  - destruct (Ascii.eqb c nl); [by rewrite IH |].
    rewrite IH. pose proof (split_lines_nonempty a).
    by destruct (split_lines a).
Qed.

(** *** Characters that survive trimming and lower-casing *)

Lemma has_char_trimStart (c : ascii) (s : string) :
  has_char c s = false → has_char c (trimStart s) = false.
Proof.
  induction s as [|d s IH]; simpl; [done |].
  intros [Hd Hs]%orb_false_iff. destruct (is_space d); [by apply IH |].
  simpl. by rewrite Hd, Hs.
Qed.

Lemma has_char_trimEnd (c : ascii) (s : string) :
  has_char c s = false → has_char c (trimEnd s) = false.
Proof.
  induction s as [|d s IH]; simpl; [done |].
  intros [Hd Hs]%orb_false_iff. destruct (_ && _); [done |].
  simpl. by rewrite Hd, IH.
Qed.

Lemma has_char_trim (c : ascii) (s : string) :
  has_char c s = false → has_char c (trim s) = false.
Proof. intros H. by apply has_char_trimEnd, has_char_trimStart. Qed.

Lemma lower_char_m (d : ascii) :
  Ascii.eqb (lower_char d) "m" = true →
  Ascii.eqb d "m" = true ∨ Ascii.eqb d "M" = true.
Proof.
  destruct d as [[] [] [] [] [] [] [] []]; vm_compute; intros H;
    try discriminate H; auto.
Qed.

Lemma has_char_lower_m (s : string) :
  has_char "m" s = false → has_char "M" s = false →
  has_char "m" (toLowerCase s) = false.
Proof.
  induction s as [|d s IH]; simpl; [done |].
  intros [Hd Hs]%orb_false_iff [HD HS]%orb_false_iff.
  rewrite IH by done. rewrite orb_false_r.
  destruct (Ascii.eqb (lower_char d) "m") eqn:E; [| done].
  apply lower_char_m in E as [E | E]; congruence.
Qed.

Lemma startsWith_has_char (c : ascii) (p s : string) :
  startsWith (String c p) s = true → has_char c s = true.
Proof.
  destruct s as [|d s]; simpl; [done |].
  intros [H _]%andb_true_iff. by rewrite H.
Qed.

Lemma includes_has_char (c : ascii) (p s : string) :
  has_char c s = false → includes (String c p) s = false.
Proof.
  induction s as [|d s IH].
  - done.
  - intros H. cbn [includes]. apply orb_false_iff. split.
    + destruct (startsWith (String c p) (String d s)) eqn:E; [| done].
      apply startsWith_has_char in E. congruence.
    + apply IH. simpl in H. by apply orb_false_iff in H as [_ ?].
Qed.

(** A line without the letter m is not taken for the column header. *)
Lemma isHeaderLine_m (l : string) :
  has_char "m" l = false → has_char "M" l = false → isHeaderLine l = false.
Proof.
  intros H1 H2. unfold isHeaderLine.
  assert (includes "amount" (toLowerCase (trim l)) = false) as ->.
  { change "amount" with (String "a" "mount").
    destruct (includes (String "a" "mount") (toLowerCase (trim l))) eqn:E; [| done].
    exfalso.
    assert (has_char "m" (toLowerCase (trim l)) = false) as Hm
      by (apply has_char_lower_m; by apply has_char_trim).
    clear H1 H2. revert E Hm. generalize (toLowerCase (trim l)) as s.
    induction s as [|d s IH]; [done |].
    cbn [includes has_char]. intros [E | E]%orb_true_iff [Hd Hs]%orb_false_iff.
    - destruct s as [|d' s]; [simpl in E; by rewrite andb_false_r in E |].
      cbn [startsWith] in E. apply andb_true_iff in E as [_ E].
      apply andb_true_iff in E as [E _]. simpl in Hs.
      apply orb_false_iff in Hs as [Hs _]. congruence.
    - by apply IH. }
  by rewrite andb_false_r.
Qed.

Lemma of_uint_m (c : ascii) (d : Decimal.uint) :
  Ascii.eqb c "m" = true ∨ Ascii.eqb c "M" = true →
  has_char c (DecimalString.NilEmpty.string_of_uint d) = false.
Proof.
  intros Hc.
  assert (c = "m"%char ∨ c = "M"%char) as [-> | ->]
    by (destruct Hc as [H | H]; apply Ascii.eqb_eq in H; auto);
    induction d; simpl; done.
Qed.

Lemma total_line_is_no_header (count : nat) :
  isHeaderLine ("# Total Expenses: " +:+ Str.of_nat count) = false.
Proof.
  apply isHeaderLine_m; rewrite has_char_app; apply orb_false_iff;
    (split; [done | apply of_uint_m; auto]).
Qed.

(** *** The lines of an exported text *)

Lemma split_lines_encode_header (username timestamp : string)
    (rows : list string) (count : nat) :
  has_char nl username = false → has_char nl timestamp = false →
  Forall (λ r, has_char nl r = false) rows →
  split_lines (csvHeader username timestamp count +:+ join (str1 nl) rows)
  = headerLines username timestamp count
    ++ columns :: (if rows is [] then [EmptyString] else rows).
Proof.
  intros Hu Ht Hrows.
  set (pre := headerLines username timestamp count).
  replace (csvHeader username timestamp count +:+ join (str1 nl) rows)
    with (join (str1 nl) ((pre ++ [columns]) ++ [join (str1 nl) rows])).
  - rewrite CSVFacts.split_lines_join_last.
    + rewrite <- app_assoc. cbn [app]. do 7 f_equal.
      destruct rows as [|r rows]; [done |]. by apply split_lines_join.
    + subst pre. unfold headerLines. cbn [app].
      repeat (apply Forall_cons; split; [simpl; try done |]);
        [apply CSVFacts.of_uint_nl | done].
  - subst pre. unfold headerLines, csvHeader, join. cbn [String.concat app].
    by rewrite !append_assoc.
Qed.

Lemma findImportStart_skip (pre rest : list string) (i : nat) :
  Forall (λ l, isHeaderLine l = false) pre →
  findImportStart (pre ++ columns :: rest) i = S (i + length pre).
Proof.
  revert i. induction pre as [|l pre IH]; intros i Hpre.
  - simpl. f_equal. lia.
  - apply Forall_cons in Hpre as [Hl Hpre]. cbn [app findImportStart].
    rewrite Hl, IH by done. simpl. lia.
Qed.

Section WithRuntime.
Context (rt : Runtime).

Abbreviation csvRow := (CSVSpec.csvRow rt).
Abbreviation portable := (CSVSpec.portable rt).
Abbreviation parsedRows := (ImportSpec.parsedRows rt).

(** *** The rows of an exported text, as the import reads them *)

Lemma parsedRows_rows (now : Z) (D : list Expense) (tail : list string) (i : nat) :
  Forall (λ e, fst (validateExpense rt now e) = true ∧ portable e) D →
  parsedRows now (map csvRow D ++ tail) i
  = map (λ e, (Some e, [])) D ++ parsedRows now tail (i + length D).
Proof.
  revert i. induction D as [|e D IH]; intros i HD.
  - simpl. by rewrite Nat.add_0_r.
  - apply Forall_cons in HD as [[Hv He] HD].
    cbn [map app ImportSpec.parsedRows].
    destruct (CSVFacts.csvRow_line rt now e Hv He) as (Ht & Hne & Hh).
    unfold isData. rewrite Ht, Hne, Hh. cbn [negb andb].
    rewrite (CSVFacts.csvRowToExpense_csvRow rt now e (S i) Hv He).
    cbn [app]. f_equal. rewrite IH by done. do 2 f_equal. simpl. lia.
Qed.

Lemma validRows_Some (D : list Expense) :
  validRows (map (λ e, (Some e, [])) D) = D.
Proof.
  induction D as [|e D IH]; [done |].
  cbn [map]. rewrite ImportFacts.validRows_cons. cbn [fst]. by rewrite IH.
Qed.

Lemma invalidCount_Some (D : list Expense) :
  invalidCount (map (λ e, (Some e, []) : option Expense * list string) D) = 0%nat.
Proof.
  induction D as [|e D IH]; [done |].
  cbn [map]. by rewrite ImportFacts.invalidCount_cons.
Qed.

Lemma accepted_length (acc valid : list Expense) :
  (length acc ≤ length (accepted acc valid))%nat.
Proof.
  revert acc. induction valid as [|e valid IH]; intros acc; simpl; [done |].
  destruct (isDuplicate acc e); [apply IH |].
  etrans; [| apply IH]. rewrite length_app. simpl. lia.
Qed.

Lemma accepted_nonempty (D : list Expense) : D ≠ [] → accepted [] D ≠ [].
Proof.
  destruct D as [|e D]; [done |]. intros _. simpl.
  pose proof (accepted_length [e] D) as H. simpl in H.
  destruct (accepted [e] D); [simpl in H; lia | done].
Qed.

Lemma exportUserData_stored (t_done t_name : Z) (st : gmap string string)
    (username csvContent : string) :
  st !! storageKey username = Some csvContent →
  String.eqb csvContent EmptyString = false →
  UserData.exportUserData rt t_done t_name st username
  = Some (exportName rt t_name username, exportText rt t_done csvContent).
Proof.
  intros H1 H2. unfold UserData.exportUserData. by rewrite H1, H2.
Qed.

End WithRuntime.

Lemma toLowerCase_app (a b : string) :
  toLowerCase (a +:+ b) = toLowerCase a +:+ toLowerCase b.
Proof. induction a as [|c a IH]; simpl; [done | by rewrite IH]. Qed.

Lemma endsWith_app (a suf : string) : endsWith suf (a +:+ suf) = true.
Proof.
  induction a as [|c a IH].
  - simpl. destruct suf; simpl; by rewrite ?String.eqb_refl, ?Ascii.eqb_refl.
  - cbn [String.append endsWith]. rewrite IH. apply orb_true_r.
Qed.

Lemma exportName_csv (rt : Runtime) (t_name : Z) (username : string) :
  endsWith ".csv" (toLowerCase (exportName rt t_name username)) = true.
Proof.
  unfold exportName. rewrite <- !append_assoc, toLowerCase_app.
  apply endsWith_app.
Qed.

Lemma trim_hash (s : string) : trim (String hash s) ≠ EmptyString.
Proof. unfold trim. simpl. by destruct (trimEnd s). Qed.

End ExportFacts.

(** X12.  What [exportUserData] downloads, [importUserData] takes back, under
    these conditions.  The dataset is not empty.  Every record of it passes
    validation and is [portable]: its id, description and date have no white
    space at either end and no line feed, its id does not start with the
    comment mark [#], and the engine reads back the amount it printed.  The
    user name and the time stamps of the save and of the export have no line
    feed.  Neither the line [# User: ] with the user name nor the line
    [# Export Date: ] with the time of the save is taken for the header row,
    that is, contains [id], [amount] and [category] once put in lower case.
    The dataset was saved by [saveExpenses], and the export is made from the
    store that save left.  The exported text has at most 5 MB in UTF-8.  The
    importing user is named.  Then the import of the downloaded file, into
    any store, succeeds; it counts as imported the records of the dataset
    that are no duplicate of an earlier one and the others as skipped; and
    it leaves under the importing user's storage key the encoding of the
    imported records. *)
Theorem export_then_import (rt : Runtime) (t_save t_done t_name now t_import : Z)
    (st st' st2 : gmap string string) (username username2 name text : string)
    (D : list Expense) :
  has_char nl username = false →
  has_char nl (toISOString rt t_save) = false →
  has_char nl (toISOString rt t_done) = false →
  CSVDataManager.isHeaderLine ("# User: " +:+ username) = false →
  CSVDataManager.isHeaderLine ("# Export Date: " +:+ toISOString rt t_save)
  = false →
  D ≠ [] →
  Forall (λ e, fst (CSVDataManager.validateExpense rt now e) = true
               ∧ CSVSpec.portable rt e) D →
  CSVDataManager.saveExpenses rt t_save st username (expenses_json D) = inr st' →
  UserData.exportUserData rt t_done t_name st' username = Some (name, text) →
  Z.of_nat (UserData.byteLength text) ≤ 5 * 1024 * 1024 →
  username2 ≠ EmptyString →
  let out :=
    CSVDataManager.importUserData rt now t_import st2 username2
      (ExportSpec.downloaded name text) in
  let kept := ImportSpec.accepted [] D in
  CSVDataManager.success out.1 = true
  ∧ CSVDataManager.importedCount out.1 = length kept
  ∧ CSVDataManager.skippedCount out.1 = ImportSpec.duplicateCount [] D
  ∧ out.2 !! CSVDataManager.storageKey username2
    = Some (CSVSpec.encode rt username2 (toISOString rt t_import) kept).
Proof.
  intros Hu Hts Htd Huser Hdate HD Hall Hsave Hexport Hsize Hu2.
  apply SaveFacts.saveExpenses_keys in Hsave as (Hstored & _).
  rewrite (ExportFacts.exportUserData_stored rt t_done t_name st' username _ Hstored)
    in Hexport by apply SaveFacts.encode_nonempty.
  assert (name = ExportSpec.exportName rt t_name username) as -> by congruence.
  assert (text = ExportSpec.exportText rt t_done
                   (CSVSpec.encode rt username (toISOString rt t_save) D))
    as Htext by congruence.
  clear Hexport Hstored.
  set (closing := ExportSpec.closing rt t_done).
  assert (split_lines text
          = ExportSpec.headerLines username (toISOString rt t_save) (length D)
            ++ CSVDataManager.columns
               :: (map (CSVSpec.csvRow rt) D ++ [EmptyString; closing]))
    as Hlines.
  { rewrite Htext. unfold ExportSpec.exportText. fold closing.
    change (str1 nl +:+ str1 nl +:+ closing)
      with (String nl (EmptyString +:+ String nl closing)).
    rewrite !ExportFacts.split_lines_app_nl.
    unfold CSVSpec.encode.
    rewrite ExportFacts.split_lines_encode_header; [| done | done |].
    - rewrite <- app_assoc. cbn [app]. f_equal. f_equal.
      destruct D as [|e D]; [done |]. cbn [map].
      rewrite (StrFacts.split_lines_single closing); [done |].
      subst closing. unfold ExportSpec.closing.
      by rewrite StrFacts.has_char_app, Htd.
    - apply Forall_map. eapply Forall_impl; [exact Hall |].
      intros e [Hv He]. by eapply CSVFacts.csvRow_nl. }
  assert (trim text ≠ EmptyString) as Htrim.
  { rewrite Htext. apply ExportFacts.trim_hash. }
  clear Htext.
  cbn zeta. unfold CSVDataManager.importUserData.
  cbn [ExportSpec.downloaded File_name File_size File_text].
  rewrite ExportFacts.exportName_csv. cbn [negb].
  replace (5 * 1024 * 1024 <? Z.of_nat (UserData.byteLength text)) with false
    by (symmetry; apply Z.ltb_ge; lia).
  replace (String.eqb (trim text) EmptyString) with false
    by (symmetry; by apply String.eqb_neq).
  rewrite Hlines. clear Hlines.
  rewrite ExportFacts.findImportStart_skip.
  2:{ unfold ExportSpec.headerLines.
      repeat (apply Forall_cons; split; [try done |]); [| done].
      apply ExportFacts.total_line_is_no_header. }
  cbn [ExportSpec.headerLines length Nat.add Nat.eqb app drop].
  pose proof (ImportFacts.importRows_spec rt now
                (map (CSVSpec.csvRow rt) D ++ [EmptyString; closing]) 7
                {| CSVDataManager.imp_expenses := [];
                   CSVDataManager.imp_importedCount := 0;
                   CSVDataManager.imp_skippedCount := 0;
                   CSVDataManager.imp_errors := [] |}) as Hspec.
  cbn zeta in Hspec. cbn [CSVDataManager.imp_expenses
    CSVDataManager.imp_importedCount CSVDataManager.imp_skippedCount
    CSVDataManager.imp_errors length] in Hspec.
  rewrite (ExportFacts.parsedRows_rows rt now D _ 7 Hall) in Hspec.
  assert (ImportSpec.parsedRows rt now [EmptyString; closing] (7 + length D) = [])
    as Htail.
  { cbn [ImportSpec.parsedRows]. unfold ImportSpec.isData.
    change (trim EmptyString) with EmptyString. cbn [String.eqb negb andb app].
    replace (startsWith "#" (trim closing)) with true; [by rewrite andb_false_r |].
    symmetry. apply (CSVFacts.comment_hash). }
  rewrite Htail, app_nil_r in Hspec.
  rewrite ExportFacts.validRows_Some, ExportFacts.invalidCount_Some in Hspec.
  destruct Hspec as (Hexp & Himp & Hskip & _).
  set (s := CSVDataManager.importRows rt now _ 7 _) in *.
  pose proof (ExportFacts.accepted_nonempty D HD) as Hne.
  rewrite <- Hexp in Hne.
  replace (length (CSVDataManager.imp_expenses s) =? 0)%nat with false
    by (symmetry; apply Nat.eqb_neq; by destruct (CSVDataManager.imp_expenses s)).
  destruct (CSVFacts.saveExpenses_typed rt t_import st2 username2
              (CSVDataManager.imp_expenses s) Hu2) as (st3 & -> & Hkey & _).
  cbn. rewrite <- Hexp. repeat split; [lia | lia | done].
Qed.

Lemma export_then_import_witness :
  let D := [lunch; rent] in
  let name := ExportSpec.exportName Engine.engine noon "ali" in
  let text :=
    ExportSpec.exportText Engine.engine noon
      (CSVSpec.encode Engine.engine "ali" (toISOString Engine.engine noon) D) in
  let out :=
    CSVDataManager.importUserData Engine.engine noon noon ∅ "bilal"
      (ExportSpec.downloaded name text) in
  name = "pak-kharcha-ali-2024-01-02T12-00-00.csv"
  ∧ map id (ImportSpec.accepted [] D) = ["e-1"; "r1"]
  ∧ CSVDataManager.success out.1 = true
  ∧ CSVDataManager.importedCount out.1 = length (ImportSpec.accepted [] D)
  ∧ CSVDataManager.skippedCount out.1 = ImportSpec.duplicateCount [] D
  ∧ out.2 !! CSVDataManager.storageKey "bilal"
    = Some (CSVSpec.encode Engine.engine "bilal" (toISOString Engine.engine noon)
              (ImportSpec.accepted [] D)).
Proof.
  intros D name text out.
  split; [vm_compute; reflexivity |]. split; [vm_compute; reflexivity |].
  refine (export_then_import Engine.engine noon noon noon noon noon ∅
            (store_with D) ∅ "ali" "bilal" name text D _ _ _ _ _ _ _ _ _ _ _).
  - vm_compute. reflexivity.
  - vm_compute. reflexivity.
  - vm_compute. reflexivity.
  - vm_compute. reflexivity.
  - vm_compute. reflexivity.
  - discriminate.
  - repeat (apply Forall_cons; split;
            [split; [vm_compute; reflexivity | constructor; vm_compute; reflexivity] |]).
    by apply Forall_nil.
  - apply OutcomeFacts.store_with_saved. vm_compute. reflexivity.
  - apply ExportFacts.exportUserData_stored; [| reflexivity].
    apply (bool_decide_unpack _). vm_compute. exact I.
  - vm_compute. discriminate.
  - discriminate.
Defined.
